(** * Dataset adapters and model registry of the transfer-learning toolkit

    A shallow embedding of

    - [tlt/datasets/image_classification/tf_custom_image_classification_dataset.py]
    - [tlt/datasets/image_classification/torchvision_image_classification_dataset.py]

    together with the parts of the model factory and of the model wrappers
    that are exercised by [tests/tensorflow/unit/test_models.py].

    Python methods are embedded as computations in a state-and-exception
    monad: a method reads and writes the attributes of [self] and either
    returns or raises.  Calls into TensorFlow, torchvision and the operating
    system are parameters of the development; every such call is recorded in
    a trace so that "before the native dataset is built" is a statement about
    that trace. *)

From stdpp Require Import gmap strings list fin_maps pretty.
From Stdlib Require Import ZArith QArith Lia Ascii String.

Local Open Scope Z_scope.
Local Open Scope string_scope.
Set Warnings "-register-all".

(** ** Python values *)

Module Py.

(** The values that reach the modelled functions as arguments.  A float is
    carried by its literal text: the code only ever tests it with
    [isinstance(_, int)] and prints it. *)
Inductive pyval : Type :=
  | PyNone
  | PyBool (b : bool)
  | PyInt (z : Z)
  | PyFloat (literal : string)
  | PyStr (s : string)
  | PyList (items : list pyval).

(** The exceptions that the modelled code raises or lets through. *)
Inductive exn : Type :=
  | ValueError (msg : string)
  | TypeError (msg : string)
  | FileNotFoundError (msg : string)
  | AttributeError (msg : string)
  | UnboundLocalError (msg : string)
  | RuntimeError (msg : string).

Definition is_ValueError (e : exn) : bool :=
  match e with ValueError _ => true | _ => false end.

Definition is_TypeError (e : exn) : bool :=
  match e with TypeError _ => true | _ => false end.

Definition message (e : exn) : string :=
  match e with
  | ValueError m | TypeError m | FileNotFoundError m
  | AttributeError m | UnboundLocalError m | RuntimeError m => m
  end.

(** [isinstance(v, int)]: [bool] is a subclass of [int]. *)
Definition isinstance_int (v : pyval) : bool :=
  match v with PyInt _ | PyBool _ => true | _ => false end.

Definition isinstance_bool (v : pyval) : bool :=
  match v with PyBool _ => true | _ => false end.

Definition isinstance_str (v : pyval) : bool :=
  match v with PyStr _ => true | _ => false end.

Definition isinstance_list (v : pyval) : bool :=
  match v with PyList _ => true | _ => false end.

(** The integer an [int] instance denotes ([True] is 1, [False] is 0). *)
Definition int_value (v : pyval) : option Z :=
  match v with
  | PyInt z => Some z
  | PyBool true => Some 1
  | PyBool false => Some 0
  | _ => None
  end.

(** [s in names] for a list of string constants: a value that is not a
    string is equal to none of them. *)
Definition py_in (v : pyval) (names : list string) : bool :=
  match v with
  | PyStr s => existsb (String.eqb s) names
  | _ => false
  end.

(** [x in l] for a list of values and a string constant [x]. *)
Definition str_in (x : string) (l : list pyval) : bool :=
  existsb (fun v => match v with PyStr s => String.eqb x s | _ => false end) l.

Definition join (sep : string) : list string -> string :=
  fix go (l : list string) : string :=
    match l with
    | [] => ""
    | [x] => x
    | x :: rest => x ++ sep ++ go rest
    end.

(** [repr(v)], as [str.format] prints list and dict members (quotes inside
    strings are not escaped here). *)
Fixpoint repr (v : pyval) : string :=
  match v with
  | PyNone => "None"
  | PyBool true => "True"
  | PyBool false => "False"
  | PyInt z => @pretty Z _ z
  | PyFloat lit => lit
  | PyStr s => "'" ++ s ++ "'"
  | PyList items => "[" ++ join ", " (List.map repr items) ++ "]"
  end.

(** A small [dict] with string keys, in insertion order. *)
Definition dict : Type := list (string * pyval).

Definition repr_dict (d : dict) : string :=
  "{" ++ join ", " (List.map (fun kv => repr (PyStr (fst kv)) ++ ": " ++ repr (snd kv)) d) ++ "}".

(** Truth value of an attribute that holds [None] or a [dict]. *)
Definition truthy_dict (d : option dict) : bool :=
  match d with
  | Some (_ :: _) => true
  | _ => false
  end.

(** [range(start, stop)]. *)
Record range : Type := Range { start : Z; stop : Z }.

Definition range1 (n : Z) : range := Range 0 n.

(** [needle in haystack] on strings. *)
Fixpoint contains (needle haystack : string) : bool :=
  String.prefix needle haystack
  || match haystack with
     | EmptyString => false
     | String _ rest => contains needle rest
     end.

End Py.
Import Py.

(** ** State and exception monad *)

Module Eff.

(** A computation over a mutable state [S]: it ends with a value or with a
    raised exception, and in both cases leaves a state behind. *)
Definition M (S A : Type) : Type := S -> (exn + A) * S.

Definition ret {S A} (a : A) : M S A := fun s => (inr a, s).

Definition bind {S A B} (m : M S A) (k : A -> M S B) : M S B :=
  fun s =>
    match m s with
    | (inr a, s') => k a s'
    | (inl e, s') => (inl e, s')
    end.

Definition raise {S A} (e : exn) : M S A := fun s => (inl e, s).

Definition get {S} : M S S := fun s => (inr s, s).

Definition put {S} (s : S) : M S unit := fun _ => (inr tt, s).

Definition modify {S} (f : S -> S) : M S unit := fun s => (inr tt, f s).

(** [if c: raise e]. *)
Definition raise_if {S} (c : bool) (e : exn) : M S unit :=
  if c then raise e else ret tt.

(** [try: body / except <class>: handler], where [catches] selects the
    exception class. The handler starts in the state the body left. *)
Definition try_except {S A} (body : M S A) (catches : exn -> bool)
    (handler : M S A) : M S A :=
  fun s =>
    match body s with
    | (inl e, s') => if catches e then handler s' else (inl e, s')
    | r => r
    end.

(** [try: body / finally: cleanup]. The clean-up always runs; an exception
    it raises replaces the pending one. *)
Definition try_finally {S A} (body : M S A) (cleanup : M S unit) : M S A :=
  fun s =>
    match body s with
    | (r, s') =>
        match cleanup s' with
        | (inl e, s'') => (inl e, s'')
        | (inr _, s'') => (r, s'')
        end
    end.

(** [for x in l: body x]. *)
Fixpoint for_each {S A} (l : list A) (body : A -> M S unit) : M S unit :=
  match l with
  | [] => ret tt
  | x :: rest => bind (body x) (fun _ => for_each rest body)
  end.

Declare Scope eff_scope.
Delimit Scope eff_scope with eff.
Notation "x <- m ;; k" := (bind m (fun x => k))
  (at level 100, m at next level, right associativity) : eff_scope.
Notation "m ;;; k" := (bind m (fun _ => k))
  (at level 100, right associativity) : eff_scope.

End Eff.
Import Eff.
Local Open Scope eff_scope.

(** ** The custom TensorFlow image classification dataset *)

Module TFCustom.

(** Steps of the function mapped over the images. *)
Inductive image_op : Type :=
  | resize_with_pad (target_height target_width : pyval)
  | Rescaling (scale : Q).

Inductive buffer_size : Type := AUTOTUNE | Buffer (n : Z).

(** A [tf.data.Dataset] is an immutable pipeline description: every
    transformation returns a new dataset wrapping the old one. *)
Inductive tf_dataset : Type :=
  | ImageDirectory (directory : string) (class_names : list string)
      (color_mode : string) (shuffle : bool) (seed : option Z)
  | Map (f : list image_op) (input : tf_dataset)
  | Cache (input : tf_dataset)
  | Batch (batch_size : pyval) (input : tf_dataset)
  | Prefetch (buffer : buffer_size) (input : tf_dataset).

(** [Dataset.__bool__] returns [True]; an attribute is false only when it
    holds [None]. *)
Definition truthy (d : option tf_dataset) : bool :=
  match d with Some _ => true | None => false end.

(** The attributes of a dataset object; the first three are the ones that
    [ImageClassificationDataset.__init__(self, dataset_dir, dataset_name,
    dataset_catalog=None)] receives. *)
Record obj : Type := {
  _dataset_dir : string;
  _dataset_name : string;
  _dataset_catalog : pyval;
  _info : dict;
  _preprocessed : option dict;
  _dataset : option tf_dataset;
  _class_names : list string;
  _train_pct : Q;
  _val_pct : Q;
  _test_pct : Q;
  _validation_type : string;
  _train_subset : option tf_dataset;
  _validation_subset : option tf_dataset;
  _test_subset : option tf_dataset
}.

(** Calls that leave the class: the file-system test and the Keras loader. *)
Inductive event : Type :=
  | os_path_exists (path : string)
  | image_dataset_from_directory (directory : string) (shuffle : bool)
      (seed : option Z) (color_mode : string).

Definition is_loader_call (ev : event) : bool :=
  match ev with image_dataset_from_directory _ _ _ _ => true | _ => false end.

(** [os.path.basename]: what follows the last slash. *)
Fixpoint basename_from (acc path : string) : string :=
  match path with
  | EmptyString => acc
  | String c rest =>
      if Ascii.eqb c "/"%char then basename_from "" rest
      else basename_from (acc ++ String c "") rest
  end.

Definition basename (path : string) : string := basename_from "" path.

Section Constructor.

(** [os.path.exists] on the machine the code runs on. *)
Variable path_exists : string -> bool.

(** [tf.keras.utils.image_dataset_from_directory(directory,
    batch_size=None, shuffle=..., seed=..., color_mode=...)]: it returns a
    dataset or raises. *)
Variable keras_loader :
  string -> bool -> option Z -> string -> exn + tf_dataset.

Definition call_path_exists (path : string) : M (list event) bool :=
  modify (fun t => (t ++ [os_path_exists path])%list) ;;;
  ret (path_exists path).

Definition call_image_dataset_from_directory (directory : string)
    (shuffle : bool) (seed : option Z) (color_mode : string)
    : M (list event) tf_dataset :=
  modify (fun t =>
            (t ++ [image_dataset_from_directory
                     directory shuffle seed color_mode])%list) ;;;
  match keras_loader directory shuffle seed color_mode with
  | inl e => raise e
  | inr d => ret d
  end.

(** [dataset.class_names]: only the dataset built by the loader has it. *)
Definition class_names_of (d : tf_dataset) : M (list event) (list string) :=
  match d with
  | ImageDirectory _ names _ _ _ => ret names
  | _ => raise (AttributeError "object has no attribute 'class_names'")
  end.

(** [not dataset_name] for a name that is [None] or a string. *)
Definition name_missing (dataset_name : option string) : bool :=
  match dataset_name with
  | None | Some EmptyString => true
  | Some _ => false
  end.

Definition __init__ (dataset_dir : string) (dataset_name : option string)
    (color_mode : string) (shuffle_files : bool) (seed : option Z)
    : M (list event) obj :=
  found <- call_path_exists dataset_dir ;;
  raise_if (negb found)
    (FileNotFoundError
       ("The dataset directory (" ++ dataset_dir ++ ") does not exist")) ;;;
  let dataset_name :=
    if name_missing dataset_name then basename dataset_dir
    else default "" dataset_name in
  dataset <- call_image_dataset_from_directory
               dataset_dir shuffle_files seed color_mode ;;
  class_names <- class_names_of dataset ;;
  ret {| _dataset_dir := dataset_dir;
         _dataset_name := dataset_name;
         _dataset_catalog := PyNone;
         _info := [("name", PyStr dataset_name);
                   ("dataset_dir", PyStr dataset_dir);
                   ("color_mode", PyStr color_mode)];
         _preprocessed := None;
         _dataset := Some dataset;
         _class_names := class_names;
         _train_pct := 1;
         _val_pct := 0;
         _test_pct := 0;
         _validation_type := "recall";
         _train_subset := None;
         _validation_subset := None;
         _test_subset := None |}.

(** [TFCustomImageClassificationDataset(dataset_dir, ...)]: the object or
    the exception, and the calls made on the way. *)
Definition new (dataset_dir : string) (dataset_name : option string)
    (color_mode : string) (shuffle_files : bool) (seed : option Z)
    : (exn + obj) * list event :=
  __init__ dataset_dir dataset_name color_mode shuffle_files seed [].

End Constructor.

(** [getattr(self, name, None)] on the four split attributes. *)
Definition getattr (self : obj) (name : string) : option tf_dataset :=
  if String.eqb name "_dataset" then _dataset self
  else if String.eqb name "_train_subset" then _train_subset self
  else if String.eqb name "_validation_subset" then _validation_subset self
  else if String.eqb name "_test_subset" then _test_subset self
  else None.

Definition with_dataset (v : option tf_dataset) (o : obj) : obj :=
  {| _dataset_dir := _dataset_dir o; _dataset_name := _dataset_name o;
     _dataset_catalog := _dataset_catalog o; _info := _info o;
     _preprocessed := _preprocessed o; _dataset := v;
     _class_names := _class_names o; _train_pct := _train_pct o;
     _val_pct := _val_pct o; _test_pct := _test_pct o;
     _validation_type := _validation_type o;
     _train_subset := _train_subset o;
     _validation_subset := _validation_subset o;
     _test_subset := _test_subset o |}.

Definition with_train_subset (v : option tf_dataset) (o : obj) : obj :=
  {| _dataset_dir := _dataset_dir o; _dataset_name := _dataset_name o;
     _dataset_catalog := _dataset_catalog o; _info := _info o;
     _preprocessed := _preprocessed o; _dataset := _dataset o;
     _class_names := _class_names o; _train_pct := _train_pct o;
     _val_pct := _val_pct o; _test_pct := _test_pct o;
     _validation_type := _validation_type o;
     _train_subset := v;
     _validation_subset := _validation_subset o;
     _test_subset := _test_subset o |}.

Definition with_validation_subset (v : option tf_dataset) (o : obj) : obj :=
  {| _dataset_dir := _dataset_dir o; _dataset_name := _dataset_name o;
     _dataset_catalog := _dataset_catalog o; _info := _info o;
     _preprocessed := _preprocessed o; _dataset := _dataset o;
     _class_names := _class_names o; _train_pct := _train_pct o;
     _val_pct := _val_pct o; _test_pct := _test_pct o;
     _validation_type := _validation_type o;
     _train_subset := _train_subset o;
     _validation_subset := v;
     _test_subset := _test_subset o |}.

Definition with_test_subset (v : option tf_dataset) (o : obj) : obj :=
  {| _dataset_dir := _dataset_dir o; _dataset_name := _dataset_name o;
     _dataset_catalog := _dataset_catalog o; _info := _info o;
     _preprocessed := _preprocessed o; _dataset := _dataset o;
     _class_names := _class_names o; _train_pct := _train_pct o;
     _val_pct := _val_pct o; _test_pct := _test_pct o;
     _validation_type := _validation_type o;
     _train_subset := _train_subset o;
     _validation_subset := _validation_subset o;
     _test_subset := v |}.

Definition with_preprocessed (v : option dict) (o : obj) : obj :=
  {| _dataset_dir := _dataset_dir o; _dataset_name := _dataset_name o;
     _dataset_catalog := _dataset_catalog o; _info := _info o;
     _preprocessed := v; _dataset := _dataset o;
     _class_names := _class_names o; _train_pct := _train_pct o;
     _val_pct := _val_pct o; _test_pct := _test_pct o;
     _validation_type := _validation_type o;
     _train_subset := _train_subset o;
     _validation_subset := _validation_subset o;
     _test_subset := _test_subset o |}.

(** [setattr(self, name, v)] on the four split attributes. *)
Definition setattr (name : string) (v : option tf_dataset) (self : obj) : obj :=
  if String.eqb name "_dataset" then with_dataset v self
  else if String.eqb name "_train_subset" then with_train_subset v self
  else if String.eqb name "_validation_subset" then with_validation_subset v self
  else if String.eqb name "_test_subset" then with_test_subset v self
  else self.

(** The calls on a [tf.data.Dataset] that [preprocess] makes: [map],
    [cache], [batch] and [prefetch]. *)
Inductive transformation : Type :=
  | map_call (f : list image_op)
  | cache_call
  | batch_call (batch_size : pyval)
  | prefetch_call (buffer : buffer_size).

(** The dataset that a transformation returns when it returns. *)
Definition transformed (t : transformation) (d : tf_dataset) : tf_dataset :=
  match t with
  | map_call f => Map f d
  | cache_call => Cache d
  | batch_call n => Batch n d
  | prefetch_call b => Prefetch b d
  end.

(** The closure [preprocess_image] of [preprocess]: resize with padding to a
    square, then the [Rescaling(1. / 255)] layer. *)
Definition preprocess_image (image_size : pyval) : list image_op :=
  [resize_with_pad image_size image_size; Rescaling (1 # 255)].

Definition split_list : list string :=
  ["_dataset"; "_train_subset"; "_validation_subset"; "_test_subset"].

(** [not isinstance(v, int) or v < 1] *)
Definition not_positive_int (v : pyval) : bool :=
  negb (isinstance_int v)
  || match int_value v with Some z => (z <? 1)%Z | None => false end.

Section Preprocess.

(** TensorFlow's answer to a transformation call on a dataset: [None] when
    the call returns the transformed dataset, [Some e] when it raises [e]
    (as it does for sizes outside its integer types). *)
Variable framework_raises : transformation -> tf_dataset -> option exn.

(** [setattr(self, name, getattr(self, name).op(...))]: a method call on
    [None] raises [AttributeError], and the framework may raise in the
    call, before the attribute is assigned. *)
Definition update_split (name : string) (t : transformation)
    (method : string) : M obj unit :=
  self <- get ;;
  match getattr self name with
  | Some d =>
      match framework_raises t d with
      | Some e => raise e
      | None => put (setattr name (Some (transformed t d)) self)
      end
  | None =>
      raise (AttributeError
               ("'NoneType' object has no attribute '" ++ method ++ "'"))
  end.

Definition preprocess (image_size batch_size : pyval) : M obj unit :=
  self <- get ;;
  raise_if (truthy_dict (_preprocessed self))
    (ValueError ("Data has already been preprocessed: "
                 ++ match _preprocessed self with
                    | Some d => repr_dict d
                    | None => repr PyNone
                    end)) ;;;
  raise_if (not_positive_int batch_size)
    (ValueError "batch_size should be an positive integer") ;;;
  raise_if (not_positive_int image_size)
    (ValueError "image_size should be an positive integer") ;;;
  self <- get ;;
  raise_if (negb (truthy (_dataset self) || truthy (_train_subset self)
                  || truthy (_validation_subset self)
                  || truthy (_test_subset self)))
    (ValueError "Unable to preprocess, because the dataset hasn't been defined.") ;;;
  self <- get ;;
  let subsets := List.filter (fun s => truthy (getattr self s)) split_list in
  for_each subsets (fun subset =>
    self <- get ;;
    (if negb (truthy_dict (_preprocessed self)) then
       update_split subset (map_call (preprocess_image image_size)) "map" ;;;
       update_split subset cache_call "cache"
     else ret tt) ;;;
    update_split subset (batch_call batch_size) "batch" ;;;
    update_split subset (prefetch_call AUTOTUNE) "prefetch") ;;;
  modify (with_preprocessed
            (Some [("image_size", image_size); ("batch_size", batch_size)])).

End Preprocess.

(** The properties [class_names], [info] and [dataset] (lines 91-110). *)
Definition class_names (self : obj) : list string := _class_names self.

(** The dictionary that [info] returns, by its two keys. *)
Record info_dict : Type := {
  dataset_info : dict;
  preprocessing_info : option dict
}.

Definition info (self : obj) : info_dict :=
  {| dataset_info := _info self; preprocessing_info := _preprocessed self |}.

Definition dataset (self : obj) : option tf_dataset := _dataset self.

End TFCustom.

(** ** The torchvision image classification dataset *)

Module Torchvision.

Definition DATASETS : list string :=
  ["CIFAR10"; "Food101"; "CIFAR100"; "Country211"; "DTD"; "FGVCAircraft";
   "RenderedSST2"].

(** The keyword that selects the part of a torchvision dataset:
    [split='train'] or [train=True]. *)
Inductive selector : Type :=
  | split_kw (name : string)
  | train_kw (flag : bool).

(** A torch dataset as far as the constructor looks at it: what was asked
    from torchvision and how many items came back, or a concatenation. *)
Inductive torch_dataset : Type :=
  | VisionDataset (name root : string) (part : selector) (size : N)
  | ConcatDataset (first second : torch_dataset).

(** [len(d)]; [ConcatDataset] adds the lengths of its members. *)
Fixpoint len (d : torch_dataset) : Z :=
  match d with
  | VisionDataset _ _ _ size => Z.of_N size
  | ConcatDataset a b => len a + len b
  end.

(** Truth value of [self._dataset]: [None] is false, and a dataset, which
    defines [__len__] and no [__bool__], is true when it is not empty. *)
Definition truthy (d : option torch_dataset) : bool :=
  match d with
  | Some d => (0 <? len d)%Z
  | None => false
  end.

Record obj : Type := {
  _dataset_dir : string;
  _dataset_name : string;
  _num_workers : Z;
  _shuffle : bool;
  _preprocessed : dict;
  _dataset : option torch_dataset;
  _train_indices : option range;
  _validation_indices : option range;
  _test_indices : option range;
  _validation_type : option string;
  _info : option dict
}.

(** The attributes before [__init__] has assigned them. *)
Definition blank : obj :=
  {| _dataset_dir := ""; _dataset_name := ""; _num_workers := 0;
     _shuffle := false; _preprocessed := []; _dataset := None;
     _train_indices := None; _validation_indices := None;
     _test_indices := None; _validation_type := None; _info := None |}.

Definition with_dataset (v : option torch_dataset) (o : obj) : obj :=
  {| _dataset_dir := _dataset_dir o; _dataset_name := _dataset_name o;
     _num_workers := _num_workers o; _shuffle := _shuffle o;
     _preprocessed := _preprocessed o; _dataset := v;
     _train_indices := _train_indices o;
     _validation_indices := _validation_indices o;
     _test_indices := _test_indices o;
     _validation_type := _validation_type o; _info := _info o |}.

Definition with_train_indices (v : option range) (o : obj) : obj :=
  {| _dataset_dir := _dataset_dir o; _dataset_name := _dataset_name o;
     _num_workers := _num_workers o; _shuffle := _shuffle o;
     _preprocessed := _preprocessed o; _dataset := _dataset o;
     _train_indices := v;
     _validation_indices := _validation_indices o;
     _test_indices := _test_indices o;
     _validation_type := _validation_type o; _info := _info o |}.

Definition with_validation_indices (v : option range) (o : obj) : obj :=
  {| _dataset_dir := _dataset_dir o; _dataset_name := _dataset_name o;
     _num_workers := _num_workers o; _shuffle := _shuffle o;
     _preprocessed := _preprocessed o; _dataset := _dataset o;
     _train_indices := _train_indices o;
     _validation_indices := v;
     _test_indices := _test_indices o;
     _validation_type := _validation_type o; _info := _info o |}.

Definition with_test_indices (v : option range) (o : obj) : obj :=
  {| _dataset_dir := _dataset_dir o; _dataset_name := _dataset_name o;
     _num_workers := _num_workers o; _shuffle := _shuffle o;
     _preprocessed := _preprocessed o; _dataset := _dataset o;
     _train_indices := _train_indices o;
     _validation_indices := _validation_indices o;
     _test_indices := v;
     _validation_type := _validation_type o; _info := _info o |}.

Definition with_validation_type (v : string) (o : obj) : obj :=
  {| _dataset_dir := _dataset_dir o; _dataset_name := _dataset_name o;
     _num_workers := _num_workers o; _shuffle := _shuffle o;
     _preprocessed := _preprocessed o; _dataset := _dataset o;
     _train_indices := _train_indices o;
     _validation_indices := _validation_indices o;
     _test_indices := _test_indices o;
     _validation_type := Some v; _info := _info o |}.

Definition with_info (v : dict) (o : obj) : obj :=
  {| _dataset_dir := _dataset_dir o; _dataset_name := _dataset_name o;
     _num_workers := _num_workers o; _shuffle := _shuffle o;
     _preprocessed := _preprocessed o; _dataset := _dataset o;
     _train_indices := _train_indices o;
     _validation_indices := _validation_indices o;
     _test_indices := _test_indices o;
     _validation_type := _validation_type o; _info := Some v |}.

(** A call of the located torchvision class,
    [dataset_class(dataset_dir, <selector>, download=True)]. *)
Inductive event : Type :=
  | dataset_class_call (name root : string) (part : selector).

(** The running constructor: the object under construction, the local
    variable [test_data] (unbound until assigned) and the calls made. *)
Record frame : Type := Frame {
  self : obj;
  test_data : option torch_dataset;
  trace : list event
}.

Definition on_self (f : obj -> obj) : M frame unit :=
  modify (fun fr => Frame (f (self fr)) (test_data fr) (trace fr)).

Definition bind_test_data (d : torch_dataset) : M frame unit :=
  modify (fun fr => Frame (self fr) (Some d) (trace fr)).

Definition log (ev : event) : M frame unit :=
  modify (fun fr => Frame (self fr) (test_data fr) (trace fr ++ [ev])%list).

Definition read_self : M frame obj := fr <- get ;; ret (self fr).

(** Reading the local [test_data]. *)
Definition read_test_data : M frame torch_dataset :=
  fr <- get ;;
  match test_data fr with
  | Some d => ret d
  | None =>
      raise (UnboundLocalError
               "local variable 'test_data' referenced before assignment")
  end.

(** [len(self._dataset)] *)
Definition len_of_dataset : M frame Z :=
  o <- read_self ;;
  match _dataset o with
  | Some d => ret (len d)
  | None => raise (TypeError "object of type 'NoneType' has no len()")
  end.

(** [split[0] == name] *)
Definition head_is (split : list pyval) (name : string) : bool :=
  match split with
  | PyStr s :: _ => String.eqb s name
  | _ => false
  end.

Section Constructor.

(** What [locate('torchvision.datasets.<name>')] answers when it is called
    with a root directory and a selector: a dataset or an exception
    ([TypeError] for a keyword the class does not have). *)
Variable dataset_class : string -> string -> selector -> exn + torch_dataset.

(** [PyTorchDataset._make_data_loaders(batch_size)] stores data loaders,
    which are not tracked here; it may raise. *)
Variable make_data_loaders : obj -> Z -> option exn.

Definition call_dataset_class (name root : string) (part : selector)
    : M frame torch_dataset :=
  log (dataset_class_call name root part) ;;;
  match dataset_class name root part with
  | inl e => raise e
  | inr d => ret d
  end.

Definition _make_data_loaders (batch_size : Z) : M frame unit :=
  o <- read_self ;;
  match make_data_loaders o batch_size with
  | Some e => raise e
  | None => ret tt
  end.

(** Lines 56-76: exactly one split. *)
Definition single_split (dataset_dir dataset_name : string)
    (split : list pyval) : M frame unit :=
  (if head_is split "train" then
     try_except
       (d <- call_dataset_class dataset_name dataset_dir (split_kw "train") ;;
        on_self (with_dataset (Some d)))
       is_TypeError
       (d <- call_dataset_class dataset_name dataset_dir (train_kw true) ;;
        on_self (with_dataset (Some d)))
   else if head_is split "validation" then
     try_except
       (d <- call_dataset_class dataset_name dataset_dir (split_kw "val") ;;
        on_self (with_dataset (Some d)))
       is_TypeError
       (raise (ValueError
                 ("No validation split was found for this dataset: "
                  ++ dataset_name)))
   else if head_is split "test" then
     try_except
       (d <- call_dataset_class dataset_name dataset_dir (split_kw "test") ;;
        on_self (with_dataset (Some d)))
       is_TypeError
       (try_except
          (d <- call_dataset_class dataset_name dataset_dir (train_kw false) ;;
           on_self (with_dataset (Some d)))
          is_TypeError
          (raise (ValueError
                    ("No test split was found for this dataset: "
                     ++ dataset_name))))
   else ret tt) ;;;
  on_self (with_validation_type "recall").

(** Lines 79-84. *)
Definition add_train (dataset_dir dataset_name : string) : M frame unit :=
  try_except
    (d <- call_dataset_class dataset_name dataset_dir (split_kw "train") ;;
     on_self (with_dataset (Some d)))
    is_TypeError
    (d <- call_dataset_class dataset_name dataset_dir (train_kw true) ;;
     on_self (with_dataset (Some d))) ;;;
  n <- len_of_dataset ;;
  on_self (with_train_indices (Some (range1 n))).

(** Lines 85-97. *)
Definition add_validation (dataset_dir dataset_name : string)
    : M frame unit :=
  try_except
    (validation_data <-
       call_dataset_class dataset_name dataset_dir (split_kw "val") ;;
     let validation_length := len validation_data in
     o <- read_self ;;
     if truthy (_dataset o) then
       current_length <- len_of_dataset ;;
       on_self (with_dataset
                  (Some (ConcatDataset (default validation_data (_dataset o))
                           validation_data))) ;;;
       on_self (with_validation_indices
                  (Some (Range current_length
                           (current_length + validation_length))))
     else
       on_self (with_dataset (Some validation_data)) ;;;
       on_self (with_validation_indices (Some (range1 validation_length))))
    is_ValueError
    (raise (ValueError
              ("No validation split was found for this dataset: "
               ++ dataset_name))).

(** Lines 99-105: the [try] block of the test part and its handlers. *)
Definition load_test_data (dataset_dir dataset_name : string)
    : M frame unit :=
  try_except
    (d <- call_dataset_class dataset_name dataset_dir (split_kw "test") ;;
     bind_test_data d)
    is_TypeError
    (try_except
       (d <- call_dataset_class dataset_name dataset_dir (train_kw false) ;;
        bind_test_data d)
       is_ValueError
       (raise (ValueError
                 ("No test split was found for this dataset: "
                  ++ dataset_name)))).

(** Lines 106-114: the [finally] block of the test part. *)
Definition store_test_data : M frame unit :=
  test_data <- read_test_data ;;
  let test_length := len test_data in
  o <- read_self ;;
  if truthy (_dataset o) then
    current_length <- len_of_dataset ;;
    on_self (with_dataset
               (Some (ConcatDataset (default test_data (_dataset o))
                        test_data))) ;;;
    on_self (with_test_indices
               (Some (Range current_length (current_length + test_length))))
  else
    on_self (with_dataset (Some test_data)) ;;;
    on_self (with_validation_indices (Some (range1 test_length))).

(** Lines 98-114. *)
Definition add_test (dataset_dir dataset_name : string) : M frame unit :=
  try_finally (load_test_data dataset_dir dataset_name) store_test_data.

(** Lines 78-115: no split or several. *)
Definition multiple_splits (dataset_dir dataset_name : string)
    (split : list pyval) : M frame unit :=
  (if str_in "train" split then add_train dataset_dir dataset_name
   else ret tt) ;;;
  (if str_in "validation" split then add_validation dataset_dir dataset_name
   else ret tt) ;;;
  (if str_in "test" split then add_test dataset_dir dataset_name
   else ret tt) ;;;
  on_self (with_validation_type "defined_split").

(** Lines 38-44: the checks on the arguments. *)
Definition check_arguments (dataset_name : string) (split : pyval)
    : M frame (list pyval) :=
  match split with
  | PyList items =>
      for_each items (fun s =>
        raise_if (negb (isinstance_str s)
                  || negb (py_in s ["train"; "validation"; "test"]))
          (ValueError
             "Split argument can only contain these strings: train, validation, test.")) ;;;
      raise_if (negb (existsb (String.eqb dataset_name) DATASETS))
        (ValueError ("Dataset name is not supported. Choose from: "
                     ++ repr (PyList (List.map PyStr DATASETS)))) ;;;
      ret items
  | _ => raise (ValueError "Value of split argument must be a list.")
  end.

Definition __init__ (dataset_dir dataset_name : string) (split : pyval)
    (download : bool) (num_workers : Z) (shuffle_files : bool)
    : M frame unit :=
  split <- check_arguments dataset_name split ;;
  on_self (fun _ =>
    {| _dataset_dir := dataset_dir; _dataset_name := dataset_name;
       _num_workers := num_workers; _shuffle := shuffle_files;
       _preprocessed := []; _dataset := None;
       _train_indices := None; _validation_indices := None;
       _test_indices := None; _validation_type := None;
       _info := None |}) ;;;
  (if (List.length split =? 1)%nat
   then single_split dataset_dir dataset_name split
   else multiple_splits dataset_dir dataset_name split) ;;;
  _make_data_loaders 1 ;;;
  size <- len_of_dataset ;;
  on_self (with_info [("name", PyStr dataset_name); ("size", PyInt size)]).

(** [TorchvisionImageClassificationDataset(dataset_dir, dataset_name,
    split, ...)]: the object or the exception that escapes, and the calls
    made to torchvision. *)
Definition new (dataset_dir dataset_name : string) (split : pyval)
    (download : bool) (num_workers : Z) (shuffle_files : bool)
    : (exn + obj) * list event :=
  match __init__ dataset_dir dataset_name split download num_workers
          shuffle_files (Frame blank None [])
  with
  | (inr _, fr) => (inr (self fr), trace fr)
  | (inl e, fr) => (inl e, trace fr)
  end.

End Constructor.

(** The properties [info] and [dataset] (lines 126-138). *)
Record info_dict : Type := {
  dataset_info : option dict;
  preprocessing_info : dict
}.

Definition info (self : obj) : info_dict :=
  {| dataset_info := _info self; preprocessing_info := _preprocessed self |}.

Definition dataset (self : obj) : option torch_dataset := _dataset self.

End Torchvision.

(** ** The model factory *)

Module ModelFactory.

Inductive FrameworkType : Type := TENSORFLOW | PYTORCH.

Inductive UseCaseType : Type :=
  | IMAGE_CLASSIFICATION
  | TEXT_CLASSIFICATION
  | QUESTION_ANSWERING.

(** [str(k)] for a member of the enumerations. *)
Definition framework_str (f : FrameworkType) : string :=
  match f with
  | TENSORFLOW => "tensorflow"
  | PYTORCH => "pytorch"
  end.

Definition use_case_str (u : UseCaseType) : string :=
  match u with
  | IMAGE_CLASSIFICATION => "image_classification"
  | TEXT_CLASSIFICATION => "text_classification"
  | QUESTION_ANSWERING => "question_answering"
  end.

Definition all_frameworks : list FrameworkType := [TENSORFLOW; PYTORCH].

Definition all_use_cases : list UseCaseType :=
  [IMAGE_CLASSIFICATION; TEXT_CLASSIFICATION; QUESTION_ANSWERING].

Definition framework_from_str (s : string) : option FrameworkType :=
  List.find (fun f => String.eqb (framework_str f) s) all_frameworks.

Definition use_case_from_str (s : string) : option UseCaseType :=
  List.find (fun u => String.eqb (use_case_str u) s) all_use_cases.

(** Per-framework metadata of one model (hub identifier, input size). *)
Abbreviation metadata := (gmap string pyval).

(** The entries of one model: framework name to metadata. *)
Abbreviation model_entry := (gmap string metadata).

(** Modelled from the spec: the registry of [tlk.models.model_factory], which
    is not among the sources.  "Registry: static mapping from (use case,
    model name) to per-framework metadata dictionaries": use case, then
    model name, then framework. *)
Abbreviation registry := (gmap string (gmap string model_entry)).

(** Modelled from the spec: the framework filter of [get_supported_models],
    which is not among the sources.  "Filtered by framework returns only
    entries for that framework": a model keeps the one entry of the
    framework, and a model without such an entry is left out. *)
Definition only_framework (framework : string) (entry : model_entry)
    : option model_entry :=
  match entry !! framework with
  | Some meta => Some {[ framework := meta ]}
  | None => None
  end.

Definition models_of (reg : registry) (framework : option string)
    (use_case : string) : gmap string model_entry :=
  let models := default ∅ (reg !! use_case) in
  match framework with
  | Some f => omap (only_framework f) models
  | None => models
  end.

(** A filter value that is given and is not a member of the enumeration. *)
Definition unsupported {A} (parse : string -> option A)
    (value : option string) : bool :=
  match value with
  | Some s => match parse s with Some _ => false | None => true end
  | None => false
  end.

(** Modelled from the spec: [get_supported_models(framework=None,
    use_case=None)] of [tlk.models.model_factory], which is not among the
    sources.  "Unknown framework/use case strings raise ValueError with a
    message naming the bad value"; "filtered by framework returns only
    entries for that framework, and filtered by use case returns exactly one
    use-case key"; without a use case the result has a key for each member
    of [UseCaseType]. *)
Definition get_supported_models (reg : registry) (framework : option string)
    (use_case : option string)
    : exn + gmap string (gmap string model_entry) :=
  if unsupported framework_from_str framework then
    inl (ValueError ("Unsupported framework: " ++ default "" framework))
  else if unsupported use_case_from_str use_case then
    inl (ValueError ("Unsupported use case: " ++ default "" use_case))
  else
    let use_cases :=
      match use_case with
      | Some u => [u]
      | None => List.map use_case_str all_use_cases
      end in
    inr (list_to_map
           (List.map (fun u => (u, models_of reg framework u)) use_cases)).

End ModelFactory.

(** ** The model wrappers *)

Module Models.

(** A callback handed to the framework's [fit]. *)
Inductive callback : Type :=
  | ModelCheckpoint (filepath : string).

Section Train.

(** The framework's dataset handle and what its [fit] returns. *)
Context {native_dataset history : Type}.

(** The arguments of one call [fit(dataset, epochs=..., shuffle=...,
    callbacks=...)]. *)
Record fit_call : Type := FitCall {
  fit_dataset : native_dataset;
  fit_epochs : pyval;
  fit_shuffle : pyval;
  fit_callbacks : list callback
}.

(** Modelled from the spec: a model wrapper of [tlk.models], which is not
    among the sources.  "Model wrapper: wraps a native pretrained model
    handle plus metadata (image size, hub source, framework)"; of the
    native model only [fit] is used, and it returns or raises. *)
Record model_wrapper : Type := {
  model_name : string;
  image_size : Z;
  model_hub : string;
  framework : string;
  fit : fit_call -> exn + history
}.

(** Modelled from the spec: a dataset adapter as [train] sees it, "wraps a
    native framework dataset handle". *)
Record dataset_adapter : Type := {
  dataset : native_dataset;
  class_names : list string
}.

(** Modelled from the spec: [train] of the model wrappers of [tlk.models],
    which is not among the sources.  "train forwards a dataset's native
    handle and training hyperparameters to the framework's fit call with
    epoch count, shuffle flag, and callback list, returning whatever the
    framework's fit call returns."  The state is the list of [fit] calls
    made so far. *)
Definition train (w : model_wrapper) (ds : dataset_adapter)
    (output_dir : string) (epochs : Z) (shuffle : bool)
    : M (list fit_call) history :=
  let call :=
    FitCall (dataset ds) (PyInt epochs) (PyBool shuffle)
      [ModelCheckpoint (output_dir ++ "/" ++ model_name w)] in
  modify (fun calls => (calls ++ [call])%list) ;;;
  match fit w call with
  | inl e => raise e
  | inr h => ret h
  end.

End Train.

End Models.

(** ** Concrete environments and inputs used in the examples *)

Module Examples.

(** A machine on which only the directory [flowers] exists. *)
Definition only_flowers (path : string) : bool := String.eqb path "flowers".

(** A loader with the colour modes of the Keras documentation: ["rgb"],
    ["rgba"] and ["grayscale"]; any other mode is a [ValueError]. *)
Definition keras_loader (directory : string) (shuffle : bool)
    (seed : option Z) (color_mode : string) : exn + TFCustom.tf_dataset :=
  if existsb (String.eqb color_mode) ["rgb"; "rgba"; "grayscale"] then
    inr (TFCustom.ImageDirectory directory ["daisy"; "tulips"] color_mode
           shuffle seed)
  else
    inl (ValueError
           "`color_mode` must be one of {'rgb', 'rgba', 'grayscale'}.").

(** A dataset object as the constructor leaves it for [flowers]. *)
Definition flowers : TFCustom.obj :=
  {| TFCustom._dataset_dir := "flowers";
     TFCustom._dataset_name := "flowers";
     TFCustom._dataset_catalog := PyNone;
     TFCustom._info := [("name", PyStr "flowers");
                        ("dataset_dir", PyStr "flowers");
                        ("color_mode", PyStr "rgb")];
     TFCustom._preprocessed := None;
     TFCustom._dataset :=
       Some (TFCustom.ImageDirectory "flowers" ["daisy"; "tulips"] "rgb"
               false None);
     TFCustom._class_names := ["daisy"; "tulips"];
     TFCustom._train_pct := 1;
     TFCustom._val_pct := 0;
     TFCustom._test_pct := 0;
     TFCustom._validation_type := "recall";
     TFCustom._train_subset := None;
     TFCustom._validation_subset := None;
     TFCustom._test_subset := None |}.

(** The same object with no dataset and no subset. *)
Definition undefined : TFCustom.obj := TFCustom.with_dataset None flowers.

(** A torchvision class in the style of CIFAR10: it has the [train] flag
    and no [split] keyword. *)
Definition cifar_class (name root : string) (part : Torchvision.selector)
    : exn + Torchvision.torch_dataset :=
  match part with
  | Torchvision.split_kw _ =>
      inl (TypeError "__init__() got an unexpected keyword argument 'split'")
  | Torchvision.train_kw true =>
      inr (Torchvision.VisionDataset name root part 50000)
  | Torchvision.train_kw false =>
      inr (Torchvision.VisionDataset name root part 10000)
  end.

(** A torchvision class in the style of Food101: a [split] keyword that
    accepts ["train"] and ["test"], and no [train] flag. *)
Definition food_class (name root : string) (part : Torchvision.selector)
    : exn + Torchvision.torch_dataset :=
  match part with
  | Torchvision.split_kw s =>
      if String.eqb s "train" then
        inr (Torchvision.VisionDataset name root part 75750)
      else if String.eqb s "test" then
        inr (Torchvision.VisionDataset name root part 25250)
      else
        inl (ValueError
               ("Unknown value '" ++ s ++ "' for argument split. "
                ++ "Valid values are {'train', 'test'}."))
  | Torchvision.train_kw _ =>
      inl (TypeError "__init__() got an unexpected keyword argument 'train'")
  end.

(** Building the data loaders succeeds. *)
Definition loaders_ok (o : Torchvision.obj) (batch_size : Z) : option exn :=
  None.

(** A registry with one TensorFlow-only model and one model of both
    frameworks. *)
Definition registry : ModelFactory.registry :=
  {[ "image_classification" :=
       {[ "efficientnet_b0" :=
            {[ "tensorflow" :=
                 {[ "model_hub" := PyStr "TFHub"; "image_size" := PyInt 224 ]} ]};
          "resnet50" :=
            {[ "tensorflow" :=
                 {[ "model_hub" := PyStr "TFHub"; "image_size" := PyInt 224 ]};
               "pytorch" :=
                 {[ "model_hub" := PyStr "torchvision";
                    "image_size" := PyInt 224 ]} ]} ]};
     "text_classification" :=
       {[ "bert-base-cased" :=
            {[ "pytorch" := {[ "model_hub" := PyStr "huggingface" ]} ]} ]} ]}.

(** A machine on which every path exists. *)
Definition every_path (path : string) : bool := true.

(** A framework with TensorFlow's integer limits: the sizes of
    [resize_with_pad] must fit 32 bits and the batch size 64 bits; a call
    with a larger size raises [ValueError].  The messages stand for
    TensorFlow's own. *)
Definition tf_limits (t : TFCustom.transformation)
    (d : TFCustom.tf_dataset) : option exn :=
  match t with
  | TFCustom.map_call (TFCustom.resize_with_pad h w :: _) =>
      match int_value h, int_value w with
      | Some zh, Some zw =>
          if (zh <? 2 ^ 31)%Z && (zw <? 2 ^ 31)%Z then None
          else Some (ValueError "resize_with_pad: size outside int32")
      | _, _ => Some (ValueError "resize_with_pad: size is not an integer")
      end
  | TFCustom.batch_call n =>
      match int_value n with
      | Some z =>
          if (z <? 2 ^ 63)%Z then None
          else Some (ValueError "batch: batch_size outside int64")
      | None => Some (ValueError "batch: batch_size is not an integer")
      end
  | _ => None
  end.

End Examples.

(** * Properties *)

(** ** Statement vocabulary *)

(** A value accepted as [image_size] or [batch_size]: an [int] that is at
    least 1. *)
Definition positive_int (v : pyval) : Prop :=
  exists z, int_value v = Some z /\ 1 <= z.

(** Some split of the TensorFlow dataset is defined. *)
Definition some_split_defined (self : TFCustom.obj) : Prop :=
  exists name, In name TFCustom.split_list
               /\ TFCustom.getattr self name <> None.

(** What one split looks like after [preprocess]: the image function mapped,
    then cached, then batched, then prefetched, innermost first. *)
Definition preprocessed_split (image_size batch_size : pyval)
    (d : TFCustom.tf_dataset) : TFCustom.tf_dataset :=
  TFCustom.Prefetch TFCustom.AUTOTUNE
    (TFCustom.Batch batch_size
       (TFCustom.Cache
          (TFCustom.Map
             [TFCustom.resize_with_pad image_size image_size;
              TFCustom.Rescaling (1 # 255)] d))).

(** The object after a successful [preprocess]. *)
Definition after_preprocess (image_size batch_size : pyval)
    (self : TFCustom.obj) : TFCustom.obj :=
  {| TFCustom._dataset_dir := TFCustom._dataset_dir self;
     TFCustom._dataset_name := TFCustom._dataset_name self;
     TFCustom._dataset_catalog := TFCustom._dataset_catalog self;
     TFCustom._info := TFCustom._info self;
     TFCustom._preprocessed :=
       Some [("image_size", image_size); ("batch_size", batch_size)];
     TFCustom._dataset :=
       preprocessed_split image_size batch_size <$> TFCustom._dataset self;
     TFCustom._class_names := TFCustom._class_names self;
     TFCustom._train_pct := TFCustom._train_pct self;
     TFCustom._val_pct := TFCustom._val_pct self;
     TFCustom._test_pct := TFCustom._test_pct self;
     TFCustom._validation_type := TFCustom._validation_type self;
     TFCustom._train_subset :=
       preprocessed_split image_size batch_size <$> TFCustom._train_subset self;
     TFCustom._validation_subset :=
       preprocessed_split image_size batch_size
         <$> TFCustom._validation_subset self;
     TFCustom._test_subset :=
       preprocessed_split image_size batch_size <$> TFCustom._test_subset self |}.

(** The names a member of [split] may have, and the messages of the three
    argument checks of the torchvision constructor. *)
Definition split_names : list pyval :=
  [PyStr "train"; PyStr "validation"; PyStr "test"].

Definition msg_split_not_list : string :=
  "Value of split argument must be a list.".

Definition msg_split_member : string :=
  "Split argument can only contain these strings: train, validation, test.".

Definition msg_dataset_name : string :=
  "Dataset name is not supported. Choose from: ['CIFAR10', 'Food101', 'CIFAR100', 'Country211', 'DTD', 'FGVCAircraft', 'RenderedSST2']".

(** The test of line 41 on one member of [split]. *)
Definition bad_split_member (s : pyval) : bool :=
  negb (isinstance_str s) || negb (py_in s ["train"; "validation"; "test"]).

(** The parts of a torchvision dataset as the constructor obtains them:
    with the [split] keyword, and for train and test with the [train] flag
    when the class has no such keyword. *)
Definition load_train
    (dataset_class : string -> string -> Torchvision.selector
                     -> exn + Torchvision.torch_dataset)
    (name root : string) : exn + Torchvision.torch_dataset :=
  match dataset_class name root (Torchvision.split_kw "train") with
  | inl e =>
      if is_TypeError e
      then dataset_class name root (Torchvision.train_kw true)
      else inl e
  | inr d => inr d
  end.

Definition load_validation
    (dataset_class : string -> string -> Torchvision.selector
                     -> exn + Torchvision.torch_dataset)
    (name root : string) : exn + Torchvision.torch_dataset :=
  dataset_class name root (Torchvision.split_kw "val").

Definition load_test
    (dataset_class : string -> string -> Torchvision.selector
                     -> exn + Torchvision.torch_dataset)
    (name root : string) : exn + Torchvision.torch_dataset :=
  match dataset_class name root (Torchvision.split_kw "test") with
  | inl e =>
      if is_TypeError e
      then dataset_class name root (Torchvision.train_kw false)
      else inl e
  | inr d => inr d
  end.

(** The length of a part, 0 when it is not requested. *)
Definition part_len (requested : bool)
    (part : exn + Torchvision.torch_dataset) : Z :=
  if requested then
    match part with
    | inr d => Torchvision.len d
    | inl _ => 0
    end
  else 0.

(** The object after lines 88-95 have stored the validation part [d]. *)
Definition stored_validation (d : Torchvision.torch_dataset)
    (o : Torchvision.obj) : Torchvision.obj :=
  match Torchvision._dataset o with
  | Some old =>
      if (0 <? Torchvision.len old)%Z then
        Torchvision.with_validation_indices
          (Some (Range (Torchvision.len old)
                   (Torchvision.len old + Torchvision.len d)))
          (Torchvision.with_dataset (Some (Torchvision.ConcatDataset old d)) o)
      else
        Torchvision.with_validation_indices
          (Some (range1 (Torchvision.len d)))
          (Torchvision.with_dataset (Some d) o)
  | None =>
      Torchvision.with_validation_indices
        (Some (range1 (Torchvision.len d)))
        (Torchvision.with_dataset (Some d) o)
  end.

(** The object after lines 107-114 have stored the test part [d]. *)
Definition stored_test (d : Torchvision.torch_dataset)
    (o : Torchvision.obj) : Torchvision.obj :=
  match Torchvision._dataset o with
  | Some old =>
      if (0 <? Torchvision.len old)%Z then
        Torchvision.with_test_indices
          (Some (Range (Torchvision.len old)
                   (Torchvision.len old + Torchvision.len d)))
          (Torchvision.with_dataset (Some (Torchvision.ConcatDataset old d)) o)
      else
        Torchvision.with_validation_indices
          (Some (range1 (Torchvision.len d)))
          (Torchvision.with_dataset (Some d) o)
  | None =>
      Torchvision.with_validation_indices
        (Some (range1 (Torchvision.len d)))
        (Torchvision.with_dataset (Some d) o)
  end.

(** The object as lines 47-54 of the torchvision constructor leave it. *)
Definition initialised (dataset_dir dataset_name : string) (num_workers : Z)
    (shuffle_files : bool) : Torchvision.obj :=
  {| Torchvision._dataset_dir := dataset_dir;
     Torchvision._dataset_name := dataset_name;
     Torchvision._num_workers := num_workers;
     Torchvision._shuffle := shuffle_files;
     Torchvision._preprocessed := [];
     Torchvision._dataset := None;
     Torchvision._train_indices := None;
     Torchvision._validation_indices := None;
     Torchvision._test_indices := None;
     Torchvision._validation_type := None;
     Torchvision._info := None |}.

(** A path component: a string without a slash. *)
Fixpoint slash_free (s : string) : bool :=
  match s with
  | EmptyString => true
  | String c rest => negb (Ascii.eqb c "/"%char) && slash_free rest
  end.

(** A caller that calls [preprocess] again and again on one object and
    carries on after an exception: the number of calls that return. *)
Fixpoint successes
    (framework_raises : TFCustom.transformation -> TFCustom.tf_dataset
                        -> option exn)
    (calls : list (pyval * pyval)) (self : TFCustom.obj) : nat :=
  match calls with
  | [] => 0%nat
  | (image_size, batch_size) :: rest =>
      match
        TFCustom.preprocess framework_raises image_size batch_size self
      with
      | (inr _, self') => S (successes framework_raises rest self')
      | (inl _, self') => successes framework_raises rest self'
      end
  end.

(** The framework lets the four transformations of [preprocess] through on
    the dataset [d]: the map over [d], the cache over the result, the
    batching over that, and the prefetch last. *)
Definition framework_accepts
    (framework_raises : TFCustom.transformation -> TFCustom.tf_dataset
                        -> option exn)
    (image_size batch_size : pyval) (d : TFCustom.tf_dataset) : Prop :=
  framework_raises
    (TFCustom.map_call (TFCustom.preprocess_image image_size)) d = None
  /\ framework_raises TFCustom.cache_call
       (TFCustom.Map (TFCustom.preprocess_image image_size) d) = None
  /\ framework_raises (TFCustom.batch_call batch_size)
       (TFCustom.Cache
          (TFCustom.Map (TFCustom.preprocess_image image_size) d)) = None
  /\ framework_raises (TFCustom.prefetch_call TFCustom.AUTOTUNE)
       (TFCustom.Batch batch_size
          (TFCustom.Cache
             (TFCustom.Map (TFCustom.preprocess_image image_size) d)))
     = None.

(** The framework lets the transformations through on every split that is
    defined. *)
Definition framework_accepts_splits
    (framework_raises : TFCustom.transformation -> TFCustom.tf_dataset
                        -> option exn)
    (image_size batch_size : pyval) (self : TFCustom.obj) : Prop :=
  forall name d,
    In name TFCustom.split_list ->
    TFCustom.getattr self name = Some d ->
    framework_accepts framework_raises image_size batch_size d.

(** The exception is one that the framework raised in a transformation
    call. *)
Definition raised_by_framework
    (framework_raises : TFCustom.transformation -> TFCustom.tf_dataset
                        -> option exn)
    (e : exn) : Prop :=
  exists t d, framework_raises t d = Some e.

(** A state transformer that leaves alone what [preprocess] has no
    business with: everything but the splits and the preprocessing info,
    and which splits are defined. *)
Definition same_metadata (self self' : TFCustom.obj) : Prop :=
  TFCustom._dataset_dir self' = TFCustom._dataset_dir self
  /\ TFCustom._dataset_name self' = TFCustom._dataset_name self
  /\ TFCustom._dataset_catalog self' = TFCustom._dataset_catalog self
  /\ TFCustom._info self' = TFCustom._info self
  /\ TFCustom._class_names self' = TFCustom._class_names self
  /\ TFCustom._train_pct self' = TFCustom._train_pct self
  /\ TFCustom._val_pct self' = TFCustom._val_pct self
  /\ TFCustom._test_pct self' = TFCustom._test_pct self
  /\ TFCustom._validation_type self' = TFCustom._validation_type self
  /\ forall name,
       TFCustom.truthy (TFCustom.getattr self' name)
       = TFCustom.truthy (TFCustom.getattr self name).

(** The body of the loop of [preprocess] (lines 146-150) for one split. *)
Definition preprocess_split
    (framework_raises : TFCustom.transformation -> TFCustom.tf_dataset
                        -> option exn)
    (image_size batch_size : pyval) (subset : string)
    : M TFCustom.obj unit :=
  self <- get ;;
  (if negb (truthy_dict (TFCustom._preprocessed self)) then
     TFCustom.update_split framework_raises subset
       (TFCustom.map_call (TFCustom.preprocess_image image_size)) "map" ;;;
     TFCustom.update_split framework_raises subset TFCustom.cache_call "cache"
   else ret tt) ;;;
  TFCustom.update_split framework_raises subset
    (TFCustom.batch_call batch_size) "batch" ;;;
  TFCustom.update_split framework_raises subset
    (TFCustom.prefetch_call TFCustom.AUTOTUNE) "prefetch".

(** The member of [split] that makes the torchvision constructor ask for a
    part with the given keyword. *)
Definition requested_part (part : Torchvision.selector) : string :=
  match part with
  | Torchvision.split_kw name =>
      if String.eqb name "val" then "validation" else name
  | Torchvision.train_kw true => "train"
  | Torchvision.train_kw false => "test"
  end.

(** The part that a single member of [split] stands for. *)
Definition load_part
    (dataset_class : string -> string -> Torchvision.selector
                     -> exn + Torchvision.torch_dataset)
    (name root : string) (member : string)
    : exn + Torchvision.torch_dataset :=
  if String.eqb member "train" then load_train dataset_class name root
  else if String.eqb member "validation"
       then load_validation dataset_class name root
       else load_test dataset_class name root.

(** A call to torchvision that is about the given dataset and directory and
    about a part that [split] names. *)
Definition asked_for (items : list pyval) (dataset_dir dataset_name : string)
    (ev : Torchvision.event) : Prop :=
  match ev with
  | Torchvision.dataset_class_call name root part =>
      name = dataset_name /\ root = dataset_dir
      /\ str_in (requested_part part) items = true
  end.

(** A step of the torchvision constructor that only adds calls satisfying
    [P] to the trace, whether it returns or raises. *)
Definition adds_only {A} (P : Torchvision.event -> Prop)
    (m : M Torchvision.frame A) : Prop :=
  forall fr, exists evs,
    Torchvision.trace (snd (m fr)) = (Torchvision.trace fr ++ evs)%list
    /\ Forall P evs.

(** ** [preprocess] of the TensorFlow dataset *)

Lemma not_positive_int_false (v : pyval) :
  TFCustom.not_positive_int v = false <-> positive_int v.
Proof.
  unfold TFCustom.not_positive_int, positive_int.
  destruct v as [ | [|] | z | lit | s | items ]; simpl; split; intros H;
    try discriminate H;
    try (destruct H as (z' & H & Hz); try discriminate H; injection H as <-);
    try reflexivity; try lia.
  - exists 1. split; [reflexivity | lia].
  - exists z. split; [reflexivity | ]. apply Z.ltb_ge in H. lia.
Qed.

Lemma some_split_defined_truthy (self : TFCustom.obj) :
  some_split_defined self <->
  TFCustom.truthy (TFCustom._dataset self)
  || TFCustom.truthy (TFCustom._train_subset self)
  || TFCustom.truthy (TFCustom._validation_subset self)
  || TFCustom.truthy (TFCustom._test_subset self) = true.
Proof.
  unfold some_split_defined, TFCustom.split_list. split.
  - intros (name & Hin & Hdef). simpl in Hin.
    destruct Hin as [<- | [<- | [<- | [<- | []]]]];
      cbv [TFCustom.getattr String.eqb Ascii.eqb Bool.eqb] in Hdef;
      destruct (TFCustom._dataset self), (TFCustom._train_subset self),
        (TFCustom._validation_subset self), (TFCustom._test_subset self);
      simpl; congruence.
  - intros H.
    destruct (TFCustom._dataset self) eqn:E1.
    { exists "_dataset". split; [simpl; auto | ].
      cbv [TFCustom.getattr String.eqb Ascii.eqb Bool.eqb]. congruence. }
    destruct (TFCustom._train_subset self) eqn:E2.
    { exists "_train_subset". split; [simpl; auto | ].
      cbv [TFCustom.getattr String.eqb Ascii.eqb Bool.eqb]. congruence. }
    destruct (TFCustom._validation_subset self) eqn:E3.
    { exists "_validation_subset". split; [simpl; auto | ].
      cbv [TFCustom.getattr String.eqb Ascii.eqb Bool.eqb]. congruence. }
    destruct (TFCustom._test_subset self) eqn:E4.
    { exists "_test_subset". split; [simpl; auto 6 | ].
      cbv [TFCustom.getattr String.eqb Ascii.eqb Bool.eqb]. congruence. }
    discriminate.
Qed.

(** *** Attributes by name *)

Lemma getattr_setattr_same (self : TFCustom.obj) (name : string)
    (v : option TFCustom.tf_dataset) :
  In name TFCustom.split_list ->
  TFCustom.getattr (TFCustom.setattr name v self) name = v.
Proof.
  intros [<- | [<- | [<- | [<- | []]]]]; reflexivity.
Qed.

Lemma getattr_setattr_other (self : TFCustom.obj) (name other : string)
    (v : option TFCustom.tf_dataset) :
  name <> other ->
  TFCustom.getattr (TFCustom.setattr name v self) other
  = TFCustom.getattr self other.
Proof.
  intros Hne. unfold TFCustom.setattr, TFCustom.getattr.
  destruct (String.eqb_spec name "_dataset") as [-> | ?];
    [destruct (String.eqb_spec other "_dataset") as [-> | ?];
     [contradiction | reflexivity] | ].
  destruct (String.eqb_spec name "_train_subset") as [-> | ?];
    [destruct (String.eqb_spec other "_dataset"); [reflexivity | ];
     destruct (String.eqb_spec other "_train_subset") as [-> | ?];
     [contradiction | reflexivity] | ].
  destruct (String.eqb_spec name "_validation_subset") as [-> | ?];
    [destruct (String.eqb_spec other "_dataset"); [reflexivity | ];
     destruct (String.eqb_spec other "_train_subset"); [reflexivity | ];
     destruct (String.eqb_spec other "_validation_subset") as [-> | ?];
     [contradiction | reflexivity] | ].
  destruct (String.eqb_spec name "_test_subset") as [-> | ?];
    [ | reflexivity].
  destruct (String.eqb_spec other "_dataset"); [reflexivity | ].
  destruct (String.eqb_spec other "_train_subset"); [reflexivity | ].
  destruct (String.eqb_spec other "_validation_subset"); [reflexivity | ].
  destruct (String.eqb_spec other "_test_subset") as [-> | ?];
    [contradiction | reflexivity].
Qed.

(** Assigning a split touches no other attribute. *)
Lemma setattr_keeps_rest (self : TFCustom.obj) (name : string)
    (v : option TFCustom.tf_dataset) :
  let self' := TFCustom.setattr name v self in
  TFCustom._dataset_dir self' = TFCustom._dataset_dir self
  /\ TFCustom._dataset_name self' = TFCustom._dataset_name self
  /\ TFCustom._dataset_catalog self' = TFCustom._dataset_catalog self
  /\ TFCustom._info self' = TFCustom._info self
  /\ TFCustom._class_names self' = TFCustom._class_names self
  /\ TFCustom._train_pct self' = TFCustom._train_pct self
  /\ TFCustom._val_pct self' = TFCustom._val_pct self
  /\ TFCustom._test_pct self' = TFCustom._test_pct self
  /\ TFCustom._validation_type self' = TFCustom._validation_type self
  /\ TFCustom._preprocessed self' = TFCustom._preprocessed self.
Proof.
  unfold TFCustom.setattr.
  destruct (String.eqb name "_dataset"); [repeat split | ].
  destruct (String.eqb name "_train_subset"); [repeat split | ].
  destruct (String.eqb name "_validation_subset"); [repeat split | ].
  destruct (String.eqb name "_test_subset"); repeat split.
Qed.

Lemma same_metadata_refl (self : TFCustom.obj) : same_metadata self self.
Proof. unfold same_metadata. repeat split; reflexivity. Qed.

Lemma same_metadata_trans (a b c : TFCustom.obj) :
  same_metadata a b -> same_metadata b c -> same_metadata a c.
Proof.
  unfold same_metadata.
  intros (A1 & A2 & A3 & A4 & A5 & A6 & A7 & A8 & A9 & A10)
         (B1 & B2 & B3 & B4 & B5 & B6 & B7 & B8 & B9 & B10).
  repeat split; try congruence; intros name; rewrite B10; apply A10.
Qed.

(** Replacing a defined split by a dataset keeps the metadata. *)
Lemma same_metadata_setattr (self : TFCustom.obj) (name : string)
    (d d' : TFCustom.tf_dataset) :
  TFCustom.getattr self name = Some d ->
  same_metadata self (TFCustom.setattr name (Some d') self).
Proof.
  intros Hget.
  destruct (setattr_keeps_rest self name (Some d'))
    as (H1 & H2 & H3 & H4 & H5 & H6 & H7 & H8 & H9 & _).
  unfold same_metadata. repeat split; try assumption.
  intros other. destruct (String.eqb_spec name other) as [<- | Hne].
  - rewrite Hget.
    assert (Hin : In name TFCustom.split_list).
    { unfold TFCustom.getattr in Hget. unfold TFCustom.split_list. simpl.
      destruct (String.eqb_spec name "_dataset"); [auto | ].
      destruct (String.eqb_spec name "_train_subset"); [auto | ].
      destruct (String.eqb_spec name "_validation_subset"); [auto | ].
      destruct (String.eqb_spec name "_test_subset"); [auto 6 | ].
      discriminate Hget. }
    rewrite getattr_setattr_same by exact Hin. reflexivity.
  - rewrite getattr_setattr_other by exact Hne. reflexivity.
Qed.

Lemma setattr_setattr (self : TFCustom.obj) (name : string)
    (v w : option TFCustom.tf_dataset) :
  TFCustom.setattr name w (TFCustom.setattr name v self)
  = TFCustom.setattr name w self.
Proof.
  unfold TFCustom.setattr.
  destruct (String.eqb name "_dataset"); [reflexivity | ].
  destruct (String.eqb name "_train_subset"); [reflexivity | ].
  destruct (String.eqb name "_validation_subset"); [reflexivity | ].
  destruct (String.eqb name "_test_subset"); reflexivity.
Qed.

Section PreprocessProperties.

Variable framework_raises :
  TFCustom.transformation -> TFCustom.tf_dataset -> option exn.

(** *** One split *)

(** One transformation call on a defined split. *)
Lemma update_split_outcome (self : TFCustom.obj) (name method : string)
    (t : TFCustom.transformation) (d : TFCustom.tf_dataset) :
  TFCustom.getattr self name = Some d ->
  TFCustom.update_split framework_raises name t method self
  = match framework_raises t d with
    | Some e => (inl e, self)
    | None =>
        (inr tt, TFCustom.setattr name (Some (TFCustom.transformed t d)) self)
    end.
Proof.
  intros Hget. unfold TFCustom.update_split, bind, get, put, raise.
  rewrite Hget. destruct (framework_raises t d); reflexivity.
Qed.

(** The loop body on a defined split of an object that is not yet
    preprocessed, call by call: the first call that raises ends it, and the
    split then holds what the calls before it returned. *)
Lemma preprocess_split_run (self : TFCustom.obj) (name : string)
    (image_size batch_size : pyval) (d : TFCustom.tf_dataset) :
  In name TFCustom.split_list ->
  TFCustom.getattr self name = Some d ->
  truthy_dict (TFCustom._preprocessed self) = false ->
  let mapped := TFCustom.Map (TFCustom.preprocess_image image_size) d in
  preprocess_split framework_raises image_size batch_size name self
  = match
      framework_raises
        (TFCustom.map_call (TFCustom.preprocess_image image_size)) d
    with
    | Some e => (inl e, self)
    | None =>
        match framework_raises TFCustom.cache_call mapped with
        | Some e => (inl e, TFCustom.setattr name (Some mapped) self)
        | None =>
            match
              framework_raises (TFCustom.batch_call batch_size)
                (TFCustom.Cache mapped)
            with
            | Some e =>
                (inl e,
                 TFCustom.setattr name (Some (TFCustom.Cache mapped)) self)
            | None =>
                match
                  framework_raises (TFCustom.prefetch_call TFCustom.AUTOTUNE)
                    (TFCustom.Batch batch_size (TFCustom.Cache mapped))
                with
                | Some e =>
                    (inl e,
                     TFCustom.setattr name
                       (Some (TFCustom.Batch batch_size
                                (TFCustom.Cache mapped))) self)
                | None =>
                    (inr tt,
                     TFCustom.setattr name
                       (Some (preprocessed_split image_size batch_size d))
                       self)
                end
            end
        end
    end.
Proof.
  intros Hin Hget Hfresh mapped. subst mapped.
  unfold preprocess_split, bind, get. cbv beta iota zeta.
  rewrite Hfresh. cbn [negb]. cbv beta iota zeta.
  rewrite (update_split_outcome self name "map" _ d Hget).
  destruct (framework_raises
              (TFCustom.map_call (TFCustom.preprocess_image image_size)) d);
    [reflexivity | ].
  rewrite (update_split_outcome _ name "cache" _ _
             (getattr_setattr_same self name _ Hin)).
  cbn [TFCustom.transformed].
  destruct (framework_raises TFCustom.cache_call _); [reflexivity | ].
  rewrite setattr_setattr.
  rewrite (update_split_outcome _ name "batch" _ _
             (getattr_setattr_same self name _ Hin)).
  cbn [TFCustom.transformed].
  destruct (framework_raises (TFCustom.batch_call batch_size) _);
    [reflexivity | ].
  rewrite setattr_setattr.
  rewrite (update_split_outcome _ name "prefetch" _ _
             (getattr_setattr_same self name _ Hin)).
  cbn [TFCustom.transformed].
  destruct (framework_raises (TFCustom.prefetch_call TFCustom.AUTOTUNE) _);
    [reflexivity | ].
  rewrite setattr_setattr. reflexivity.
Qed.

(** The same, by its two ways out. *)
Lemma preprocess_split_outcome (self : TFCustom.obj) (name : string)
    (image_size batch_size : pyval) (d : TFCustom.tf_dataset) :
  In name TFCustom.split_list ->
  TFCustom.getattr self name = Some d ->
  truthy_dict (TFCustom._preprocessed self) = false ->
  (framework_accepts framework_raises image_size batch_size d
   /\ preprocess_split framework_raises image_size batch_size name self
      = (inr tt,
         TFCustom.setattr name
           (Some (preprocessed_split image_size batch_size d)) self))
  \/ (~ framework_accepts framework_raises image_size batch_size d
      /\ exists e self',
           preprocess_split framework_raises image_size batch_size name self
           = (inl e, self')
           /\ raised_by_framework framework_raises e
           /\ (self' = self
               \/ exists d', self' = TFCustom.setattr name (Some d') self)).
Proof.
  intros Hin Hget Hfresh.
  rewrite (preprocess_split_run self name image_size batch_size d
             Hin Hget Hfresh).
  unfold framework_accepts, raised_by_framework.
  destruct (framework_raises
              (TFCustom.map_call (TFCustom.preprocess_image image_size)) d)
    as [e | ] eqn:Hmap.
  { right. split; [intros (H & _); discriminate H | ].
    exists e, self. split; [reflexivity | ]. split; [eauto | auto]. }
  destruct (framework_raises TFCustom.cache_call _) as [e | ] eqn:Hcache.
  { right. split; [intros (_ & H & _); congruence | ].
    eexists e, _. split; [reflexivity | ]. split; [eauto | eauto]. }
  destruct (framework_raises (TFCustom.batch_call batch_size) _)
    as [e | ] eqn:Hbatch.
  { right. split; [intros (_ & _ & H & _); congruence | ].
    eexists e, _. split; [reflexivity | ]. split; [eauto | eauto]. }
  destruct (framework_raises (TFCustom.prefetch_call TFCustom.AUTOTUNE) _)
    as [e | ] eqn:Hprefetch.
  { right. split; [intros (_ & _ & _ & H); congruence | ].
    eexists e, _. split; [reflexivity | ]. split; [eauto | eauto]. }
  left. auto.
Qed.

(** *** The loop *)

Lemma bind_get {S B} (k : S -> M S B) (s : S) : bind get k s = k s s.
Proof. reflexivity. Qed.

Lemma bind_raise_if_false {S B} (e : exn) (k : unit -> M S B) (s : S) :
  bind (raise_if false e) k s = k tt s.
Proof. reflexivity. Qed.

(** The loop over splits that are defined, on an object that is not yet
    preprocessed: either the framework accepts every one of them and each
    becomes its pipeline, or the loop ends with the exception of the first
    call that raises.  In both cases the metadata and the preprocessing
    info are as before. *)
Lemma preprocess_loop_outcome (image_size batch_size : pyval)
    (names : list string) :
  forall self : TFCustom.obj,
    List.NoDup names ->
    (forall name, In name names ->
       In name TFCustom.split_list /\ TFCustom.getattr self name <> None) ->
    truthy_dict (TFCustom._preprocessed self) = false ->
    ((forall name d, In name names -> TFCustom.getattr self name = Some d ->
        framework_accepts framework_raises image_size batch_size d)
     /\ exists self',
          for_each names
            (preprocess_split framework_raises image_size batch_size) self
          = (inr tt, self')
          /\ same_metadata self self'
          /\ TFCustom._preprocessed self' = TFCustom._preprocessed self
          /\ forall name,
               TFCustom.getattr self' name
               = if existsb (String.eqb name) names
                 then preprocessed_split image_size batch_size
                        <$> TFCustom.getattr self name
                 else TFCustom.getattr self name)
    \/ (~ (forall name d, In name names ->
             TFCustom.getattr self name = Some d ->
             framework_accepts framework_raises image_size batch_size d)
        /\ exists e self',
             for_each names
               (preprocess_split framework_raises image_size batch_size) self
             = (inl e, self')
             /\ raised_by_framework framework_raises e
             /\ same_metadata self self'
             /\ TFCustom._preprocessed self' = TFCustom._preprocessed self).
Proof.
  induction names as [ | name names IH]; intros self Hnodup Hdefined Hfresh.
  { left. split; [intros ? ? [] | ].
    exists self. split; [reflexivity | ].
    split; [apply same_metadata_refl | ]. split; reflexivity. }
  inversion Hnodup as [ | ? ? Hfirst Hrest]; subst.
  destruct (Hdefined name (or_introl eq_refl)) as [Hin Hsome].
  destruct (TFCustom.getattr self name) as [d | ] eqn:Hget;
    [clear Hsome | contradiction].
  assert (Hcons :
            for_each (name :: names)
              (preprocess_split framework_raises image_size batch_size) self
            = match
                preprocess_split framework_raises image_size batch_size name
                  self
              with
              | (inr _, s) =>
                  for_each names
                    (preprocess_split framework_raises image_size batch_size)
                    s
              | (inl e, s) => (inl e, s)
              end).
  { simpl. unfold bind.
    destruct (preprocess_split framework_raises image_size batch_size name
                self) as [[? | ?] ?]; reflexivity. }
  rewrite Hcons. clear Hcons.
  destruct (preprocess_split_outcome self name image_size batch_size d
              Hin Hget Hfresh)
    as [(Haccepts & Hrun) | (Hrefuses & e & self1 & Hrun & Hraised & Hstate)];
    rewrite Hrun.
  - pose (self1 := TFCustom.setattr name
                     (Some (preprocessed_split image_size batch_size d)) self).
    fold self1.
    assert (Hmeta1 : same_metadata self self1)
      by (eapply same_metadata_setattr; exact Hget).
    assert (Hpre1 : TFCustom._preprocessed self1 = TFCustom._preprocessed self)
      by apply setattr_keeps_rest.
    assert (Hsame : forall other, In other names ->
              TFCustom.getattr self1 other = TFCustom.getattr self other).
    { intros other Hother. apply getattr_setattr_other.
      intros E. apply Hfirst. rewrite E. exact Hother. }
    destruct (IH self1 Hrest) as
      [(Hall & self' & Hloop & Hmeta & Hpre & Hsplits)
      | (Hnot & e & self' & Hloop & Hraised & Hmeta & Hpre)].
    { intros other Hother. split; [apply Hdefined; right; exact Hother | ].
      rewrite (Hsame other Hother).
      apply Hdefined. right. exact Hother. }
    { rewrite Hpre1. exact Hfresh. }
    + left. split.
      * intros other d' [<- | Hother] Hget'.
        -- rewrite Hget in Hget'. injection Hget' as <-. exact Haccepts.
        -- apply (Hall other d' Hother). rewrite (Hsame other Hother).
           exact Hget'.
      * exists self'. split; [exact Hloop | ].
        split; [eapply same_metadata_trans; eassumption | ].
        split; [congruence | ].
        intros other. rewrite Hsplits. simpl existsb.
        destruct (String.eqb_spec other name) as [-> | Hne].
        -- simpl.
           assert (existsb (String.eqb name) names = false) as ->.
           { apply not_true_is_false. intros Hex.
             apply existsb_exists in Hex as (x & Hx & Heq).
             apply String.eqb_eq in Heq as <-. contradiction. }
           unfold self1. rewrite getattr_setattr_same by exact Hin.
           rewrite Hget. reflexivity.
        -- simpl. unfold self1.
           rewrite getattr_setattr_other by (intros E; apply Hne; congruence).
           reflexivity.
    + right. split.
      * intros Hall. apply Hnot. intros other d' Hother Hget'.
        apply (Hall other d' (or_intror Hother)).
        rewrite <- (Hsame other Hother). exact Hget'.
      * exists e, self'. split; [exact Hloop | ].
        split; [exact Hraised | ].
        split; [eapply same_metadata_trans; eassumption | congruence].
  - right. split.
    + intros Hall. apply Hrefuses. apply (Hall name d (or_introl eq_refl) Hget).
    + exists e, self1. split; [reflexivity | ]. split; [exact Hraised | ].
      destruct Hstate as [-> | [d' ->]].
      * split; [apply same_metadata_refl | reflexivity].
      * split; [eapply same_metadata_setattr; exact Hget | ].
        apply setattr_keeps_rest.
Qed.

(** *** The whole call *)

(** Past the four checks [preprocess] is its loop followed by the
    assignment of the preprocessing info. *)
Lemma preprocess_as_loop (self : TFCustom.obj)
    (image_size batch_size : pyval) :
  truthy_dict (TFCustom._preprocessed self) = false ->
  TFCustom.not_positive_int batch_size = false ->
  TFCustom.not_positive_int image_size = false ->
  TFCustom.truthy (TFCustom._dataset self)
  || TFCustom.truthy (TFCustom._train_subset self)
  || TFCustom.truthy (TFCustom._validation_subset self)
  || TFCustom.truthy (TFCustom._test_subset self) = true ->
  TFCustom.preprocess framework_raises image_size batch_size self
  = bind
      (for_each
         (List.filter (fun s => TFCustom.truthy (TFCustom.getattr self s))
            TFCustom.split_list)
         (preprocess_split framework_raises image_size batch_size))
      (fun _ =>
         modify
           (TFCustom.with_preprocessed
              (Some [("image_size", image_size);
                     ("batch_size", batch_size)])))
      self.
Proof.
  intros Hfresh Hbatch Himage Hdefined.
  unfold TFCustom.preprocess.
  rewrite bind_get, Hfresh, bind_raise_if_false.
  rewrite Hbatch, bind_raise_if_false.
  rewrite Himage, bind_raise_if_false.
  rewrite bind_get, Hdefined. cbn [negb].
  rewrite bind_raise_if_false, bind_get.
  reflexivity.
Qed.

(** An object whose four splits are the pipelines over the old ones and
    whose other attributes are the old ones is [after_preprocess] once the
    preprocessing info is assigned. *)
Lemma loop_end_is_after_preprocess (self self' : TFCustom.obj)
    (image_size batch_size : pyval) :
  same_metadata self self' ->
  (forall name, In name TFCustom.split_list ->
     TFCustom.getattr self' name
     = preprocessed_split image_size batch_size <$> TFCustom.getattr self name) ->
  TFCustom.with_preprocessed
    (Some [("image_size", image_size); ("batch_size", batch_size)]) self'
  = after_preprocess image_size batch_size self.
Proof.
  intros (H1 & H2 & H3 & H4 & H5 & H6 & H7 & H8 & H9 & _) Hsplits.
  pose proof (Hsplits "_dataset" (or_introl eq_refl)) as S1.
  pose proof (Hsplits "_train_subset" (or_intror (or_introl eq_refl))) as S2.
  pose proof (Hsplits "_validation_subset"
                (or_intror (or_intror (or_introl eq_refl)))) as S3.
  pose proof (Hsplits "_test_subset"
                (or_intror (or_intror (or_intror (or_introl eq_refl))))) as S4.
  destruct self, self'.
  cbv [TFCustom.getattr String.eqb Ascii.eqb Bool.eqb] in S1, S2, S3, S4.
  simpl in *. subst. reflexivity.
Qed.

(** Past its four checks, [preprocess] either gets every transformation
    through and leaves [after_preprocess], or ends with the exception of
    the first framework call that raises; the splits handled up to then
    have been replaced, and nothing else has changed. *)
Lemma preprocess_past_checks (self : TFCustom.obj)
    (image_size batch_size : pyval) :
  truthy_dict (TFCustom._preprocessed self) = false ->
  TFCustom.not_positive_int batch_size = false ->
  TFCustom.not_positive_int image_size = false ->
  TFCustom.truthy (TFCustom._dataset self)
  || TFCustom.truthy (TFCustom._train_subset self)
  || TFCustom.truthy (TFCustom._validation_subset self)
  || TFCustom.truthy (TFCustom._test_subset self) = true ->
  (framework_accepts_splits framework_raises image_size batch_size self
   /\ TFCustom.preprocess framework_raises image_size batch_size self
      = (inr tt, after_preprocess image_size batch_size self))
  \/ (~ framework_accepts_splits framework_raises image_size batch_size self
      /\ exists e self',
           TFCustom.preprocess framework_raises image_size batch_size self
           = (inl e, self')
           /\ raised_by_framework framework_raises e
           /\ same_metadata self self'
           /\ TFCustom._preprocessed self' = TFCustom._preprocessed self).
Proof.
  intros Hfresh Hbatch Himage Hdefined.
  rewrite (preprocess_as_loop self image_size batch_size
             Hfresh Hbatch Himage Hdefined).
  set (names := List.filter
                  (fun s => TFCustom.truthy (TFCustom.getattr self s))
                  TFCustom.split_list).
  assert (Hnames : forall name,
            In name names
            <-> In name TFCustom.split_list
                /\ TFCustom.getattr self name <> None).
  { intros name. unfold names. rewrite filter_In.
    destruct (TFCustom.getattr self name); simpl; intuition congruence. }
  assert (Hscope :
            (forall name d, In name names ->
               TFCustom.getattr self name = Some d ->
               framework_accepts framework_raises image_size batch_size d)
            <-> framework_accepts_splits framework_raises image_size
                  batch_size self).
  { unfold framework_accepts_splits. split.
    - intros H name d Hin Hget. apply (H name d); [ | exact Hget].
      apply Hnames. split; [exact Hin | congruence].
    - intros H name d Hin Hget. apply (H name d); [ | exact Hget].
      apply Hnames, Hin. }
  assert (Hnodup : List.NoDup names).
  { unfold names. apply List.NoDup_filter. unfold TFCustom.split_list.
    repeat constructor; simpl; intuition discriminate. }
  destruct (preprocess_loop_outcome image_size batch_size names self Hnodup
              (fun name H => proj1 (Hnames name) H) Hfresh)
    as [(Hall & self' & Hloop & Hmeta & Hpre & Hsplits)
       | (Hnot & e & self' & Hloop & Hraised & Hmeta & Hpre)].
  - left. split; [apply Hscope, Hall | ].
    unfold bind. rewrite Hloop. unfold modify. f_equal.
    apply loop_end_is_after_preprocess; [exact Hmeta | ].
    intros name Hin. rewrite Hsplits.
    destruct (existsb (String.eqb name) names) eqn:Hex; [reflexivity | ].
    destruct (TFCustom.getattr self name) as [d | ] eqn:Hget;
      [ | reflexivity].
    exfalso. apply not_true_iff_false in Hex. apply Hex.
    apply existsb_exists. exists name. split; [ | apply String.eqb_refl].
    apply Hnames. split; [exact Hin | congruence].
  - right. split; [intros H; apply Hnot, Hscope, H | ].
    exists e, self'. unfold bind. rewrite Hloop. auto.
Qed.

(** The ways a call of [preprocess] can end, in the order in which the
    code decides them.  When one of its own four checks raises, the object
    is left untouched. *)
Lemma preprocess_cases (self : TFCustom.obj) (image_size batch_size : pyval) :
  (truthy_dict (TFCustom._preprocessed self) = true
   /\ exists msg,
        TFCustom.preprocess framework_raises image_size batch_size self
        = (inl (ValueError msg), self))
  \/ (TFCustom.not_positive_int batch_size = true
      /\ TFCustom.preprocess framework_raises image_size batch_size self
         = (inl (ValueError "batch_size should be an positive integer"), self))
  \/ (TFCustom.not_positive_int image_size = true
      /\ TFCustom.preprocess framework_raises image_size batch_size self
         = (inl (ValueError "image_size should be an positive integer"), self))
  \/ (~ some_split_defined self
      /\ TFCustom.preprocess framework_raises image_size batch_size self
         = (inl (ValueError
                   "Unable to preprocess, because the dataset hasn't been defined."),
            self))
  \/ (truthy_dict (TFCustom._preprocessed self) = false
      /\ TFCustom.not_positive_int batch_size = false
      /\ TFCustom.not_positive_int image_size = false
      /\ some_split_defined self
      /\ ((framework_accepts_splits framework_raises image_size batch_size
             self
           /\ TFCustom.preprocess framework_raises image_size batch_size self
              = (inr tt, after_preprocess image_size batch_size self))
          \/ (~ framework_accepts_splits framework_raises image_size
                  batch_size self
              /\ exists e self',
                   TFCustom.preprocess framework_raises image_size batch_size
                     self = (inl e, self')
                   /\ raised_by_framework framework_raises e
                   /\ same_metadata self self'
                   /\ TFCustom._preprocessed self'
                      = TFCustom._preprocessed self))).
Proof.
  destruct (truthy_dict (TFCustom._preprocessed self)) eqn:Hpre.
  { left. split; [reflexivity | ]. eexists.
    unfold TFCustom.preprocess. rewrite bind_get, Hpre. reflexivity. }
  destruct (TFCustom.not_positive_int batch_size) eqn:Hbatch.
  { right; left. split; [reflexivity | ].
    unfold TFCustom.preprocess.
    rewrite bind_get, Hpre, bind_raise_if_false, Hbatch. reflexivity. }
  destruct (TFCustom.not_positive_int image_size) eqn:Himage.
  { right; right; left. split; [reflexivity | ].
    unfold TFCustom.preprocess.
    rewrite bind_get, Hpre, bind_raise_if_false, Hbatch, bind_raise_if_false,
      Himage.
    reflexivity. }
  destruct (TFCustom.truthy (TFCustom._dataset self)
            || TFCustom.truthy (TFCustom._train_subset self)
            || TFCustom.truthy (TFCustom._validation_subset self)
            || TFCustom.truthy (TFCustom._test_subset self)) eqn:Hdef.
  - do 4 right. split; [reflexivity | ].
    split; [reflexivity | ]. split; [reflexivity | ].
    split; [apply some_split_defined_truthy; exact Hdef | ].
    apply preprocess_past_checks; assumption.
  - do 3 right; left. split.
    + intros H. apply some_split_defined_truthy in H. congruence.
    + unfold TFCustom.preprocess.
      rewrite bind_get, Hpre, bind_raise_if_false, Hbatch,
        bind_raise_if_false, Himage, bind_raise_if_false, bind_get, Hdef.
      reflexivity.
Qed.

(** A call that returned has left [after_preprocess] behind. *)
Lemma preprocess_inr (self self' : TFCustom.obj)
    (image_size batch_size : pyval) :
  TFCustom.preprocess framework_raises image_size batch_size self
  = (inr tt, self') ->
  truthy_dict (TFCustom._preprocessed self) = false
  /\ self' = after_preprocess image_size batch_size self.
Proof.
  intros Hrun.
  destruct (preprocess_cases self image_size batch_size)
    as [(_ & msg & H) | [(_ & H) | [(_ & H) | [(_ & H)
       | (Hpre & _ & _ & _ & [(_ & H) | (_ & e & s & H & _)])]]]];
    rewrite H in Hrun; try discriminate Hrun.
  split; [exact Hpre | congruence].
Qed.

End PreprocessProperties.

(** C1 as the claim words it. On an object that is not yet preprocessed
    and has its dataset, with an [image_size] and a [batch_size] that are
    integers of at least 1, [preprocess] raises all the same when the
    framework refuses a size: here [batch] refuses a batch size of 2^63,
    which does not fit its 64 bits. *)
Lemma preprocess_valid_sizes_can_raise :
  truthy_dict (TFCustom._preprocessed Examples.flowers) = false
  /\ some_split_defined Examples.flowers
  /\ positive_int (PyInt 224)
  /\ positive_int (PyInt (2 ^ 63))
  /\ fst (TFCustom.preprocess Examples.tf_limits (PyInt 224) (PyInt (2 ^ 63))
            Examples.flowers)
     = inl (ValueError "batch: batch_size outside int64").
Proof.
  split; [reflexivity | ].
  split; [exists "_dataset"; split; [left; reflexivity | discriminate] | ].
  split; [exists 224; split; [reflexivity | lia] | ].
  split; [exists (2 ^ 63); split; [reflexivity | lia] | ].
  vm_compute. reflexivity.
Qed.

(** C1, amended: [preprocess] raises [ValueError] on an object on which an
    earlier call of [preprocess] has completed, and raises [ValueError]
    when no dataset or subset is defined; on an object that is not yet
    preprocessed and has some split defined, with an [image_size] and a
    [batch_size] that are integers of at least 1, none of its own checks
    raises: it returns when the framework lets the map, cache, batch and
    prefetch calls through on the defined splits, and an exception that it
    raises is one that the framework raised in such a call. *)
Theorem preprocess_raises_or_returns
    (framework_raises : TFCustom.transformation -> TFCustom.tf_dataset
                        -> option exn)
    (self : TFCustom.obj) (image_size batch_size : pyval) :
  (forall (self0 : TFCustom.obj) (image_size0 batch_size0 : pyval),
      TFCustom.preprocess framework_raises image_size0 batch_size0 self0
      = (inr tt, self) ->
      exists msg,
        fst (TFCustom.preprocess framework_raises image_size batch_size self)
        = inl (ValueError msg))
  /\ (~ some_split_defined self ->
      exists msg,
        fst (TFCustom.preprocess framework_raises image_size batch_size self)
        = inl (ValueError msg))
  /\ (truthy_dict (TFCustom._preprocessed self) = false ->
      some_split_defined self ->
      positive_int image_size ->
      positive_int batch_size ->
      (framework_accepts_splits framework_raises image_size batch_size self ->
       fst (TFCustom.preprocess framework_raises image_size batch_size self)
       = inr tt)
      /\ (forall e,
            fst (TFCustom.preprocess framework_raises image_size batch_size
                   self) = inl e ->
            raised_by_framework framework_raises e)).
Proof.
  split; [ | split ].
  - intros self0 i0 b0 Hdone.
    apply preprocess_inr in Hdone as [_ ->].
    destruct (preprocess_cases framework_raises
                (after_preprocess i0 b0 self0) image_size batch_size)
      as [(_ & msg & H) | [(_ & H) | [(_ & H) | [(_ & H) | (Hpre & _)]]]];
      try (rewrite H; eexists; reflexivity).
    discriminate Hpre.
  - intros Hnone.
    destruct (preprocess_cases framework_raises self image_size batch_size)
      as [(_ & msg & H) | [(_ & H) | [(_ & H) | [(_ & H)
         | (_ & _ & _ & Hdef & _)]]]];
      try (rewrite H; eexists; reflexivity).
    contradiction.
  - intros Hpre Hdef Himage Hbatch.
    apply not_positive_int_false in Himage, Hbatch.
    destruct (preprocess_cases framework_raises self image_size batch_size)
      as [(H' & _) | [(H' & _) | [(H' & _) | [(H' & _)
         | (_ & _ & _ & _ & [(_ & H) | (Hnot & e & s & H & Hraised & _)])]]]];
      try congruence; try contradiction; rewrite H; simpl.
    + split; [reflexivity | discriminate].
    + split; [intros Hall; contradiction | ].
      intros e' [= <-]. exact Hraised.
Qed.

Lemma preprocess_raises_or_returns_witness :
  fst (TFCustom.preprocess Examples.tf_limits (PyInt 224) (PyInt 32)
         Examples.flowers) = inr tt
  /\ (exists msg,
        fst (TFCustom.preprocess Examples.tf_limits (PyInt 299) (PyInt 16)
               (after_preprocess (PyInt 224) (PyInt 32) Examples.flowers))
        = inl (ValueError msg))
  /\ (exists msg,
        fst (TFCustom.preprocess Examples.tf_limits (PyInt 224) (PyInt 32)
               Examples.undefined)
        = inl (ValueError msg))
  /\ raised_by_framework Examples.tf_limits
       (ValueError "batch: batch_size outside int64").
Proof.
  split; [ | split; [ | split ] ].
  - apply (preprocess_raises_or_returns Examples.tf_limits Examples.flowers
             (PyInt 224) (PyInt 32)).
    + reflexivity.
    + exists "_dataset". split; [left; reflexivity | discriminate].
    + exists 224. split; [reflexivity | lia].
    + exists 32. split; [reflexivity | lia].
    + intros name d [<- | [<- | [<- | [<- | []]]]] Hget;
        try discriminate Hget.
      injection Hget as <-. repeat split; reflexivity.
  - apply (proj1 (preprocess_raises_or_returns Examples.tf_limits
                    (after_preprocess (PyInt 224) (PyInt 32) Examples.flowers)
                    (PyInt 299) (PyInt 16))
             Examples.flowers (PyInt 224) (PyInt 32)).
    reflexivity.
  - apply (preprocess_raises_or_returns Examples.tf_limits Examples.undefined
             (PyInt 224) (PyInt 32)).
    intros (name & Hin & Hdef). simpl in Hin.
    destruct Hin as [<- | [<- | [<- | [<- | []]]]]; apply Hdef; reflexivity.
  - destruct (preprocess_raises_or_returns Examples.tf_limits
                Examples.flowers (PyInt 224) (PyInt (2 ^ 63)))
      as (_ & _ & Hthird).
    destruct Hthird as [_ Hraised].
    + reflexivity.
    + exists "_dataset". split; [left; reflexivity | discriminate].
    + exists 224. split; [reflexivity | lia].
    + exists (2 ^ 63). split; [reflexivity | lia].
    + apply Hraised. vm_compute. reflexivity.
Defined.

(** C3: a call [preprocess(image_size, batch_size)] that returns has
    replaced every split that was not [None] by prefetch of batch of cache
    of map of the old split, the mapped function being resize-with-pad to
    [image_size] x [image_size] followed by rescaling by 1/255; the splits
    that were [None] stay [None], and the preprocessing info is the
    dictionary of the two arguments. *)
Theorem preprocess_applies_pipeline_once
    (framework_raises : TFCustom.transformation -> TFCustom.tf_dataset
                        -> option exn)
    (self self' : TFCustom.obj) (image_size batch_size : pyval) :
  TFCustom.preprocess framework_raises image_size batch_size self
  = (inr tt, self') ->
  (forall name, In name TFCustom.split_list ->
     TFCustom.getattr self' name
     = preprocessed_split image_size batch_size <$> TFCustom.getattr self name)
  /\ TFCustom._preprocessed self'
     = Some [("image_size", image_size); ("batch_size", batch_size)].
Proof.
  intros Hrun. apply preprocess_inr in Hrun as [_ ->]. split.
  - intros name Hin. simpl in Hin.
    destruct Hin as [<- | [<- | [<- | [<- | []]]]]; reflexivity.
  - reflexivity.
Qed.

(** C10: when [preprocess] raises because the object is already
    preprocessed, because [batch_size] or [image_size] is not an integer of
    at least 1, or because no dataset is defined, it raises a [ValueError]
    and the object is exactly as it was before the call: no split has been
    replaced and the preprocessed flag is unchanged.  Whatever makes the
    call raise, the preprocessed flag is unchanged, and the object is as it
    was before the call unless the exception is one that the framework
    raised in a map, cache, batch or prefetch call. *)
Theorem preprocess_raise_leaves_object
    (framework_raises : TFCustom.transformation -> TFCustom.tf_dataset
                        -> option exn)
    (self : TFCustom.obj) (image_size batch_size : pyval) :
  (truthy_dict (TFCustom._preprocessed self) = true
   \/ ~ positive_int batch_size
   \/ ~ positive_int image_size
   \/ ~ some_split_defined self ->
   exists msg,
     TFCustom.preprocess framework_raises image_size batch_size self
     = (inl (ValueError msg), self))
  /\ (forall e,
        fst (TFCustom.preprocess framework_raises image_size batch_size self)
        = inl e ->
        TFCustom._preprocessed
          (snd (TFCustom.preprocess framework_raises image_size batch_size
                  self))
        = TFCustom._preprocessed self
        /\ (snd (TFCustom.preprocess framework_raises image_size batch_size
                   self) = self
            \/ raised_by_framework framework_raises e)).
Proof.
  split.
  - intros Hcause.
    destruct (preprocess_cases framework_raises self image_size batch_size)
      as [(_ & msg & H) | [(_ & H) | [(_ & H) | [(_ & H)
         | (Hpre & Hbatch & Himage & Hdef & _)]]]];
      try (eexists; exact H).
    apply not_positive_int_false in Hbatch, Himage.
    destruct Hcause as [H | [H | [H | H]]];
      [congruence | contradiction | contradiction | contradiction].
  - intros e Hraise.
    destruct (preprocess_cases framework_raises self image_size batch_size)
      as [(_ & msg & H) | [(_ & H) | [(_ & H) | [(_ & H)
         | (_ & _ & _ & _
            & [(_ & H) | (_ & e' & s & H & Hraised & _ & Hpre)])]]]];
      rewrite H in *; simpl; try (split; [reflexivity | left; reflexivity]).
    + discriminate Hraise.
    + injection Hraise as <-. split; [exact Hpre | right; exact Hraised].
Qed.

Lemma preprocess_applies_pipeline_once_witness :
  (forall name, In name TFCustom.split_list ->
     TFCustom.getattr
       (after_preprocess (PyInt 224) (PyInt 32) Examples.flowers) name
     = preprocessed_split (PyInt 224) (PyInt 32)
         <$> TFCustom.getattr Examples.flowers name)
  /\ TFCustom._preprocessed
       (after_preprocess (PyInt 224) (PyInt 32) Examples.flowers)
     = Some [("image_size", PyInt 224); ("batch_size", PyInt 32)].
Proof.
  apply (preprocess_applies_pipeline_once Examples.tf_limits Examples.flowers
           (after_preprocess (PyInt 224) (PyInt 32) Examples.flowers)
           (PyInt 224) (PyInt 32)).
  reflexivity.
Defined.

Lemma preprocess_raise_leaves_object_witness :
  exists msg,
    TFCustom.preprocess Examples.tf_limits (PyInt 224) (PyInt 0)
      Examples.flowers
    = (inl (ValueError msg), Examples.flowers).
Proof.
  apply (proj1 (preprocess_raise_leaves_object Examples.tf_limits
                  Examples.flowers (PyInt 224) (PyInt 0))).
  right; left. intros (z & Hz & Hpos). injection Hz as <-. lia.
Defined.

Example preprocess_twice_message :
  fst (TFCustom.preprocess Examples.tf_limits (PyInt 299) (PyInt 16)
         (after_preprocess (PyInt 224) (PyInt 32) Examples.flowers))
  = inl (ValueError
           "Data has already been preprocessed: {'image_size': 224, 'batch_size': 32}").
Proof. vm_compute. reflexivity. Qed.

(** A framework call that raises in the middle of the loop leaves the
    splits handled so far replaced: with a batch size that [batch] refuses,
    the dataset is left as cache of map of the old one, not batched and not
    marked as preprocessed. *)
Example framework_raise_leaves_partial_pipeline :
  TFCustom.preprocess Examples.tf_limits (PyInt 224) (PyInt (2 ^ 63))
    Examples.flowers
  = (inl (ValueError "batch: batch_size outside int64"),
     TFCustom.with_dataset
       (Some (TFCustom.Cache
                (TFCustom.Map (TFCustom.preprocess_image (PyInt 224))
                   (TFCustom.ImageDirectory "flowers" ["daisy"; "tulips"]
                      "rgb" false None))))
       Examples.flowers).
Proof. vm_compute. reflexivity. Qed.

(** With an image size that [resize_with_pad] refuses, the first call of the
    loop, [map], raises, and the object is as it was. *)
Example framework_raise_at_map :
  TFCustom.preprocess Examples.tf_limits (PyInt (2 ^ 31)) (PyInt 32)
    Examples.flowers
  = (inl (ValueError "resize_with_pad: size outside int32"),
     Examples.flowers).
Proof. vm_compute. reflexivity. Qed.


(** ** The constructor of the TensorFlow dataset *)

Lemma prefix_app (s t : string) : String.prefix s (s ++ t) = true.
Proof.
  induction s as [ | c s IH]; simpl.
  - destruct t; reflexivity.
  - destruct (ascii_dec c c); [exact IH | congruence].
Qed.

Lemma contains_prefix (needle haystack : string) :
  String.prefix needle haystack = true -> contains needle haystack = true.
Proof.
  intros H. destruct haystack; unfold contains; fold contains;
    rewrite H; reflexivity.
Qed.

Lemma contains_app (needle before after : string) :
  contains needle (before ++ needle ++ after) = true.
Proof.
  induction before as [ | c before IH].
  - change (contains needle (needle ++ after) = true).
    apply contains_prefix, prefix_app.
  - change (contains needle (String c (before ++ needle ++ after)) = true).
    simpl. rewrite IH. apply orb_true_r.
Qed.

(** C4: when [dataset_dir] does not exist, the constructor raises
    [FileNotFoundError], the message contains the directory, and the only
    call made is the existence test: the loader is never called, so no
    dataset object comes into being. *)
Theorem missing_directory_raises
    (path_exists : string -> bool)
    (keras_loader : string -> bool -> option Z -> string
                    -> exn + TFCustom.tf_dataset)
    (dataset_dir : string) (dataset_name : option string)
    (color_mode : string) (shuffle_files : bool) (seed : option Z) :
  path_exists dataset_dir = false ->
  exists msg,
    TFCustom.new path_exists keras_loader dataset_dir dataset_name color_mode
      shuffle_files seed
    = (inl (FileNotFoundError msg), [TFCustom.os_path_exists dataset_dir])
    /\ msg = "The dataset directory (" ++ dataset_dir ++ ") does not exist"
    /\ contains dataset_dir msg = true
    /\ existsb TFCustom.is_loader_call
         (snd (TFCustom.new path_exists keras_loader dataset_dir dataset_name
                 color_mode shuffle_files seed)) = false.
Proof.
  intros Hmissing.
  assert (Hnew :
            TFCustom.new path_exists keras_loader dataset_dir dataset_name
              color_mode shuffle_files seed
            = (inl (FileNotFoundError
                      ("The dataset directory (" ++ dataset_dir
                       ++ ") does not exist")),
               [TFCustom.os_path_exists dataset_dir])).
  { unfold TFCustom.new, TFCustom.__init__, TFCustom.call_path_exists,
      bind, modify, ret, raise_if, raise.
    rewrite Hmissing. reflexivity. }
  eexists. split; [exact Hnew | ].
  split; [reflexivity | ].
  split; [apply contains_app | ].
  rewrite Hnew. reflexivity.
Qed.

Lemma missing_directory_raises_witness :
  exists msg,
    TFCustom.new Examples.only_flowers Examples.keras_loader "birds" None
      "rgb" false None
    = (inl (FileNotFoundError msg), [TFCustom.os_path_exists "birds"])
    /\ msg = "The dataset directory (" ++ "birds" ++ ") does not exist"
    /\ contains "birds" msg = true
    /\ existsb TFCustom.is_loader_call
         (snd (TFCustom.new Examples.only_flowers Examples.keras_loader
                 "birds" None "rgb" false None)) = false.
Proof.
  apply (missing_directory_raises Examples.only_flowers Examples.keras_loader
           "birds" None "rgb" false None).
  reflexivity.
Defined.

(** C6 as the claim words it. The colour mode "grayscale" is none of
    "greyscale", "rgb", "rgba", and with a loader that accepts it the
    constructor raises nothing: it returns the dataset object. *)
Lemma color_mode_not_validated :
  ~ In "grayscale" ["greyscale"; "rgb"; "rgba"]
  /\ ~ (exists e,
          fst (TFCustom.new Examples.only_flowers Examples.keras_loader
                 "flowers" None "grayscale" false None)
          = inl e).
Proof.
  split.
  - simpl. intros [H | [H | [H | []]]]; discriminate H.
  - intros [e H]. vm_compute in H. discriminate H.
Qed.

(** C6, amended: the constructor has no check of [color_mode] of its own.
    For an existing directory it calls the loader once, with the colour mode
    as given; if the loader raises, that exception is what the constructor
    raises, and if the loader returns the directory dataset the constructor
    returns an object that holds it and records the colour mode in its
    info. *)
Theorem color_mode_left_to_loader
    (path_exists : string -> bool)
    (keras_loader : string -> bool -> option Z -> string
                    -> exn + TFCustom.tf_dataset)
    (dataset_dir : string) (dataset_name : option string)
    (color_mode : string) (shuffle_files : bool) (seed : option Z) :
  path_exists dataset_dir = true ->
  snd (TFCustom.new path_exists keras_loader dataset_dir dataset_name
         color_mode shuffle_files seed)
  = [TFCustom.os_path_exists dataset_dir;
     TFCustom.image_dataset_from_directory dataset_dir shuffle_files seed
       color_mode]
  /\ (forall e,
        keras_loader dataset_dir shuffle_files seed color_mode = inl e ->
        fst (TFCustom.new path_exists keras_loader dataset_dir dataset_name
               color_mode shuffle_files seed) = inl e)
  /\ (forall dir names mode shuffle sd,
        keras_loader dataset_dir shuffle_files seed color_mode
        = inr (TFCustom.ImageDirectory dir names mode shuffle sd) ->
        exists o,
          fst (TFCustom.new path_exists keras_loader dataset_dir dataset_name
                 color_mode shuffle_files seed) = inr o
          /\ TFCustom._dataset o
             = Some (TFCustom.ImageDirectory dir names mode shuffle sd)
          /\ In ("color_mode", PyStr color_mode) (TFCustom._info o)
          /\ TFCustom._preprocessed o = None).
Proof.
  intros Hexists.
  unfold TFCustom.new, TFCustom.__init__, TFCustom.call_path_exists,
    TFCustom.call_image_dataset_from_directory, TFCustom.class_names_of,
    bind, modify, ret, raise_if, raise.
  rewrite Hexists. simpl.
  destruct (keras_loader dataset_dir shuffle_files seed color_mode)
    as [e | d] eqn:Hload.
  - split; [reflexivity | split].
    + intros e' He'. injection He' as <-. reflexivity.
    + intros dir names mode shuffle sd H. discriminate H.
  - split; [destruct d; reflexivity | split].
    + intros e H. discriminate H.
    + intros dir names mode shuffle sd H. injection H as ->.
      eexists. split; [reflexivity | ]. simpl.
      split; [reflexivity | split; [ | reflexivity]].
      right; right; left. reflexivity.
Qed.

Lemma color_mode_left_to_loader_witness :
  snd (TFCustom.new Examples.only_flowers Examples.keras_loader "flowers"
         None "greyscale" false None)
  = [TFCustom.os_path_exists "flowers";
     TFCustom.image_dataset_from_directory "flowers" false None "greyscale"]
  /\ fst (TFCustom.new Examples.only_flowers Examples.keras_loader "flowers"
            None "greyscale" false None)
     = inl (ValueError
              "`color_mode` must be one of {'rgb', 'rgba', 'grayscale'}.").
Proof.
  pose proof (color_mode_left_to_loader Examples.only_flowers
                Examples.keras_loader "flowers" None "greyscale" false None
                eq_refl) as (Htrace & Hraise & _).
  split; [exact Htrace | ].
  apply Hraise. reflexivity.
Defined.

(** ** The constructor of the torchvision dataset *)

Lemma bad_split_member_false (s : pyval) :
  bad_split_member s = false <-> In s split_names.
Proof.
  unfold bad_split_member, split_names.
  destruct s as [ | b | z | lit | s | items ]; simpl;
    try (split; [discriminate | intros [H | [H | [H | []]]]; discriminate H]).
  rewrite negb_false_iff, !orb_true_iff, !String.eqb_eq.
  split.
  - intros [-> | [-> | [-> | H]]]; auto. discriminate H.
  - intros [H | [H | [H | []]]]; injection H as <-; auto.
Qed.

Lemma split_members_checked {S} (items : list pyval) (s : S) :
  for_each items (fun v =>
    raise_if (negb (isinstance_str v)
              || negb (py_in v ["train"; "validation"; "test"]))
      (ValueError msg_split_member)) s
  = if forallb (fun v => negb (bad_split_member v)) items
    then (inr tt, s)
    else (inl (ValueError msg_split_member), s).
Proof.
  induction items as [ | v items IH]; [reflexivity | ].
  simpl. unfold bind at 1, raise_if at 1.
  fold (bad_split_member v).
  destruct (bad_split_member v); simpl; [reflexivity | apply IH].
Qed.

Lemma all_members_good (items : list pyval) :
  forallb (fun v => negb (bad_split_member v)) items = true
  <-> forall v, In v items -> In v split_names.
Proof.
  rewrite forallb_forall. split; intros H v Hv.
  - apply bad_split_member_false. apply negb_true_iff. apply H, Hv.
  - apply negb_true_iff. apply bad_split_member_false. apply H, Hv.
Qed.

Lemma dataset_supported (name : string) :
  existsb (String.eqb name) Torchvision.DATASETS = true
  <-> In name Torchvision.DATASETS.
Proof.
  rewrite existsb_exists. split.
  - intros (x & Hx & Heq). apply String.eqb_eq in Heq. congruence.
  - intros H. exists name. split; [exact H | apply String.eqb_refl].
Qed.

(** The outcome of the argument checks, in the order of the code. *)
Lemma check_arguments_outcome (name : string) (split : pyval)
    (fr : Torchvision.frame) :
  Torchvision.check_arguments name split fr
  = match split with
    | PyList items =>
        if forallb (fun v => negb (bad_split_member v)) items then
          if existsb (String.eqb name) Torchvision.DATASETS
          then (inr items, fr)
          else (inl (ValueError msg_dataset_name), fr)
        else (inl (ValueError msg_split_member), fr)
    | _ => (inl (ValueError msg_split_not_list), fr)
    end.
Proof.
  destruct split as [ | b | z | lit | s | items ]; try reflexivity.
  unfold Torchvision.check_arguments.
  unfold bind at 1.
  change "Split argument can only contain these strings: train, validation, test."
    with msg_split_member.
  rewrite split_members_checked.
  destruct (forallb _ items); [ | reflexivity].
  unfold bind, raise_if.
  destruct (existsb (String.eqb name) Torchvision.DATASETS);
    simpl; reflexivity.
Qed.

(** When the argument checks raise, so does the constructor, with no call
    to torchvision. *)
Lemma new_when_check_raises
    (dataset_class : string -> string -> Torchvision.selector
                     -> exn + Torchvision.torch_dataset)
    (make_data_loaders : Torchvision.obj -> Z -> option exn)
    (dataset_dir dataset_name : string) (split : pyval)
    (download : bool) (num_workers : Z) (shuffle_files : bool) (e : exn) :
  Torchvision.check_arguments dataset_name split
    (Torchvision.Frame Torchvision.blank None [])
  = (inl e, Torchvision.Frame Torchvision.blank None []) ->
  Torchvision.new dataset_class make_data_loaders dataset_dir dataset_name
    split download num_workers shuffle_files
  = (inl e, []).
Proof.
  intros H. unfold Torchvision.new, Torchvision.__init__.
  unfold bind at 1. rewrite H. reflexivity.
Qed.

(** C5: the constructor raises [ValueError], with the message of the
    failed check, when [split] is not a list, when a member of [split] is
    not one of the strings 'train', 'validation', 'test', and when
    [dataset_name] is not in [DATASETS]; in each case no call to the
    torchvision class has been made. *)
Theorem constructor_rejects_bad_arguments
    (dataset_class : string -> string -> Torchvision.selector
                     -> exn + Torchvision.torch_dataset)
    (make_data_loaders : Torchvision.obj -> Z -> option exn)
    (dataset_dir dataset_name : string) (split : pyval)
    (download : bool) (num_workers : Z) (shuffle_files : bool) :
  let result :=
    Torchvision.new dataset_class make_data_loaders dataset_dir dataset_name
      split download num_workers shuffle_files in
  (isinstance_list split = false ->
   result = (inl (ValueError msg_split_not_list), []))
  /\ (forall items v,
        split = PyList items -> In v items -> ~ In v split_names ->
        result = (inl (ValueError msg_split_member), []))
  /\ (forall items,
        split = PyList items ->
        (forall v, In v items -> In v split_names) ->
        ~ In dataset_name Torchvision.DATASETS ->
        result = (inl (ValueError msg_dataset_name), []))
  /\ (isinstance_list split = false
      \/ (exists items v,
            split = PyList items /\ In v items /\ ~ In v split_names)
      \/ ~ In dataset_name Torchvision.DATASETS ->
      exists msg,
        result = (inl (ValueError msg), [])
        /\ In msg [msg_split_not_list; msg_split_member; msg_dataset_name]).
Proof.
  intros result.
  assert (Hnot_list : isinstance_list split = false ->
                      result = (inl (ValueError msg_split_not_list), [])).
  { intros H. apply new_when_check_raises.
    rewrite check_arguments_outcome.
    destruct split; try reflexivity. discriminate H. }
  assert (Hmember : forall items v,
             split = PyList items -> In v items -> ~ In v split_names ->
             result = (inl (ValueError msg_split_member), [])).
  { intros items v -> Hin Hbad. apply new_when_check_raises.
    rewrite check_arguments_outcome.
    destruct (forallb _ items) eqn:Hall; [ | reflexivity].
    exfalso. apply Hbad. eapply all_members_good; eauto. }
  assert (Hname : forall items,
             split = PyList items ->
             (forall v, In v items -> In v split_names) ->
             ~ In dataset_name Torchvision.DATASETS ->
             result = (inl (ValueError msg_dataset_name), [])).
  { intros items -> Hgood Hname. apply new_when_check_raises.
    rewrite check_arguments_outcome.
    apply all_members_good in Hgood. rewrite Hgood.
    destruct (existsb _ Torchvision.DATASETS) eqn:Hsup; [ | reflexivity].
    exfalso. apply Hname. apply dataset_supported. exact Hsup. }
  repeat split; try assumption.
  intros Hcase.
  destruct split as [ | b | z | lit | s | items ];
    try (exists msg_split_not_list;
         split; [apply Hnot_list; reflexivity | simpl; auto]).
  destruct (forallb (fun v => negb (bad_split_member v)) items) eqn:Hall.
  - destruct (existsb (String.eqb dataset_name) Torchvision.DATASETS) eqn:Hsup.
    + exfalso. destruct Hcase as [H | [(items' & v & Heq & Hin & Hbad) | H]].
      * discriminate H.
      * injection Heq as <-. apply Hbad.
        eapply all_members_good; eauto.
      * apply H. apply dataset_supported. exact Hsup.
    + exists msg_dataset_name. split; [ | simpl; auto].
      apply (Hname items eq_refl).
      * apply all_members_good. exact Hall.
      * intros H. apply dataset_supported in H. congruence.
  - exists msg_split_member. split; [ | simpl; auto].
    apply new_when_check_raises. rewrite check_arguments_outcome.
    rewrite Hall. reflexivity.
Qed.

Lemma constructor_rejects_bad_arguments_witness :
  Torchvision.new Examples.cifar_class Examples.loaders_ok "data" "CIFAR10"
    (PyStr "train") true 0 false
  = (inl (ValueError msg_split_not_list), [])
  /\ Torchvision.new Examples.cifar_class Examples.loaders_ok "data" "CIFAR10"
       (PyList [PyStr "train"; PyInt 3]) true 0 false
     = (inl (ValueError msg_split_member), [])
  /\ Torchvision.new Examples.cifar_class Examples.loaders_ok "data" "MNIST"
       (PyList [PyStr "train"]) true 0 false
     = (inl (ValueError msg_dataset_name), []).
Proof.
  split; [ | split ].
  - apply (constructor_rejects_bad_arguments Examples.cifar_class
             Examples.loaders_ok "data" "CIFAR10" (PyStr "train") true 0 false).
    reflexivity.
  - apply (proj1 (proj2 (constructor_rejects_bad_arguments
                           Examples.cifar_class Examples.loaders_ok "data"
                           "CIFAR10" (PyList [PyStr "train"; PyInt 3])
                           true 0 false))
             [PyStr "train"; PyInt 3] (PyInt 3) eq_refl).
    + right; left. reflexivity.
    + intros [H | [H | [H | []]]]; discriminate H.
  - apply (proj1 (proj2 (proj2 (constructor_rejects_bad_arguments
                                  Examples.cifar_class Examples.loaders_ok
                                  "data" "MNIST" (PyList [PyStr "train"])
                                  true 0 false)))
             [PyStr "train"] eq_refl).
    + intros v [<- | []]. left. reflexivity.
    + unfold Torchvision.DATASETS. simpl.
      intros [H | [H | [H | [H | [H | [H | [H | []]]]]]]]; discriminate H.
Defined.

(** C2, at the split list ['test', 'test'] for a class with a [train] flag:
    the constructor returns, the test part occupies positions 0 to 10000 of
    the dataset, and yet [_test_indices] is still [None]; the range has been
    stored in [_validation_indices], although no validation split was
    requested. *)
Theorem test_only_split_indices :
  exists o,
    fst (Torchvision.new Examples.cifar_class Examples.loaders_ok "data"
           "CIFAR10" (PyList [PyStr "test"; PyStr "test"]) true 0 false)
    = inr o
    /\ Torchvision.len <$> Torchvision._dataset o = Some 10000
    /\ Torchvision._test_indices o = None
    /\ Torchvision._validation_indices o = Some (Range 0 10000)
    /\ Torchvision._train_indices o = None.
Proof.
  eexists. split; [vm_compute; reflexivity | ].
  repeat split; reflexivity.
Qed.

(** With a preceding non-empty part the test range is stored where it
    belongs: for ['train', 'test'] the train indices are 0 to 50000 and the
    test indices 50000 to 60000, the length of the concatenation. *)
Example train_and_test_split_indices :
  exists o,
    fst (Torchvision.new Examples.cifar_class Examples.loaders_ok "data"
           "CIFAR10" (PyList [PyStr "train"; PyStr "test"]) true 0 false)
    = inr o
    /\ Torchvision.len <$> Torchvision._dataset o = Some 60000
    /\ Torchvision._train_indices o = Some (Range 0 50000)
    /\ Torchvision._validation_indices o = None
    /\ Torchvision._test_indices o = Some (Range 50000 60000).
Proof.
  eexists. split; [vm_compute; reflexivity | ].
  repeat split; reflexivity.
Qed.

(** C9, for a class without a [split] keyword, hence without a validation
    split: asked for ['validation'] alone the constructor raises the
    [ValueError] that names the dataset, but asked for
    ['train', 'validation'] it lets the [TypeError] of the class through.
    For a class whose [split] keyword has no 'val' value, the single-split
    path lets the [ValueError] of the class through, which does not name
    the dataset. *)
Theorem missing_validation_split_errors :
  fst (Torchvision.new Examples.cifar_class Examples.loaders_ok "data"
         "CIFAR10" (PyList [PyStr "validation"]) true 0 false)
  = inl (ValueError "No validation split was found for this dataset: CIFAR10")
  /\ fst (Torchvision.new Examples.cifar_class Examples.loaders_ok "data"
            "CIFAR10" (PyList [PyStr "train"; PyStr "validation"]) true 0 false)
     = inl (TypeError "__init__() got an unexpected keyword argument 'split'")
  /\ fst (Torchvision.new Examples.food_class Examples.loaders_ok "data"
            "Food101" (PyList [PyStr "validation"]) true 0 false)
     = inl (ValueError
              "Unknown value 'val' for argument split. Valid values are {'train', 'test'}.").
Proof.
  repeat split; vm_compute; reflexivity.
Qed.

(** *** The index ranges of the several-splits path *)

Section SplitIndices.

Variable dataset_class :
  string -> string -> Torchvision.selector -> exn + Torchvision.torch_dataset.
Variable make_data_loaders : Torchvision.obj -> Z -> option exn.
Variables dataset_dir dataset_name : string.

Lemma len_nonneg (d : Torchvision.torch_dataset) : 0 <= Torchvision.len d.
Proof. induction d; simpl; lia. Qed.

Lemma add_train_returns (fr fr' : Torchvision.frame) :
  Torchvision.add_train dataset_class dataset_dir dataset_name fr
  = (inr tt, fr') ->
  exists d,
    load_train dataset_class dataset_name dataset_dir = inr d
    /\ Torchvision.self fr'
       = Torchvision.with_train_indices (Some (range1 (Torchvision.len d)))
           (Torchvision.with_dataset (Some d) (Torchvision.self fr))
    /\ Torchvision.test_data fr' = Torchvision.test_data fr.
Proof.
  unfold Torchvision.add_train, try_except, Torchvision.call_dataset_class,
    Torchvision.log, Torchvision.on_self, Torchvision.len_of_dataset,
    Torchvision.read_self, load_train, bind, modify, get, ret, raise.
  simpl.
  destruct (dataset_class dataset_name dataset_dir
              (Torchvision.split_kw "train")) as [e | d]; simpl.
  - destruct (is_TypeError e); simpl; [ | discriminate].
    destruct (dataset_class dataset_name dataset_dir
                (Torchvision.train_kw true)) as [e' | d]; simpl;
      [discriminate | ].
    intros [= <-]. exists d. auto.
  - intros [= <-]. exists d. auto.
Qed.

Lemma add_validation_returns (fr fr' : Torchvision.frame) :
  Torchvision.add_validation dataset_class dataset_dir dataset_name fr
  = (inr tt, fr') ->
  exists d,
    load_validation dataset_class dataset_name dataset_dir = inr d
    /\ Torchvision.self fr' = stored_validation d (Torchvision.self fr)
    /\ Torchvision.test_data fr' = Torchvision.test_data fr.
Proof.
  unfold Torchvision.add_validation, try_except,
    Torchvision.call_dataset_class, Torchvision.log, Torchvision.on_self,
    Torchvision.len_of_dataset, Torchvision.read_self, load_validation,
    stored_validation, bind, modify, get, ret, raise.
  simpl.
  destruct (dataset_class dataset_name dataset_dir
              (Torchvision.split_kw "val")) as [e | d]; simpl.
  - destruct (is_ValueError e); discriminate.
  - destruct (Torchvision._dataset (Torchvision.self fr)) as [old | ] eqn:Hold;
      simpl.
    + destruct (0 <? Torchvision.len old)%Z; simpl.
      * rewrite Hold. simpl. intros [= <-]. exists d. auto.
      * intros [= <-]. exists d. auto.
    + intros [= <-]. exists d. auto.
Qed.

(** The [finally] block either fails on the unassigned local or stores the
    test part. *)
Lemma store_test_data_outcome (fr : Torchvision.frame) :
  Torchvision.store_test_data fr
  = match Torchvision.test_data fr with
    | Some d =>
        (inr tt,
         Torchvision.Frame (stored_test d (Torchvision.self fr))
           (Torchvision.test_data fr) (Torchvision.trace fr))
    | None =>
        (inl (UnboundLocalError
                "local variable 'test_data' referenced before assignment"),
         fr)
    end.
Proof.
  unfold Torchvision.store_test_data, Torchvision.read_test_data,
    Torchvision.on_self, Torchvision.len_of_dataset, Torchvision.read_self,
    stored_test, bind, modify, get, ret, raise.
  destruct (Torchvision.test_data fr) as [d | ] eqn:Hd; [ | reflexivity].
  simpl.
  destruct (Torchvision._dataset (Torchvision.self fr)) as [old | ] eqn:Hold;
    simpl; [ | rewrite Hd; reflexivity].
  destruct (0 <? Torchvision.len old)%Z; simpl; rewrite ?Hold, Hd; reflexivity.
Qed.

(** The [try] block binds [test_data] exactly when the test part loads; it
    never touches the object. *)
Lemma load_test_data_outcome (fr : Torchvision.frame) :
  exists tr,
    match load_test dataset_class dataset_name dataset_dir with
    | inr d =>
        Torchvision.load_test_data dataset_class dataset_dir dataset_name fr
        = (inr tt, Torchvision.Frame (Torchvision.self fr) (Some d) tr)
    | inl _ =>
        exists e,
          Torchvision.load_test_data dataset_class dataset_dir dataset_name fr
          = (inl e,
             Torchvision.Frame (Torchvision.self fr)
               (Torchvision.test_data fr) tr)
    end.
Proof.
  unfold Torchvision.load_test_data, try_except,
    Torchvision.call_dataset_class, Torchvision.log,
    Torchvision.bind_test_data, load_test, bind, modify, ret, raise.
  simpl.
  destruct (dataset_class dataset_name dataset_dir
              (Torchvision.split_kw "test")) as [e | d]; simpl.
  - destruct (is_TypeError e); simpl.
    + destruct (dataset_class dataset_name dataset_dir
                  (Torchvision.train_kw false)) as [e' | d]; simpl.
      * destruct (is_ValueError e'); simpl; eexists; eexists; reflexivity.
      * eexists; reflexivity.
    + eexists; eexists; reflexivity.
  - eexists; reflexivity.
Qed.

(** In the several-splits path a test part that cannot be loaded never
    surfaces as the [ValueError] of line 105: the [finally] block reads
    [test_data], which was not assigned, and its [UnboundLocalError]
    replaces whatever was being raised. *)
Lemma add_test_failure_is_unbound_local (fr : Torchvision.frame) (e : exn) :
  Torchvision.test_data fr = None ->
  load_test dataset_class dataset_name dataset_dir = inl e ->
  exists fr',
    Torchvision.add_test dataset_class dataset_dir dataset_name fr
    = (inl (UnboundLocalError
              "local variable 'test_data' referenced before assignment"),
       fr').
Proof.
  intros Hunbound Hload.
  destruct (load_test_data_outcome fr) as [tr Hbody].
  rewrite Hload in Hbody. destruct Hbody as [e' Hbody].
  unfold Torchvision.add_test, try_finally.
  rewrite Hbody, store_test_data_outcome. simpl.
  rewrite Hunbound. eexists. reflexivity.
Qed.

Lemma add_test_returns (fr fr' : Torchvision.frame) :
  Torchvision.test_data fr = None ->
  Torchvision.add_test dataset_class dataset_dir dataset_name fr
  = (inr tt, fr') ->
  exists d,
    load_test dataset_class dataset_name dataset_dir = inr d
    /\ Torchvision.self fr' = stored_test d (Torchvision.self fr).
Proof.
  intros Hunbound.
  destruct (load_test_data_outcome fr) as [tr Hbody].
  unfold Torchvision.add_test, try_finally.
  destruct (load_test dataset_class dataset_name dataset_dir) as [e | d].
  - destruct Hbody as [e' Hbody].
    rewrite Hbody, store_test_data_outcome. simpl.
    rewrite Hunbound. discriminate.
  - rewrite Hbody, store_test_data_outcome. simpl.
    intros [= <-]. exists d. auto.
Qed.

(** The object as lines 47-54 leave it. *)
Lemma new_returns_inv (items : list pyval) (download : bool)
    (num_workers : Z) (shuffle_files : bool)
    (o : Torchvision.obj) (tr : list Torchvision.event) :
  Torchvision.new dataset_class make_data_loaders dataset_dir dataset_name
    (PyList items) download num_workers shuffle_files = (inr o, tr) ->
  List.length items <> 1%nat ->
  exists fr0 fr1,
    Torchvision.self fr0
    = initialised dataset_dir dataset_name num_workers shuffle_files
    /\ Torchvision.test_data fr0 = None
    /\ Torchvision.multiple_splits dataset_class dataset_dir dataset_name
         items fr0 = (inr tt, fr1)
    /\ Torchvision._dataset (Torchvision.self fr1) <> None
    /\ exists info, o = Torchvision.with_info info (Torchvision.self fr1).
Proof.
  intros Hnew Hlen.
  unfold Torchvision.new, Torchvision.__init__ in Hnew.
  unfold bind at 1 in Hnew. rewrite check_arguments_outcome in Hnew.
  destruct (forallb _ items);
    [ | discriminate Hnew].
  destruct (existsb _ Torchvision.DATASETS); [ | discriminate Hnew].
  unfold bind at 1 in Hnew. unfold Torchvision.on_self at 1 in Hnew.
  unfold modify at 1 in Hnew.
  apply Nat.eqb_neq in Hlen. rewrite Hlen in Hnew.
  unfold bind at 1 in Hnew.
  match type of Hnew with
  | context [Torchvision.multiple_splits _ _ _ _ ?fr] =>
      exists fr;
      destruct (Torchvision.multiple_splits dataset_class dataset_dir
                  dataset_name items fr) as [[e | []] fr1] eqn:Hsplits
  end; [discriminate Hnew | ].
  exists fr1. split; [reflexivity | ]. split; [reflexivity | ].
  split; [reflexivity | ].
  unfold Torchvision._make_data_loaders, Torchvision.len_of_dataset,
    Torchvision.read_self, Torchvision.on_self, bind, get, ret, raise, modify
    in Hnew.
  simpl in Hnew.
  destruct (make_data_loaders (Torchvision.self fr1) 1);
    [discriminate Hnew | ].
  destruct (Torchvision._dataset (Torchvision.self fr1));
    [ | discriminate Hnew].
  simpl in Hnew. injection Hnew as <- _.
  split; [discriminate | eexists; reflexivity].
Qed.

(** What the three blocks of the several-splits path leave, block by
    block. *)
Lemma multiple_splits_returns (items : list pyval)
    (fr0 fr1 : Torchvision.frame) :
  Torchvision.test_data fr0 = None ->
  Torchvision.multiple_splits dataset_class dataset_dir dataset_name items fr0
  = (inr tt, fr1) ->
  exists o1 o2 o3,
    (if str_in "train" items then
       exists d,
         load_train dataset_class dataset_name dataset_dir = inr d
         /\ o1 = Torchvision.with_train_indices
                   (Some (range1 (Torchvision.len d)))
                   (Torchvision.with_dataset (Some d) (Torchvision.self fr0))
     else o1 = Torchvision.self fr0)
    /\ (if str_in "validation" items then
          exists d,
            load_validation dataset_class dataset_name dataset_dir = inr d
            /\ o2 = stored_validation d o1
        else o2 = o1)
    /\ (if str_in "test" items then
          exists d,
            load_test dataset_class dataset_name dataset_dir = inr d
            /\ o3 = stored_test d o2
        else o3 = o2)
    /\ Torchvision.self fr1
       = Torchvision.with_validation_type "defined_split" o3.
Proof.
  intros Hunbound Hrun.
  unfold Torchvision.multiple_splits in Hrun.
  unfold bind at 1 in Hrun.
  destruct ((if str_in "train" items
             then Torchvision.add_train dataset_class dataset_dir dataset_name
             else ret tt) fr0) as [[e | []] fra] eqn:Htrain;
    [discriminate Hrun | ].
  unfold bind at 1 in Hrun.
  destruct ((if str_in "validation" items
             then Torchvision.add_validation dataset_class dataset_dir
                    dataset_name
             else ret tt) fra) as [[e | []] frb] eqn:Hval;
    [discriminate Hrun | ].
  unfold bind at 1 in Hrun.
  destruct ((if str_in "test" items
             then Torchvision.add_test dataset_class dataset_dir dataset_name
             else ret tt) frb) as [[e | []] frc] eqn:Htest;
    [discriminate Hrun | ].
  unfold Torchvision.on_self, modify in Hrun. injection Hrun as <-.
  exists (Torchvision.self fra), (Torchvision.self frb),
    (Torchvision.self frc).
  assert (Ha : Torchvision.test_data fra = None
               /\ if str_in "train" items then
                    exists d,
                      load_train dataset_class dataset_name dataset_dir = inr d
                      /\ Torchvision.self fra
                         = Torchvision.with_train_indices
                             (Some (range1 (Torchvision.len d)))
                             (Torchvision.with_dataset (Some d)
                                (Torchvision.self fr0))
                  else Torchvision.self fra = Torchvision.self fr0).
  { destruct (str_in "train" items).
    - apply add_train_returns in Htrain as (d & Hd & Hself & Htd).
      split; [congruence | eauto].
    - injection Htrain as <-. auto. }
  destruct Ha as [Hunbound_a Ha].
  assert (Hb : Torchvision.test_data frb = None
               /\ if str_in "validation" items then
                    exists d,
                      load_validation dataset_class dataset_name dataset_dir
                      = inr d
                      /\ Torchvision.self frb
                         = stored_validation d (Torchvision.self fra)
                  else Torchvision.self frb = Torchvision.self fra).
  { destruct (str_in "validation" items).
    - apply add_validation_returns in Hval as (d & Hd & Hself & Htd).
      split; [congruence | eauto].
    - injection Hval as <-. auto. }
  destruct Hb as [Hunbound_b Hb].
  repeat split; try assumption.
  destruct (str_in "test" items).
  - apply add_test_returns in Htest; assumption.
  - injection Htest as <-. reflexivity.
Qed.

(** The several-splits path stores the ranges one after the other as long
    as line 111 rather than line 114 serves the test part: when the test
    part, if requested, is preceded by a non-empty dataset, the train
    indices start at 0, each requested part starts where the previous one
    stops, and the last range stops at [len(self._dataset)]. *)
Theorem several_splits_indices (items : list pyval) (download : bool)
    (num_workers : Z) (shuffle_files : bool)
    (o : Torchvision.obj) (tr : list Torchvision.event) :
  Torchvision.new dataset_class make_data_loaders dataset_dir dataset_name
    (PyList items) download num_workers shuffle_files = (inr o, tr) ->
  List.length items <> 1%nat ->
  let la := part_len (str_in "train" items)
              (load_train dataset_class dataset_name dataset_dir) in
  let lv := part_len (str_in "validation" items)
              (load_validation dataset_class dataset_name dataset_dir) in
  let lt := part_len (str_in "test" items)
              (load_test dataset_class dataset_name dataset_dir) in
  (str_in "test" items = true -> 0 < la + lv) ->
  Torchvision._train_indices o
  = (if str_in "train" items then Some (Range 0 la) else None)
  /\ Torchvision._validation_indices o
     = (if str_in "validation" items then Some (Range la (la + lv)) else None)
  /\ Torchvision._test_indices o
     = (if str_in "test" items
        then Some (Range (la + lv) (la + lv + lt)) else None)
  /\ Torchvision.len <$> Torchvision._dataset o = Some (la + lv + lt).
Proof.
  intros Hnew Hlen la lv lt Hbefore.
  apply new_returns_inv in Hnew
    as (fr0 & fr1 & Hinit & Hunbound & Hsplits & Hsome & info & ->);
    [ | exact Hlen].
  apply multiple_splits_returns in Hsplits
    as (o1 & o2 & o3 & H1 & H2 & H3 & Hself); [ | exact Hunbound].
  rewrite Hself, Hinit in *. clear Hself Hinit.
  subst la lv lt. unfold part_len in *.
  destruct (str_in "train" items);
    [destruct H1 as (d1 & E1 & ->); rewrite E1 in *;
     pose proof (len_nonneg d1) | subst o1];
    (destruct (str_in "validation" items);
     [destruct H2 as (d2 & E2 & ->); rewrite E2 in *;
      pose proof (len_nonneg d2) | subst o2]);
    (destruct (str_in "test" items);
     [destruct H3 as (d3 & E3 & ->); rewrite E3 in *;
      pose proof (len_nonneg d3);
      specialize (Hbefore eq_refl) | subst o3; clear Hbefore]);
    unfold stored_test, stored_validation, initialised, range1 in *;
    simpl in *;
    repeat match goal with
           | |- context [(0 <? ?x)%Z] => destruct (Z.ltb_spec 0 x); simpl
           end;
    try lia; try congruence;
    repeat split; try reflexivity;
    first [f_equal; lia | f_equal; f_equal; lia].
Qed.


(** The slip of line 114 in general: when the test part is requested and no
    non-empty dataset precedes it, its range goes to [_validation_indices]
    and [_test_indices] stays [None]. *)
Lemma several_splits_test_first (items : list pyval) (download : bool)
    (num_workers : Z) (shuffle_files : bool)
    (o : Torchvision.obj) (tr : list Torchvision.event) :
  Torchvision.new dataset_class make_data_loaders dataset_dir dataset_name
    (PyList items) download num_workers shuffle_files = (inr o, tr) ->
  List.length items <> 1%nat ->
  str_in "test" items = true ->
  part_len (str_in "train" items)
    (load_train dataset_class dataset_name dataset_dir)
  + part_len (str_in "validation" items)
      (load_validation dataset_class dataset_name dataset_dir) = 0 ->
  Torchvision._test_indices o = None
  /\ Torchvision._validation_indices o
     = Some (Range 0 (part_len true
                        (load_test dataset_class dataset_name dataset_dir))).
Proof.
  intros Hnew Hlen Htest Hnone.
  apply new_returns_inv in Hnew
    as (fr0 & fr1 & Hinit & Hunbound & Hsplits & Hsome & info & ->);
    [ | exact Hlen].
  apply multiple_splits_returns in Hsplits
    as (o1 & o2 & o3 & H1 & H2 & H3 & Hself); [ | exact Hunbound].
  rewrite Hself, Hinit in *. clear Hself Hinit.
  rewrite Htest in H3. destruct H3 as (d3 & E3 & ->).
  unfold part_len in *. rewrite E3.
  destruct (str_in "train" items);
    [destruct H1 as (d1 & E1 & ->); rewrite E1 in *;
     pose proof (len_nonneg d1) | subst o1];
    (destruct (str_in "validation" items);
     [destruct H2 as (d2 & E2 & ->); rewrite E2 in *;
      pose proof (len_nonneg d2) | subst o2]);
    unfold stored_test, stored_validation, initialised, range1 in *;
    simpl in *;
    repeat match goal with
           | |- context [(0 <? ?x)%Z] => destruct (Z.ltb_spec 0 x); simpl
           end;
    try lia; split; reflexivity.
Qed.

(** A validation part that cannot be loaded, in the two paths.  With the
    several-splits block only a [ValueError] of the class is turned into
    the [ValueError] that names the dataset; any other exception, the
    [TypeError] for an unknown [split] keyword included, leaves the
    constructor as it is. *)
Lemma add_validation_failure (fr : Torchvision.frame) (e : exn) :
  load_validation dataset_class dataset_name dataset_dir = inl e ->
  exists fr',
    Torchvision.add_validation dataset_class dataset_dir dataset_name fr
    = (inl (if is_ValueError e
            then ValueError
                   ("No validation split was found for this dataset: "
                    ++ dataset_name)
            else e),
       fr').
Proof.
  unfold load_validation. intros Hload.
  unfold Torchvision.add_validation, try_except,
    Torchvision.call_dataset_class, Torchvision.log, bind, modify, raise.
  rewrite Hload. simpl.
  destruct (is_ValueError e); eexists; reflexivity.
Qed.

(** With the single-split path it is the other way round: the [TypeError]
    becomes the [ValueError] that names the dataset, and a [ValueError] of
    the class leaves the constructor as it is. *)
Lemma single_validation_failure (fr : Torchvision.frame) (e : exn) :
  load_validation dataset_class dataset_name dataset_dir = inl e ->
  exists fr',
    Torchvision.single_split dataset_class dataset_dir dataset_name
      [PyStr "validation"] fr
    = (inl (if is_TypeError e
            then ValueError
                   ("No validation split was found for this dataset: "
                    ++ dataset_name)
            else e),
       fr').
Proof.
  unfold load_validation. intros Hload.
  unfold Torchvision.single_split, try_except,
    Torchvision.call_dataset_class, Torchvision.log, bind, modify, raise.
  simpl. rewrite Hload. simpl.
  destruct (is_TypeError e); eexists; reflexivity.
Qed.

End SplitIndices.

Lemma several_splits_indices_witness :
  match
    Torchvision.new Examples.cifar_class Examples.loaders_ok "data" "CIFAR10"
      (PyList [PyStr "train"; PyStr "test"]) true 0 false
  with
  | (inr o, _) =>
      Torchvision._train_indices o = Some (Range 0 50000)
      /\ Torchvision._validation_indices o = None
      /\ Torchvision._test_indices o = Some (Range 50000 60000)
      /\ Torchvision.len <$> Torchvision._dataset o = Some 60000
  | (inl _, _) => False
  end.
Proof.
  destruct (Torchvision.new Examples.cifar_class Examples.loaders_ok "data"
              "CIFAR10" (PyList [PyStr "train"; PyStr "test"]) true 0 false)
    as [[e | o] tr] eqn:Hnew.
  - vm_compute in Hnew. discriminate Hnew.
  - apply (several_splits_indices Examples.cifar_class Examples.loaders_ok
             "data" "CIFAR10" [PyStr "train"; PyStr "test"] true 0 false o tr
             Hnew).
    + simpl. lia.
    + intros _. vm_compute. reflexivity.
Defined.

(** ** The model factory *)

Section SupportedModels.

Variable reg : ModelFactory.registry.

Lemma only_framework_dom (f : string)
    (entry entry' : ModelFactory.model_entry) :
  ModelFactory.only_framework f entry = Some entry' ->
  dom entry' = ({[ f ]} : gset string).
Proof.
  unfold ModelFactory.only_framework.
  destruct (entry !! f) as [meta | ]; [ | discriminate].
  intros [= <-]. apply dom_singleton_L.
Qed.

Lemma models_of_framework_dom (f use_case m : string)
    (entry : ModelFactory.model_entry) :
  ModelFactory.models_of reg (Some f) use_case !! m = Some entry ->
  dom entry = ({[ f ]} : gset string).
Proof.
  unfold ModelFactory.models_of. rewrite lookup_omap.
  destruct (default ∅ (reg !! use_case) !! m) as [entry0 | ];
    [ | discriminate].
  simpl. apply only_framework_dom.
Qed.

(** A key of the result maps to the models of that use case. *)
Lemma lookup_use_cases (framework : option string) (use_cases : list string)
    (u : string) (models : gmap string ModelFactory.model_entry) :
  (list_to_map
     (List.map (fun k => (k, ModelFactory.models_of reg framework k))
        use_cases) : gmap string _) !! u = Some models ->
  models = ModelFactory.models_of reg framework u.
Proof.
  induction use_cases as [ | k use_cases IH]; simpl.
  - rewrite lookup_empty. discriminate.
  - destruct (decide (k = u)) as [-> | Hne].
    + rewrite lookup_insert_eq. congruence.
    + rewrite lookup_insert_ne by exact Hne. exact IH.
Qed.

Lemma dom_use_cases (framework : option string) (use_cases : list string) :
  dom (list_to_map
         (List.map (fun k => (k, ModelFactory.models_of reg framework k))
            use_cases) : gmap string _)
  = (list_to_set use_cases : gset string).
Proof.
  induction use_cases as [ | k use_cases IH]; simpl.
  - apply dom_empty_L.
  - rewrite dom_insert_L, IH. reflexivity.
Qed.

Lemma framework_supported (f : ModelFactory.FrameworkType) :
  ModelFactory.unsupported ModelFactory.framework_from_str
    (Some (ModelFactory.framework_str f)) = false.
Proof. destruct f; reflexivity. Qed.

Lemma use_case_supported (u : ModelFactory.UseCaseType) :
  ModelFactory.unsupported ModelFactory.use_case_from_str
    (Some (ModelFactory.use_case_str u)) = false.
Proof. destruct u; reflexivity. Qed.

(** Any choice of filters from the two enumerations is accepted, and the
    result is the dictionary built from the chosen use cases. *)
Lemma get_supported_models_returns
    (framework : option ModelFactory.FrameworkType)
    (use_case : option ModelFactory.UseCaseType) :
  ModelFactory.get_supported_models reg
    (ModelFactory.framework_str <$> framework)
    (ModelFactory.use_case_str <$> use_case)
  = inr (list_to_map
           (List.map
              (fun k => (k, ModelFactory.models_of reg
                              (ModelFactory.framework_str <$> framework) k))
              match use_case with
              | Some u => [ModelFactory.use_case_str u]
              | None =>
                  List.map ModelFactory.use_case_str
                    ModelFactory.all_use_cases
              end)).
Proof.
  unfold ModelFactory.get_supported_models.
  destruct framework as [f | ], use_case as [u | ];
    unfold fmap, option_fmap, option_map, default;
    rewrite ?framework_supported, ?use_case_supported; reflexivity.
Qed.

(** C7: with a framework filter, [get_supported_models] returns a
    dictionary in which every model entry has that framework as its only
    key; with a use case filter the result has that use case as its only
    key; with no use case filter the result has a key for every member of
    [UseCaseType]. *)
Theorem supported_models_filters :
  (forall (f : ModelFactory.FrameworkType)
          (use_case : option ModelFactory.UseCaseType),
      exists res,
        ModelFactory.get_supported_models reg
          (Some (ModelFactory.framework_str f))
          (ModelFactory.use_case_str <$> use_case) = inr res
        /\ forall (u m : string) models (entry : ModelFactory.model_entry),
             res !! u = Some models ->
             models !! m = Some entry ->
             dom entry = ({[ ModelFactory.framework_str f ]} : gset string))
  /\ (forall (framework : option ModelFactory.FrameworkType)
             (u : ModelFactory.UseCaseType),
        exists res,
          ModelFactory.get_supported_models reg
            (ModelFactory.framework_str <$> framework)
            (Some (ModelFactory.use_case_str u)) = inr res
          /\ dom res = ({[ ModelFactory.use_case_str u ]} : gset string))
  /\ (forall (framework : option ModelFactory.FrameworkType),
        exists res,
          ModelFactory.get_supported_models reg
            (ModelFactory.framework_str <$> framework) None = inr res
          /\ (forall k : ModelFactory.UseCaseType,
                ModelFactory.use_case_str k ∈ dom res)
          /\ size (dom res) = List.length ModelFactory.all_use_cases).
Proof.
  split; [ | split ].
  - intros f use_case. eexists. split.
    + apply (get_supported_models_returns (Some f) use_case).
    + intros u m models entry Hu Hm.
      apply lookup_use_cases in Hu. subst models.
      eapply models_of_framework_dom. exact Hm.
  - intros framework u. eexists. split.
    + apply (get_supported_models_returns framework (Some u)).
    + rewrite dom_use_cases. apply list_to_set_singleton_L.
  - intros framework. eexists. split.
    + apply (get_supported_models_returns framework None).
    + rewrite dom_use_cases. split.
      * intros k. apply elem_of_list_to_set, list_elem_of_In.
        destruct k; simpl; auto.
      * vm_compute. reflexivity.
Qed.

End SupportedModels.

Lemma registry_resnet50_tensorflow :
  ModelFactory.models_of Examples.registry (Some "tensorflow")
    "image_classification" !! "resnet50"
  = Some {[ "tensorflow" :=
              {[ "model_hub" := PyStr "TFHub"; "image_size" := PyInt 224 ]} ]}.
Proof.
  unfold ModelFactory.models_of, Examples.registry.
  rewrite lookup_omap, lookup_insert_eq.
  cbv beta iota delta [default from_option id].
  rewrite lookup_insert_ne by discriminate.
  rewrite lookup_singleton_eq.
  cbv beta iota delta [mbind option_bind ModelFactory.only_framework].
  rewrite lookup_insert_eq. reflexivity.
Qed.

Lemma supported_models_filters_witness :
  exists res models entry,
    ModelFactory.get_supported_models Examples.registry (Some "tensorflow")
      (Some "image_classification") = inr res
    /\ res !! "image_classification" = Some models
    /\ models !! "resnet50" = Some entry
    /\ dom entry = ({[ "tensorflow" ]} : gset string).
Proof.
  destruct (proj1 (supported_models_filters Examples.registry)
              ModelFactory.TENSORFLOW
              (Some ModelFactory.IMAGE_CLASSIFICATION))
    as (res & Hres & Hdom).
  assert (Hret :
            ModelFactory.get_supported_models Examples.registry
              (Some "tensorflow") (Some "image_classification")
            = inr (<[ "image_classification" :=
                        ModelFactory.models_of Examples.registry
                          (Some "tensorflow") "image_classification" ]> ∅))
    by exact (get_supported_models_returns Examples.registry
                (Some ModelFactory.TENSORFLOW)
                (Some ModelFactory.IMAGE_CLASSIFICATION)).
  change (ModelFactory.get_supported_models Examples.registry
            (Some "tensorflow") (Some "image_classification") = inr res)
    in Hres.
  rewrite Hret in Hres. injection Hres as <-.
  eexists _, _, _. split; [exact Hret | ].
  split; [apply lookup_insert_eq | ].
  split; [exact registry_resnet50_tensorflow | ].
  eapply Hdom; [apply lookup_insert_eq | exact registry_resnet50_tensorflow].
Defined.

(** An unknown framework or use case is refused with a message that names
    it. *)
Lemma unsupported_filter_raises (reg : ModelFactory.registry)
    (framework use_case : option string) (bad : string) :
  (framework = Some bad ->
   ModelFactory.framework_from_str bad = None ->
   ModelFactory.get_supported_models reg framework use_case
   = inl (ValueError ("Unsupported framework: " ++ bad)))
  /\ (framework = None ->
      use_case = Some bad ->
      ModelFactory.use_case_from_str bad = None ->
      ModelFactory.get_supported_models reg framework use_case
      = inl (ValueError ("Unsupported use case: " ++ bad))).
Proof.
  unfold ModelFactory.get_supported_models. split.
  - intros -> Hbad. simpl. rewrite Hbad. reflexivity.
  - intros -> -> Hbad. simpl. rewrite Hbad. reflexivity.
Qed.

(** ** The model wrappers *)

(** C8: [train] makes one call of the wrapped model's [fit]; the call
    carries the dataset's native handle, an [int] as epoch count, a [bool]
    as shuffle flag and a callback list that is not empty, and [train] ends
    the way that call ends: with the value [fit] returns, or with the
    exception it raises. *)
Theorem train_forwards_to_fit (native_dataset history : Type)
    (w : @Models.model_wrapper native_dataset history)
    (ds : @Models.dataset_adapter native_dataset)
    (output_dir : string) (epochs : Z) (shuffle : bool)
    (calls : list (@Models.fit_call native_dataset)) :
  exists call,
    snd (Models.train w ds output_dir epochs shuffle calls)
    = (calls ++ [call])%list
    /\ Models.fit_dataset call = Models.dataset ds
    /\ Models.fit_epochs call = PyInt epochs
    /\ isinstance_int (Models.fit_epochs call) = true
    /\ Models.fit_shuffle call = PyBool shuffle
    /\ isinstance_bool (Models.fit_shuffle call) = true
    /\ (0 < List.length (Models.fit_callbacks call))%nat
    /\ fst (Models.train w ds output_dir epochs shuffle calls)
       = Models.fit w call.
Proof.
  eexists. unfold Models.train, bind, modify.
  destruct (Models.fit w _) as [e | h] eqn:Hfit.
  - simpl. repeat split; try reflexivity.
    + simpl. lia.
    + symmetry. exact Hfit.
  - simpl. repeat split; try reflexivity.
    + simpl. lia.
    + symmetry. exact Hfit.
Qed.

(** * Further properties *)

(** ** [preprocess], call after call *)

(** A call on a preprocessed object raises and changes nothing. *)
Lemma preprocess_when_done
    (framework_raises : TFCustom.transformation -> TFCustom.tf_dataset
                        -> option exn)
    (self : TFCustom.obj) (image_size batch_size : pyval) :
  truthy_dict (TFCustom._preprocessed self) = true ->
  TFCustom.preprocess framework_raises image_size batch_size self
  = (inl (ValueError
            ("Data has already been preprocessed: "
             ++ match TFCustom._preprocessed self with
                | Some d => repr_dict d
                | None => repr PyNone
                end)),
     self).
Proof.
  intros Hdone.
  unfold TFCustom.preprocess. rewrite bind_get, Hdone. reflexivity.
Qed.

Lemma successes_when_done
    (framework_raises : TFCustom.transformation -> TFCustom.tf_dataset
                        -> option exn)
    (calls : list (pyval * pyval)) (self : TFCustom.obj) :
  truthy_dict (TFCustom._preprocessed self) = true ->
  successes framework_raises calls self = 0%nat.
Proof.
  intros Hdone. induction calls as [ | [i b] calls IH]; [reflexivity | ].
  simpl. rewrite preprocess_when_done by exact Hdone. exact IH.
Qed.

(** However often and with whatever arguments [preprocess] is called on
    one object, by a caller that carries on after each exception, at most
    one of the calls returns. *)
Theorem preprocess_succeeds_at_most_once
    (framework_raises : TFCustom.transformation -> TFCustom.tf_dataset
                        -> option exn)
    (calls : list (pyval * pyval)) (self : TFCustom.obj) :
  (successes framework_raises calls self <= 1)%nat.
Proof.
  revert self. induction calls as [ | [i b] calls IH]; intros self; simpl.
  - lia.
  - destruct (preprocess_cases framework_raises self i b)
      as [(_ & msg & H) | [(_ & H) | [(_ & H) | [(_ & H)
         | (_ & _ & _ & _ & [(_ & H) | (_ & e & s & H & _)])]]]];
      rewrite H; try apply IH.
    rewrite successes_when_done by reflexivity. lia.
Qed.

Lemma append_assoc (a b c : string) : (a ++ b) ++ c = a ++ (b ++ c).
Proof.
  induction a as [ | ch a IH]; [reflexivity | ].
  change (String ch ((a ++ b) ++ c) = String ch (a ++ (b ++ c))).
  f_equal. exact IH.
Qed.

(** After a call [preprocess(image_size0, batch_size0)] has returned, every
    further call, whatever its arguments, raises the [ValueError] whose
    message prints the settings of that first call, and leaves the object
    as the first call left it. *)
Theorem preprocess_again_reports_settings
    (framework_raises : TFCustom.transformation -> TFCustom.tf_dataset
                        -> option exn)
    (self self' : TFCustom.obj)
    (image_size0 batch_size0 image_size batch_size : pyval) :
  TFCustom.preprocess framework_raises image_size0 batch_size0 self
  = (inr tt, self') ->
  TFCustom.preprocess framework_raises image_size batch_size self'
  = (inl (ValueError
            ("Data has already been preprocessed: {'image_size': "
             ++ repr image_size0 ++ ", 'batch_size': "
             ++ repr batch_size0 ++ "}")),
     self').
Proof.
  intros Hfirst. apply preprocess_inr in Hfirst as [_ ->].
  rewrite preprocess_when_done by reflexivity.
  do 3 f_equal.
  unfold after_preprocess, repr_dict. simpl.
  rewrite !append_assoc. reflexivity.
Qed.

Lemma preprocess_again_reports_settings_witness :
  TFCustom.preprocess Examples.tf_limits (PyInt 299) (PyInt 16)
    (after_preprocess (PyInt 224) (PyInt 32) Examples.flowers)
  = (inl (ValueError
            ("Data has already been preprocessed: {'image_size': "
             ++ repr (PyInt 224) ++ ", 'batch_size': "
             ++ repr (PyInt 32) ++ "}")),
     after_preprocess (PyInt 224) (PyInt 32) Examples.flowers).
Proof.
  apply (preprocess_again_reports_settings Examples.tf_limits
           Examples.flowers
           (after_preprocess (PyInt 224) (PyInt 32) Examples.flowers)
           (PyInt 224) (PyInt 32) (PyInt 299) (PyInt 16)).
  reflexivity.
Defined.

(** On an object that is not yet preprocessed, the arguments are checked
    before anything else and [batch_size] before [image_size]: a
    [batch_size] that is not an integer of at least 1 gives the
    [batch_size] error whatever [image_size] is and whether or not a
    dataset is defined, and with a good [batch_size] a bad [image_size]
    gives the [image_size] error; the object is left as it was. *)
Theorem preprocess_checks_batch_size_first
    (framework_raises : TFCustom.transformation -> TFCustom.tf_dataset
                        -> option exn)
    (self : TFCustom.obj) (image_size batch_size : pyval) :
  truthy_dict (TFCustom._preprocessed self) = false ->
  (~ positive_int batch_size ->
   TFCustom.preprocess framework_raises image_size batch_size self
   = (inl (ValueError "batch_size should be an positive integer"), self))
  /\ (positive_int batch_size -> ~ positive_int image_size ->
      TFCustom.preprocess framework_raises image_size batch_size self
      = (inl (ValueError "image_size should be an positive integer"), self)).
Proof.
  intros Hfresh. split.
  - intros Hbatch.
    destruct (TFCustom.not_positive_int batch_size) eqn:Hb;
      [ | exfalso; apply Hbatch, not_positive_int_false, Hb].
    unfold TFCustom.preprocess.
    rewrite bind_get, Hfresh, bind_raise_if_false, Hb. reflexivity.
  - intros Hbatch Himage.
    apply not_positive_int_false in Hbatch.
    destruct (TFCustom.not_positive_int image_size) eqn:Hi;
      [ | exfalso; apply Himage, not_positive_int_false, Hi].
    unfold TFCustom.preprocess.
    rewrite bind_get, Hfresh, bind_raise_if_false, Hbatch,
      bind_raise_if_false, Hi.
    reflexivity.
Qed.

Lemma preprocess_checks_batch_size_first_witness :
  TFCustom.preprocess Examples.tf_limits (PyFloat "224.0") (PyInt 0)
    Examples.undefined
  = (inl (ValueError "batch_size should be an positive integer"),
     Examples.undefined)
  /\ TFCustom.preprocess Examples.tf_limits (PyBool false) (PyBool true)
       Examples.flowers
     = (inl (ValueError "image_size should be an positive integer"),
        Examples.flowers).
Proof.
  split.
  - apply (preprocess_checks_batch_size_first Examples.tf_limits
             Examples.undefined (PyFloat "224.0") (PyInt 0) eq_refl).
    intros (z & Hz & Hpos). injection Hz as <-. lia.
  - apply (preprocess_checks_batch_size_first Examples.tf_limits
             Examples.flowers (PyBool false) (PyBool true) eq_refl).
    + exists 1. split; [reflexivity | lia].
    + intros (z & Hz & Hpos). injection Hz as <-. lia.
Defined.

Lemma getattr_after_preprocess (self : TFCustom.obj)
    (image_size batch_size : pyval) (name : string) :
  TFCustom.getattr (after_preprocess image_size batch_size self) name
  = preprocessed_split image_size batch_size <$> TFCustom.getattr self name.
Proof.
  unfold TFCustom.getattr.
  destruct (String.eqb name "_dataset"); [reflexivity | ].
  destruct (String.eqb name "_train_subset"); [reflexivity | ].
  destruct (String.eqb name "_validation_subset"); [reflexivity | ].
  destruct (String.eqb name "_test_subset"); reflexivity.
Qed.

(** Whether it returns or raises, [preprocess] never touches the class
    names, the dataset info, the directory, the name or the split
    percentages, and never defines a split that was [None] or drops one
    that was defined. *)
Theorem preprocess_keeps_metadata
    (framework_raises : TFCustom.transformation -> TFCustom.tf_dataset
                        -> option exn)
    (self : TFCustom.obj) (image_size batch_size : pyval) :
  let self' :=
    snd (TFCustom.preprocess framework_raises image_size batch_size self) in
  TFCustom.class_names self' = TFCustom.class_names self
  /\ TFCustom.dataset_info (TFCustom.info self')
     = TFCustom.dataset_info (TFCustom.info self)
  /\ TFCustom._dataset_dir self' = TFCustom._dataset_dir self
  /\ TFCustom._dataset_name self' = TFCustom._dataset_name self
  /\ TFCustom._train_pct self' = TFCustom._train_pct self
  /\ TFCustom._val_pct self' = TFCustom._val_pct self
  /\ TFCustom._test_pct self' = TFCustom._test_pct self
  /\ TFCustom._validation_type self' = TFCustom._validation_type self
  /\ forall name,
       TFCustom.truthy (TFCustom.getattr self' name)
       = TFCustom.truthy (TFCustom.getattr self name).
Proof.
  intros self'. subst self'.
  destruct (preprocess_cases framework_raises self image_size batch_size)
    as [(_ & msg & H) | [(_ & H) | [(_ & H) | [(_ & H)
       | (_ & _ & _ & _ & [(_ & H) | (_ & e & s & H & _ & Hsame & _)])]]]];
    rewrite H; simpl.
  1-4: repeat split; reflexivity.
  - repeat split; try reflexivity.
    intros name. rewrite getattr_after_preprocess.
    destruct (TFCustom.getattr self name); reflexivity.
  - destruct Hsame as (Hdir & Hname & _ & Hinfo & Hclasses & Htrain & Hval
                       & Htest & Htype & Hsplits).
    unfold TFCustom.class_names.
    repeat split; assumption.
Qed.

(** ** Construction followed by [preprocess] *)

(** What a returned constructor tells. *)
Lemma new_returns_inv_tf
    (path_exists : string -> bool)
    (keras_loader : string -> bool -> option Z -> string
                    -> exn + TFCustom.tf_dataset)
    (dataset_dir : string) (dataset_name : option string)
    (color_mode : string) (shuffle_files : bool) (seed : option Z)
    (o : TFCustom.obj) (tr : list TFCustom.event) :
  TFCustom.new path_exists keras_loader dataset_dir dataset_name color_mode
    shuffle_files seed = (inr o, tr) ->
  path_exists dataset_dir = true
  /\ exists dir names mode shuffle sd,
       keras_loader dataset_dir shuffle_files seed color_mode
       = inr (TFCustom.ImageDirectory dir names mode shuffle sd)
       /\ o = {| TFCustom._dataset_dir := dataset_dir;
                 TFCustom._dataset_name :=
                   if TFCustom.name_missing dataset_name
                   then TFCustom.basename dataset_dir
                   else default "" dataset_name;
                 TFCustom._dataset_catalog := PyNone;
                 TFCustom._info :=
                   [("name",
                     PyStr (if TFCustom.name_missing dataset_name
                            then TFCustom.basename dataset_dir
                            else default "" dataset_name));
                    ("dataset_dir", PyStr dataset_dir);
                    ("color_mode", PyStr color_mode)];
                 TFCustom._preprocessed := None;
                 TFCustom._dataset :=
                   Some (TFCustom.ImageDirectory dir names mode shuffle sd);
                 TFCustom._class_names := names;
                 TFCustom._train_pct := 1;
                 TFCustom._val_pct := 0;
                 TFCustom._test_pct := 0;
                 TFCustom._validation_type := "recall";
                 TFCustom._train_subset := None;
                 TFCustom._validation_subset := None;
                 TFCustom._test_subset := None |}.
Proof.
  unfold TFCustom.new, TFCustom.__init__, TFCustom.call_path_exists,
    TFCustom.call_image_dataset_from_directory, TFCustom.class_names_of,
    bind, modify, ret, raise_if, raise.
  destruct (path_exists dataset_dir); simpl; [ | discriminate].
  destruct (keras_loader dataset_dir shuffle_files seed color_mode)
    as [e | d]; simpl; [discriminate | ].
  destruct d; simpl; try discriminate.
  intros [= <- _]. split; [reflexivity | ].
  do 5 eexists. split; reflexivity.
Qed.

(** On an object whose only split is the dataset [d], the framework accepts
    the defined splits exactly when it accepts [d]. *)
Lemma framework_accepts_only_dataset
    (framework_raises : TFCustom.transformation -> TFCustom.tf_dataset
                        -> option exn)
    (image_size batch_size : pyval) (self : TFCustom.obj)
    (d : TFCustom.tf_dataset) :
  TFCustom._dataset self = Some d ->
  TFCustom._train_subset self = None ->
  TFCustom._validation_subset self = None ->
  TFCustom._test_subset self = None ->
  framework_accepts_splits framework_raises image_size batch_size self
  <-> framework_accepts framework_raises image_size batch_size d.
Proof.
  intros Hd Htrain Hval Htest. split.
  - intros Hall. apply (Hall "_dataset" d); [left; reflexivity | exact Hd].
  - intros Hone name d' Hin Hget. simpl in Hin.
    destruct Hin as [<- | [<- | [<- | [<- | []]]]];
      unfold TFCustom.getattr in Hget; simpl in Hget; congruence.
Qed.

(** An object that the constructor returns is not yet preprocessed, and
    with an [image_size] and a [batch_size] that are integers of at least 1
    the first [preprocess] passes its own checks.  When the framework lets
    the map, cache, batch and prefetch calls through on the dataset the
    loader built, [preprocess] returns, the dataset becomes the pipeline
    over that dataset, the three subsets stay [None], the class names are
    still the loader's, and [info] then shows the two settings.  When the
    framework does not, [preprocess] raises, and whatever it raises is an
    exception that the framework raised in such a call. *)
Theorem construct_then_preprocess
    (framework_raises : TFCustom.transformation -> TFCustom.tf_dataset
                        -> option exn)
    (path_exists : string -> bool)
    (keras_loader : string -> bool -> option Z -> string
                    -> exn + TFCustom.tf_dataset)
    (dataset_dir : string) (dataset_name : option string)
    (color_mode : string) (shuffle_files : bool) (seed : option Z)
    (o : TFCustom.obj) (tr : list TFCustom.event)
    (image_size batch_size : pyval) :
  TFCustom.new path_exists keras_loader dataset_dir dataset_name color_mode
    shuffle_files seed = (inr o, tr) ->
  positive_int image_size ->
  positive_int batch_size ->
  exists d,
    keras_loader dataset_dir shuffle_files seed color_mode = inr d
    /\ TFCustom.preprocessing_info (TFCustom.info o) = None
    /\ (framework_accepts framework_raises image_size batch_size d ->
        exists o',
          TFCustom.preprocess framework_raises image_size batch_size o
          = (inr tt, o')
          /\ TFCustom.dataset o'
             = Some (preprocessed_split image_size batch_size d)
          /\ TFCustom._train_subset o' = None
          /\ TFCustom._validation_subset o' = None
          /\ TFCustom._test_subset o' = None
          /\ TFCustom.class_names o' = TFCustom.class_names o
          /\ TFCustom.preprocessing_info (TFCustom.info o')
             = Some [("image_size", image_size); ("batch_size", batch_size)])
    /\ (~ framework_accepts framework_raises image_size batch_size d ->
        exists e,
          fst (TFCustom.preprocess framework_raises image_size batch_size o)
          = inl e)
    /\ (forall e,
          fst (TFCustom.preprocess framework_raises image_size batch_size o)
          = inl e ->
          raised_by_framework framework_raises e).
Proof.
  intros Hnew Himage Hbatch.
  apply new_returns_inv_tf in Hnew
    as (_ & dir & names & mode & shuffle & sd & Hload & ->).
  apply not_positive_int_false in Himage, Hbatch.
  eexists. split; [exact Hload | ].
  split; [reflexivity | ].
  match goal with
  | |- context [TFCustom.preprocess _ _ _ ?o] => set (self := o)
  end.
  assert (Hiff := framework_accepts_only_dataset framework_raises image_size
                    batch_size self _ eq_refl eq_refl eq_refl eq_refl).
  destruct (preprocess_cases framework_raises self image_size batch_size)
    as [(H' & _) | [(H' & _) | [(H' & _) | [(H' & _)
       | (_ & _ & _ & _ & [(Hall & H) | (Hnot & e & s & H & Hraised & _)])]]]];
    try congruence.
  - discriminate H'.
  - exfalso. apply H'. exists "_dataset".
    split; [left; reflexivity | discriminate].
  - rewrite H. split; [ | split ].
    + intros _. eexists. split; [reflexivity | ].
      repeat split; reflexivity.
    + intros Hno. exfalso. apply Hno, Hiff, Hall.
    + intros e' He. discriminate He.
  - rewrite H. split; [ | split ].
    + intros Hyes. exfalso. apply Hnot, Hiff, Hyes.
    + intros _. exists e. reflexivity.
    + intros e' [= <-]. exact Hraised.
Qed.

Lemma construct_then_preprocess_witness :
  exists d,
    Examples.keras_loader "flowers" false None "rgb" = inr d
    /\ TFCustom.preprocessing_info (TFCustom.info Examples.flowers) = None
    /\ (framework_accepts Examples.tf_limits (PyInt 224) (PyInt 32) d ->
        exists o',
          TFCustom.preprocess Examples.tf_limits (PyInt 224) (PyInt 32)
            Examples.flowers
          = (inr tt, o')
          /\ TFCustom.dataset o'
             = Some (preprocessed_split (PyInt 224) (PyInt 32) d)
          /\ TFCustom._train_subset o' = None
          /\ TFCustom._validation_subset o' = None
          /\ TFCustom._test_subset o' = None
          /\ TFCustom.class_names o' = TFCustom.class_names Examples.flowers
          /\ TFCustom.preprocessing_info (TFCustom.info o')
             = Some [("image_size", PyInt 224); ("batch_size", PyInt 32)])
    /\ (~ framework_accepts Examples.tf_limits (PyInt 224) (PyInt 32) d ->
        exists e,
          fst (TFCustom.preprocess Examples.tf_limits (PyInt 224) (PyInt 32)
                 Examples.flowers)
          = inl e)
    /\ (forall e,
          fst (TFCustom.preprocess Examples.tf_limits (PyInt 224) (PyInt 32)
                 Examples.flowers)
          = inl e ->
          raised_by_framework Examples.tf_limits e).
Proof.
  apply (construct_then_preprocess Examples.tf_limits Examples.only_flowers
           Examples.keras_loader
           "flowers" None "rgb" false None Examples.flowers
           [TFCustom.os_path_exists "flowers";
            TFCustom.image_dataset_from_directory "flowers" false None "rgb"]
           (PyInt 224) (PyInt 32)).
  - reflexivity.
  - exists 224. split; [reflexivity | lia].
  - exists 32. split; [reflexivity | lia].
Defined.

(** The framework accepts the example dataset at the usual sizes, so the
    first [preprocess] on the constructed object returns. *)
Example flowers_accepted :
  framework_accepts Examples.tf_limits (PyInt 224) (PyInt 32)
    (TFCustom.ImageDirectory "flowers" ["daisy"; "tulips"] "rgb" false None).
Proof. repeat split; reflexivity. Qed.


(** ** The name of a custom dataset *)

Lemma basename_from_slash_free (acc s : string) :
  slash_free s = true -> TFCustom.basename_from acc s = acc ++ s.
Proof.
  revert acc. induction s as [ | c s IH]; intros acc Hfree; simpl.
  - clear Hfree. induction acc as [ | a acc IHacc]; [reflexivity | ].
    change (String a acc = String a (acc ++ "")). f_equal. exact IHacc.
  - simpl in Hfree. apply andb_true_iff in Hfree as [Hc Hs].
    apply negb_true_iff in Hc. rewrite Hc.
    rewrite IH by exact Hs. apply append_assoc.
Qed.

Lemma basename_from_last_slash (acc parent leaf : string) :
  TFCustom.basename_from acc (parent ++ "/" ++ leaf)
  = TFCustom.basename_from "" leaf.
Proof.
  revert acc. induction parent as [ | c parent IH]; intros acc.
  - reflexivity.
  - change (TFCustom.basename_from acc (String c (parent ++ "/" ++ leaf))
            = TFCustom.basename_from "" leaf).
    simpl. destruct (Ascii.eqb c "/"); apply IH.
Qed.

(** The constructor records the given name when it is not empty;
    otherwise the dataset is named after the directory: the name is what
    follows the last slash of [dataset_dir], which is the empty string for
    a directory written with a trailing slash, and the whole [dataset_dir]
    when it has no slash.  The dataset info holds that name, the directory
    and the colour mode. *)
Theorem constructor_names_dataset
    (path_exists : string -> bool)
    (keras_loader : string -> bool -> option Z -> string
                    -> exn + TFCustom.tf_dataset)
    (dataset_dir : string) (dataset_name : option string)
    (color_mode : string) (shuffle_files : bool) (seed : option Z)
    (o : TFCustom.obj) (tr : list TFCustom.event) :
  TFCustom.new path_exists keras_loader dataset_dir dataset_name color_mode
    shuffle_files seed = (inr o, tr) ->
  (forall name, dataset_name = Some name -> name <> "" ->
     TFCustom._dataset_name o = name)
  /\ (dataset_name = None \/ dataset_name = Some "" ->
      forall parent leaf,
        dataset_dir = parent ++ "/" ++ leaf -> slash_free leaf = true ->
        TFCustom._dataset_name o = leaf)
  /\ (dataset_name = None \/ dataset_name = Some "" ->
      slash_free dataset_dir = true ->
      TFCustom._dataset_name o = dataset_dir)
  /\ TFCustom.dataset_info (TFCustom.info o)
     = [("name", PyStr (TFCustom._dataset_name o));
        ("dataset_dir", PyStr dataset_dir);
        ("color_mode", PyStr color_mode)].
Proof.
  intros Hnew.
  apply new_returns_inv_tf in Hnew
    as (_ & dir & names & mode & shuffle & sd & _ & ->).
  simpl. repeat split.
  - intros name -> Hname. destruct name; [contradiction | reflexivity].
  - intros Hmissing parent leaf -> Hleaf.
    assert (TFCustom.name_missing dataset_name = true) as ->
        by (destruct Hmissing as [-> | ->]; reflexivity).
    unfold TFCustom.basename.
    rewrite basename_from_last_slash.
    apply basename_from_slash_free, Hleaf.
  - intros Hmissing Hfree.
    assert (TFCustom.name_missing dataset_name = true) as ->
        by (destruct Hmissing as [-> | ->]; reflexivity).
    unfold TFCustom.basename.
    apply (basename_from_slash_free "" dataset_dir Hfree).
Qed.

Lemma constructor_names_dataset_witness :
  match
    TFCustom.new Examples.every_path Examples.keras_loader "data/flowers"
      None "rgb" false None
  with
  | (inr o, _) => TFCustom._dataset_name o = "flowers"
  | (inl _, _) => False
  end
  /\ match
       TFCustom.new Examples.every_path Examples.keras_loader "data/flowers/"
         None "rgb" false None
     with
     | (inr o, _) => TFCustom._dataset_name o = ""
     | (inl _, _) => False
     end
  /\ match
       TFCustom.new Examples.every_path Examples.keras_loader "data/flowers"
         (Some "roses") "rgb" false None
     with
     | (inr o, _) => TFCustom._dataset_name o = "roses"
     | (inl _, _) => False
     end.
Proof.
  split; [ | split ].
  - destruct (TFCustom.new Examples.every_path Examples.keras_loader
                "data/flowers" None "rgb" false None)
      as [[e | o] tr] eqn:Hnew; [vm_compute in Hnew; discriminate Hnew | ].
    apply (proj1 (proj2 (constructor_names_dataset _ _ _ _ _ _ _ o tr Hnew))
             (or_introl eq_refl) "data" "flowers" eq_refl eq_refl).
  - destruct (TFCustom.new Examples.every_path Examples.keras_loader
                "data/flowers/" None "rgb" false None)
      as [[e | o] tr] eqn:Hnew; [vm_compute in Hnew; discriminate Hnew | ].
    apply (proj1 (proj2 (constructor_names_dataset _ _ _ _ _ _ _ o tr Hnew))
             (or_introl eq_refl) "data/flowers" "" eq_refl eq_refl).
  - destruct (TFCustom.new Examples.every_path Examples.keras_loader
                "data/flowers" (Some "roses") "rgb" false None)
      as [[e | o] tr] eqn:Hnew; [vm_compute in Hnew; discriminate Hnew | ].
    apply (proj1 (constructor_names_dataset _ _ _ _ _ _ _ o tr Hnew)
             "roses" eq_refl).
    discriminate.
Defined.


(** ** What a returned torchvision constructor tells *)

Section TorchvisionConstructor.

Variable dataset_class :
  string -> string -> Torchvision.selector -> exn + Torchvision.torch_dataset.
Variable make_data_loaders : Torchvision.obj -> Z -> option exn.
Variables dataset_dir dataset_name : string.

(** The single-split path, when it returns: the dataset is the part that
    the one member of [split] stands for. *)
Lemma single_split_returns (member : pyval) (fr fr' : Torchvision.frame) :
  In member split_names ->
  Torchvision.single_split dataset_class dataset_dir dataset_name [member] fr
  = (inr tt, fr') ->
  exists s d,
    member = PyStr s
    /\ load_part dataset_class dataset_name dataset_dir s = inr d
    /\ Torchvision.self fr'
       = Torchvision.with_validation_type "recall"
           (Torchvision.with_dataset (Some d) (Torchvision.self fr)).
Proof.
  intros Hmember.
  unfold Torchvision.single_split, try_except, Torchvision.call_dataset_class,
    Torchvision.log, Torchvision.on_self, load_part, load_train,
    load_validation, load_test, bind, modify, ret, raise.
  destruct Hmember as [<- | [<- | [<- | []]]]; simpl.
  - destruct (dataset_class dataset_name dataset_dir
                (Torchvision.split_kw "train")) as [e | d]; simpl.
    + destruct (is_TypeError e); simpl; [ | discriminate].
      destruct (dataset_class dataset_name dataset_dir
                  (Torchvision.train_kw true)) as [e' | d]; simpl;
        [discriminate | ].
      intros [= <-]. exists "train", d. auto.
    + intros [= <-]. exists "train", d. auto.
  - destruct (dataset_class dataset_name dataset_dir
                (Torchvision.split_kw "val")) as [e | d]; simpl.
    + destruct (is_TypeError e); discriminate.
    + intros [= <-]. exists "validation", d. auto.
  - destruct (dataset_class dataset_name dataset_dir
                (Torchvision.split_kw "test")) as [e | d]; simpl.
    + destruct (is_TypeError e); simpl; [ | discriminate].
      destruct (dataset_class dataset_name dataset_dir
                  (Torchvision.train_kw false)) as [e' | d]; simpl.
      * destruct (is_TypeError e'); discriminate.
      * intros [= <-]. exists "test", d. auto.
    + intros [= <-]. exists "test", d. auto.
Qed.

(** A returned constructor, step by step. *)
Lemma new_returns_steps (split : pyval) (download : bool)
    (num_workers : Z) (shuffle_files : bool)
    (o : Torchvision.obj) (tr : list Torchvision.event) :
  Torchvision.new dataset_class make_data_loaders dataset_dir dataset_name
    split download num_workers shuffle_files = (inr o, tr) ->
  exists items fr0 fr1 d,
    split = PyList items
    /\ (forall v, In v items -> In v split_names)
    /\ In dataset_name Torchvision.DATASETS
    /\ Torchvision.self fr0
       = initialised dataset_dir dataset_name num_workers shuffle_files
    /\ Torchvision.test_data fr0 = None
    /\ (if (List.length items =? 1)%nat
        then Torchvision.single_split dataset_class dataset_dir dataset_name
               items fr0
        else Torchvision.multiple_splits dataset_class dataset_dir
               dataset_name items fr0) = (inr tt, fr1)
    /\ Torchvision._dataset (Torchvision.self fr1) = Some d
    /\ o = Torchvision.with_info
             [("name", PyStr dataset_name);
              ("size", PyInt (Torchvision.len d))]
             (Torchvision.self fr1).
Proof.
  intros Hnew.
  unfold Torchvision.new, Torchvision.__init__ in Hnew.
  unfold bind at 1 in Hnew. rewrite check_arguments_outcome in Hnew.
  destruct split as [ | b | z | lit | s | items ]; try discriminate Hnew.
  destruct (forallb _ items) eqn:Hall; [ | discriminate Hnew].
  destruct (existsb _ Torchvision.DATASETS) eqn:Hsup; [ | discriminate Hnew].
  unfold bind at 1 in Hnew. unfold Torchvision.on_self at 1 in Hnew.
  unfold modify at 1 in Hnew.
  unfold bind at 1 in Hnew.
  match type of Hnew with
  | context [(if _ then _ else _) ?fr] =>
      destruct ((if (List.length items =? 1)%nat
                 then Torchvision.single_split dataset_class dataset_dir
                        dataset_name items
                 else Torchvision.multiple_splits dataset_class dataset_dir
                        dataset_name items) fr)
        as [[e | []] fr1] eqn:Hsplits;
      [discriminate Hnew | exists items, fr, fr1]
  end.
  unfold Torchvision._make_data_loaders, Torchvision.len_of_dataset,
    Torchvision.read_self, Torchvision.on_self, bind, get, ret, raise, modify
    in Hnew.
  simpl in Hnew.
  destruct (make_data_loaders (Torchvision.self fr1) 1);
    [discriminate Hnew | ].
  destruct (Torchvision._dataset (Torchvision.self fr1)) as [d | ] eqn:Hd;
    [ | discriminate Hnew].
  simpl in Hnew. injection Hnew as <- _.
  exists d. split; [reflexivity | ].
  split; [apply all_members_good; exact Hall | ].
  split; [apply dataset_supported; exact Hsup | ].
  split; [reflexivity | ]. split; [reflexivity | ].
  split; [ | split; reflexivity].
  destruct (List.length items =? 1)%nat; exact Hsplits.
Qed.


(** The constructor returns only for arguments that pass every check and
    name at least one part: [split] is a non-empty list of the three
    names and [dataset_name] is in [DATASETS].  The object then has a
    dataset; its info holds the dataset name and, as size, the length of
    that dataset; nothing is recorded as preprocessed; the directory, the
    name, the number of workers and the shuffle flag are the arguments;
    and the validation type is 'recall' for one split and 'defined_split'
    for several. *)
Theorem constructor_returns_for_valid_arguments (split : pyval)
    (download : bool) (num_workers : Z) (shuffle_files : bool)
    (o : Torchvision.obj) (tr : list Torchvision.event) :
  Torchvision.new dataset_class make_data_loaders dataset_dir dataset_name
    split download num_workers shuffle_files = (inr o, tr) ->
  exists items d,
    split = PyList items
    /\ items <> []
    /\ (forall v, In v items -> In v split_names)
    /\ In dataset_name Torchvision.DATASETS
    /\ Torchvision.dataset o = Some d
    /\ Torchvision.dataset_info (Torchvision.info o)
       = Some [("name", PyStr dataset_name);
               ("size", PyInt (Torchvision.len d))]
    /\ Torchvision.preprocessing_info (Torchvision.info o) = []
    /\ Torchvision._dataset_dir o = dataset_dir
    /\ Torchvision._dataset_name o = dataset_name
    /\ Torchvision._num_workers o = num_workers
    /\ Torchvision._shuffle o = shuffle_files
    /\ Torchvision._validation_type o
       = Some (if (List.length items =? 1)%nat
               then "recall" else "defined_split").
Proof.
  intros Hnew.
  apply new_returns_steps in Hnew
    as (items & fr0 & fr1 & d & -> & Hgood & Hsup & Hinit & Hunbound
        & Hsplits & Hd & ->).
  exists items, d. split; [reflexivity | ].
  destruct (List.length items =? 1)%nat eqn:Hlen.
  - destruct items as [ | member [ | ? ?]]; try discriminate Hlen.
    apply single_split_returns in Hsplits
      as (s & d' & -> & _ & Hself); [ | apply Hgood; left; reflexivity].
    rewrite Hself, Hinit in *. simpl in Hd. injection Hd as ->.
    repeat split; try assumption; try reflexivity. discriminate.
  - apply (multiple_splits_returns dataset_class dataset_dir dataset_name)
      in Hsplits
      as (o1 & o2 & o3 & H1 & H2 & H3 & Hself); [ | exact Hunbound].
    rewrite Hself, Hinit in *. clear Hself Hinit.
    assert (Hfields :
              items <> []
              /\ Torchvision._preprocessed o3 = []
              /\ Torchvision._dataset_dir o3 = dataset_dir
              /\ Torchvision._dataset_name o3 = dataset_name
              /\ Torchvision._num_workers o3 = num_workers
              /\ Torchvision._shuffle o3 = shuffle_files).
    { destruct items as [ | v items];
        [simpl in *; subst; discriminate Hd | ].
      split; [discriminate | ]. clear Hd Hlen Hgood.
      destruct (str_in "train" (v :: items));
        [destruct H1 as (d1 & _ & ->) | subst o1];
        (destruct (str_in "validation" (v :: items));
         [destruct H2 as (d2 & _ & ->) | subst o2]);
        (destruct (str_in "test" (v :: items));
         [destruct H3 as (d3 & _ & ->) | subst o3]);
        unfold stored_test, stored_validation, initialised; simpl;
        repeat match goal with
               | |- context [(0 <? ?x)%Z] => destruct (0 <? x)%Z; simpl
               end;
        repeat split; reflexivity. }
    destruct Hfields as (Hne & Hpre & Hdir & Hname & Hnw & Hsh).
    simpl in Hd.
    repeat split; try assumption; try reflexivity.
Qed.

(** With exactly one member in [split] the dataset of the returned object
    is the part that this member stands for, obtained with the [split]
    keyword or, for train and test, with the [train] flag when the class
    has no such keyword; no index range is defined, and the size in the
    info is the length of that part. *)
Theorem single_split_defines_no_indices (member : pyval) (download : bool)
    (num_workers : Z) (shuffle_files : bool)
    (o : Torchvision.obj) (tr : list Torchvision.event) :
  Torchvision.new dataset_class make_data_loaders dataset_dir dataset_name
    (PyList [member]) download num_workers shuffle_files = (inr o, tr) ->
  exists s d,
    member = PyStr s
    /\ load_part dataset_class dataset_name dataset_dir s = inr d
    /\ Torchvision.dataset o = Some d
    /\ Torchvision._train_indices o = None
    /\ Torchvision._validation_indices o = None
    /\ Torchvision._test_indices o = None
    /\ Torchvision.dataset_info (Torchvision.info o)
       = Some [("name", PyStr dataset_name);
               ("size", PyInt (Torchvision.len d))].
Proof.
  intros Hnew.
  apply new_returns_steps in Hnew
    as (items & fr0 & fr1 & d & [= <-] & Hgood & _ & Hinit & _
        & Hsplits & Hd & ->).
  simpl in Hsplits.
  apply single_split_returns in Hsplits
    as (s & d' & -> & Hload & Hself); [ | apply Hgood; left; reflexivity].
  rewrite Hself, Hinit in *. simpl in Hd. injection Hd as ->.
  exists s, d. repeat split; try assumption; reflexivity.
Qed.

(** An empty [split] passes the argument checks, and yet the constructor
    does not return: without a call to torchvision it reaches line 117
    with no dataset and raises the [TypeError] of [len(None)], unless
    building the data loaders has raised before. *)
Theorem empty_split_raises (download : bool) (num_workers : Z)
    (shuffle_files : bool) :
  In dataset_name Torchvision.DATASETS ->
  Torchvision.new dataset_class make_data_loaders dataset_dir dataset_name
    (PyList []) download num_workers shuffle_files
  = (inl match
           make_data_loaders
             (Torchvision.with_validation_type "defined_split"
                (initialised dataset_dir dataset_name num_workers
                   shuffle_files)) 1
         with
         | Some e => e
         | None => TypeError "object of type 'NoneType' has no len()"
         end,
     []).
Proof.
  intros Hsup. apply dataset_supported in Hsup.
  unfold Torchvision.new, Torchvision.__init__.
  unfold bind at 1. rewrite check_arguments_outcome. cbn [forallb].
  rewrite Hsup.
  unfold Torchvision.multiple_splits, Torchvision._make_data_loaders,
    Torchvision.len_of_dataset, Torchvision.read_self, Torchvision.on_self,
    bind, get, ret, raise, modify.
  simpl.
  change (Torchvision.with_validation_type "defined_split"
            {| Torchvision._dataset_dir := dataset_dir;
               Torchvision._dataset_name := dataset_name;
               Torchvision._num_workers := num_workers;
               Torchvision._shuffle := shuffle_files;
               Torchvision._preprocessed := [];
               Torchvision._dataset := None;
               Torchvision._train_indices := None;
               Torchvision._validation_indices := None;
               Torchvision._test_indices := None;
               Torchvision._validation_type := None;
               Torchvision._info := None |})
    with (Torchvision.with_validation_type "defined_split"
            (initialised dataset_dir dataset_name num_workers shuffle_files)).
  destruct (make_data_loaders _ 1); reflexivity.
Qed.


(** In the single-split path a class without the [split] keyword, which
    answers [TypeError], is reported as a missing split: for 'validation'
    at once, for 'test' after the [train] flag has been refused as well.
    The constructor raises the [ValueError] whose message ends with the
    dataset name, and has made no other call than these. *)
Theorem single_split_missing_part (download : bool) (num_workers : Z)
    (shuffle_files : bool) :
  In dataset_name Torchvision.DATASETS ->
  (forall e,
     dataset_class dataset_name dataset_dir (Torchvision.split_kw "val")
     = inl e ->
     is_TypeError e = true ->
     Torchvision.new dataset_class make_data_loaders dataset_dir dataset_name
       (PyList [PyStr "validation"]) download num_workers shuffle_files
     = (inl (ValueError
               ("No validation split was found for this dataset: "
                ++ dataset_name)),
        [Torchvision.dataset_class_call dataset_name dataset_dir
           (Torchvision.split_kw "val")]))
  /\ (forall e1 e2,
        dataset_class dataset_name dataset_dir (Torchvision.split_kw "test")
        = inl e1 ->
        is_TypeError e1 = true ->
        dataset_class dataset_name dataset_dir (Torchvision.train_kw false)
        = inl e2 ->
        is_TypeError e2 = true ->
        Torchvision.new dataset_class make_data_loaders dataset_dir
          dataset_name (PyList [PyStr "test"]) download num_workers
          shuffle_files
        = (inl (ValueError
                  ("No test split was found for this dataset: "
                   ++ dataset_name)),
           [Torchvision.dataset_class_call dataset_name dataset_dir
              (Torchvision.split_kw "test");
            Torchvision.dataset_class_call dataset_name dataset_dir
              (Torchvision.train_kw false)])).
Proof.
  intros Hsup. apply dataset_supported in Hsup. split.
  - intros e Hval Htype.
    unfold Torchvision.new, Torchvision.__init__.
    unfold bind at 1. rewrite check_arguments_outcome.
    change (forallb (fun v => negb (bad_split_member v)) [PyStr "validation"])
      with true.
    cbv beta iota. rewrite Hsup.
    unfold Torchvision.single_split, try_except,
      Torchvision.call_dataset_class, Torchvision.log, Torchvision.on_self,
      bind, modify, ret, raise.
    simpl. rewrite Hval. simpl. rewrite Htype. reflexivity.
  - intros e1 e2 Htest Htype1 Hflag Htype2.
    unfold Torchvision.new, Torchvision.__init__.
    unfold bind at 1. rewrite check_arguments_outcome.
    change (forallb (fun v => negb (bad_split_member v)) [PyStr "test"])
      with true.
    cbv beta iota. rewrite Hsup.
    unfold Torchvision.single_split, try_except,
      Torchvision.call_dataset_class, Torchvision.log, Torchvision.on_self,
      bind, modify, ret, raise.
    simpl. rewrite Htest. simpl. rewrite Htype1. simpl.
    rewrite Hflag. simpl. rewrite Htype2. reflexivity.
Qed.

End TorchvisionConstructor.

Lemma constructor_returns_for_valid_arguments_witness :
  match
    Torchvision.new Examples.food_class Examples.loaders_ok "data" "Food101"
      (PyList [PyStr "test"; PyStr "train"]) true 4 true
  with
  | (inr o, _) =>
      exists items d,
        PyList [PyStr "test"; PyStr "train"] = PyList items
        /\ items <> []
        /\ (forall v, In v items -> In v split_names)
        /\ In "Food101" Torchvision.DATASETS
        /\ Torchvision.dataset o = Some d
        /\ Torchvision.dataset_info (Torchvision.info o)
           = Some [("name", PyStr "Food101");
                   ("size", PyInt (Torchvision.len d))]
        /\ Torchvision.preprocessing_info (Torchvision.info o) = []
        /\ Torchvision._dataset_dir o = "data"
        /\ Torchvision._dataset_name o = "Food101"
        /\ Torchvision._num_workers o = 4
        /\ Torchvision._shuffle o = true
        /\ Torchvision._validation_type o
           = Some (if (List.length items =? 1)%nat
                   then "recall" else "defined_split")
  | (inl _, _) => False
  end.
Proof.
  destruct (Torchvision.new Examples.food_class Examples.loaders_ok "data"
              "Food101" (PyList [PyStr "test"; PyStr "train"]) true 4 true)
    as [[e | o] tr] eqn:Hnew.
  - vm_compute in Hnew. discriminate Hnew.
  - exact (constructor_returns_for_valid_arguments Examples.food_class
             Examples.loaders_ok "data" "Food101"
             (PyList [PyStr "test"; PyStr "train"]) true 4 true o tr Hnew).
Defined.

Lemma single_split_defines_no_indices_witness :
  match
    Torchvision.new Examples.cifar_class Examples.loaders_ok "data" "CIFAR10"
      (PyList [PyStr "test"]) true 0 false
  with
  | (inr o, _) =>
      exists s d,
        PyStr "test" = PyStr s
        /\ load_part Examples.cifar_class "CIFAR10" "data" s = inr d
        /\ Torchvision.dataset o = Some d
        /\ Torchvision._train_indices o = None
        /\ Torchvision._validation_indices o = None
        /\ Torchvision._test_indices o = None
        /\ Torchvision.dataset_info (Torchvision.info o)
           = Some [("name", PyStr "CIFAR10");
                   ("size", PyInt (Torchvision.len d))]
  | (inl _, _) => False
  end.
Proof.
  destruct (Torchvision.new Examples.cifar_class Examples.loaders_ok "data"
              "CIFAR10" (PyList [PyStr "test"]) true 0 false)
    as [[e | o] tr] eqn:Hnew.
  - vm_compute in Hnew. discriminate Hnew.
  - exact (single_split_defines_no_indices Examples.cifar_class
             Examples.loaders_ok "data" "CIFAR10" (PyStr "test") true 0 false
             o tr Hnew).
Defined.

Lemma empty_split_raises_witness :
  Torchvision.new Examples.cifar_class Examples.loaders_ok "data" "CIFAR10"
    (PyList []) true 0 false
  = (inl (TypeError "object of type 'NoneType' has no len()"), []).
Proof.
  apply (empty_split_raises Examples.cifar_class Examples.loaders_ok "data"
           "CIFAR10" true 0 false).
  unfold Torchvision.DATASETS. left. reflexivity.
Defined.

Lemma single_split_missing_part_witness :
  Torchvision.new Examples.cifar_class Examples.loaders_ok "data" "CIFAR10"
    (PyList [PyStr "validation"]) true 0 false
  = (inl (ValueError
            ("No validation split was found for this dataset: " ++ "CIFAR10")),
     [Torchvision.dataset_class_call "CIFAR10" "data"
        (Torchvision.split_kw "val")]).
Proof.
  apply (proj1 (single_split_missing_part Examples.cifar_class
                  Examples.loaders_ok "data" "CIFAR10" true 0 false
                  (or_introl eq_refl))
           (TypeError "__init__() got an unexpected keyword argument 'split'")).
  - reflexivity.
  - reflexivity.
Defined.


(** ** The calls the torchvision constructor makes *)

Section Calls.

Variable P : Torchvision.event -> Prop.

Lemma adds_only_silent {A} (m : M Torchvision.frame A) :
  (forall fr, Torchvision.trace (snd (m fr)) = Torchvision.trace fr) ->
  adds_only P m.
Proof.
  intros H fr. exists []. rewrite H, app_nil_r. split; [reflexivity | constructor].
Qed.

Lemma adds_only_bind {A B} (m : M Torchvision.frame A)
    (k : A -> M Torchvision.frame B) :
  adds_only P m -> (forall a, adds_only P (k a)) -> adds_only P (bind m k).
Proof.
  intros Hm Hk fr. unfold bind.
  destruct (Hm fr) as (evs & Htr & Hevs).
  destruct (m fr) as [[e | a] fr1]; simpl in *.
  - exists evs. auto.
  - destruct (Hk a fr1) as (evs' & Htr' & Hevs').
    exists (evs ++ evs')%list. split.
    + rewrite Htr', Htr, app_assoc. reflexivity.
    + apply Forall_app. auto.
Qed.

Lemma adds_only_try_except {A} (body handler : M Torchvision.frame A)
    (catches : exn -> bool) :
  adds_only P body -> adds_only P handler ->
  adds_only P (try_except body catches handler).
Proof.
  intros Hbody Hhandler fr. unfold try_except.
  destruct (Hbody fr) as (evs & Htr & Hevs).
  destruct (body fr) as [[e | a] fr1]; simpl in *.
  - destruct (catches e); simpl.
    + destruct (Hhandler fr1) as (evs' & Htr' & Hevs').
      exists (evs ++ evs')%list. split.
      * rewrite Htr', Htr, app_assoc. reflexivity.
      * apply Forall_app. auto.
    + exists evs. auto.
  - exists evs. auto.
Qed.

Lemma adds_only_try_finally {A} (body : M Torchvision.frame A)
    (cleanup : M Torchvision.frame unit) :
  adds_only P body -> adds_only P cleanup ->
  adds_only P (try_finally body cleanup).
Proof.
  intros Hbody Hcleanup fr. unfold try_finally.
  destruct (Hbody fr) as (evs & Htr & Hevs).
  destruct (body fr) as [r fr1]; simpl in *.
  destruct (Hcleanup fr1) as (evs' & Htr' & Hevs').
  exists (evs ++ evs')%list. split.
  - destruct (cleanup fr1) as [[e | []] fr2]; simpl in *;
      rewrite Htr', Htr, app_assoc; reflexivity.
  - apply Forall_app. auto.
Qed.

Lemma adds_only_call
    (dataset_class : string -> string -> Torchvision.selector
                     -> exn + Torchvision.torch_dataset)
    (name root : string) (part : Torchvision.selector) :
  P (Torchvision.dataset_class_call name root part) ->
  adds_only P (Torchvision.call_dataset_class dataset_class name root part).
Proof.
  intros HP fr.
  exists [Torchvision.dataset_class_call name root part].
  split; [ | repeat constructor; exact HP].
  unfold Torchvision.call_dataset_class, Torchvision.log, bind, modify, ret,
    raise.
  simpl. destruct (dataset_class name root part); reflexivity.
Qed.

Lemma adds_only_len_of_dataset : adds_only P Torchvision.len_of_dataset.
Proof.
  apply adds_only_silent. intros fr.
  unfold Torchvision.len_of_dataset, Torchvision.read_self, bind, get, ret,
    raise.
  simpl. destruct (Torchvision._dataset (Torchvision.self fr)); reflexivity.
Qed.

Lemma adds_only_store_test_data : adds_only P Torchvision.store_test_data.
Proof.
  apply adds_only_silent. intros fr. rewrite store_test_data_outcome.
  destruct (Torchvision.test_data fr); reflexivity.
Qed.

Lemma adds_only_make_data_loaders
    (make_data_loaders : Torchvision.obj -> Z -> option exn) (n : Z) :
  adds_only P (Torchvision._make_data_loaders make_data_loaders n).
Proof.
  apply adds_only_silent. intros fr.
  unfold Torchvision._make_data_loaders, Torchvision.read_self, bind, get,
    ret, raise.
  simpl. destruct (make_data_loaders (Torchvision.self fr) n); reflexivity.
Qed.

End Calls.

Lemma head_is_str_in (items : list pyval) (name : string) :
  Torchvision.head_is items name = true -> str_in name items = true.
Proof.
  destruct items as [ | [ | b | z | lit | s | l ] items]; simpl;
    try discriminate.
  intros H. apply String.eqb_eq in H as ->.
  rewrite String.eqb_refl. reflexivity.
Qed.

(** Steps that add nothing, and the structure around the calls. *)
Ltac adds_only_step :=
  first
    [ apply adds_only_call
    | apply adds_only_len_of_dataset
    | apply adds_only_store_test_data
    | apply adds_only_make_data_loaders
    | apply adds_only_silent; intros ?; reflexivity
    | apply adds_only_try_except
    | apply adds_only_try_finally
    | apply adds_only_bind; [ | intros ? ] ].

Section AskedFor.

Variable dataset_class :
  string -> string -> Torchvision.selector -> exn + Torchvision.torch_dataset.
Variable make_data_loaders : Torchvision.obj -> Z -> option exn.
Variables dataset_dir dataset_name : string.
Variable items : list pyval.

Lemma single_split_asks :
  adds_only (asked_for items dataset_dir dataset_name)
    (Torchvision.single_split dataset_class dataset_dir dataset_name items).
Proof.
  unfold Torchvision.single_split.
  apply adds_only_bind; [ | intros; adds_only_step].
  destruct (Torchvision.head_is items "train") eqn:Htrain;
    [ | destruct (Torchvision.head_is items "validation") eqn:Hval;
        [ | destruct (Torchvision.head_is items "test") eqn:Htest ] ];
    repeat adds_only_step;
    (split; [reflexivity | split; [reflexivity | ]]);
    apply head_is_str_in; assumption.
Qed.

Lemma multiple_splits_asks :
  adds_only (asked_for items dataset_dir dataset_name)
    (Torchvision.multiple_splits dataset_class dataset_dir dataset_name items).
Proof.
  unfold Torchvision.multiple_splits, Torchvision.add_train,
    Torchvision.add_validation, Torchvision.add_test,
    Torchvision.load_test_data.
  destruct (str_in "train" items) eqn:Htrain;
    destruct (str_in "validation" items) eqn:Hval;
    destruct (str_in "test" items) eqn:Htest;
    repeat first
      [ adds_only_step
      | match goal with
        | |- adds_only _ (if ?c then _ else _) => destruct c
        end ];
    (split; [reflexivity | split; [reflexivity | assumption]]).
Qed.

(** Every call that the constructor makes to the torchvision class,
    whether it goes on to return or to raise, is for the given dataset
    name and directory and for a part that [split] names: a part that was
    not requested is never loaded. *)
Theorem constructor_loads_requested_parts_only (download : bool)
    (num_workers : Z) (shuffle_files : bool) :
  Forall (asked_for items dataset_dir dataset_name)
    (snd (Torchvision.new dataset_class make_data_loaders dataset_dir
            dataset_name (PyList items) download num_workers shuffle_files)).
Proof.
  assert (Hrest :
            adds_only (asked_for items dataset_dir dataset_name)
              (Torchvision.__init__ dataset_class make_data_loaders
                 dataset_dir dataset_name (PyList items) download
                 num_workers shuffle_files)).
  { unfold Torchvision.__init__. intros fr.
    unfold bind at 1. rewrite check_arguments_outcome.
    destruct (forallb _ items);
      [ | exists []; rewrite app_nil_r; split; [reflexivity | constructor]].
    destruct (existsb _ Torchvision.DATASETS);
      [ | exists []; rewrite app_nil_r; split; [reflexivity | constructor]].
    revert fr.
    change (adds_only (asked_for items dataset_dir dataset_name)
              (Torchvision.on_self
                 (fun _ =>
                    {| Torchvision._dataset_dir := dataset_dir;
                       Torchvision._dataset_name := dataset_name;
                       Torchvision._num_workers := num_workers;
                       Torchvision._shuffle := shuffle_files;
                       Torchvision._preprocessed := [];
                       Torchvision._dataset := None;
                       Torchvision._train_indices := None;
                       Torchvision._validation_indices := None;
                       Torchvision._test_indices := None;
                       Torchvision._validation_type := None;
                       Torchvision._info := None |}) ;;;
               (if (List.length items =? 1)%nat
                then Torchvision.single_split dataset_class dataset_dir
                       dataset_name items
                else Torchvision.multiple_splits dataset_class dataset_dir
                       dataset_name items) ;;;
               Torchvision._make_data_loaders make_data_loaders 1 ;;;
               size <- Torchvision.len_of_dataset ;;
               Torchvision.on_self
                 (Torchvision.with_info
                    [("name", PyStr dataset_name); ("size", PyInt size)]))).
    apply adds_only_bind; [adds_only_step | intros _].
    apply adds_only_bind;
      [destruct (List.length items =? 1)%nat;
       [apply single_split_asks | apply multiple_splits_asks] | intros _].
    repeat adds_only_step. }
  destruct (Hrest (Torchvision.Frame Torchvision.blank None []))
    as (evs & Htr & Hevs).
  unfold Torchvision.new.
  destruct (Torchvision.__init__ _ _ _ _ _ _ _ _ _) as [[e | []] fr];
    simpl in *; rewrite Htr; exact Hevs.
Qed.

End AskedFor.


(** ** The order of the names in [split] *)

(** With several splits only the set of names in [split] counts, not their
    order or repetition: two lists of valid names that are not of length
    one and name the same parts give the same outcome, the same object or
    the same exception, after the same calls to torchvision.  The parts
    are always taken in the order train, validation, test. *)
Theorem split_order_is_irrelevant
    (dataset_class : string -> string -> Torchvision.selector
                     -> exn + Torchvision.torch_dataset)
    (make_data_loaders : Torchvision.obj -> Z -> option exn)
    (dataset_dir dataset_name : string) (items items' : list pyval)
    (download : bool) (num_workers : Z) (shuffle_files : bool) :
  (forall v, In v items -> In v split_names) ->
  (forall v, In v items' -> In v split_names) ->
  List.length items <> 1%nat ->
  List.length items' <> 1%nat ->
  (forall name, In (PyStr name) split_names ->
     str_in name items = str_in name items') ->
  Torchvision.new dataset_class make_data_loaders dataset_dir dataset_name
    (PyList items) download num_workers shuffle_files
  = Torchvision.new dataset_class make_data_loaders dataset_dir dataset_name
      (PyList items') download num_workers shuffle_files.
Proof.
  intros Hgood Hgood' Hlen Hlen' Hsame.
  apply all_members_good in Hgood, Hgood'.
  apply Nat.eqb_neq in Hlen, Hlen'.
  unfold Torchvision.new, Torchvision.__init__.
  match goal with
  | |- context [bind (Torchvision.check_arguments _ (PyList items)) ?k] =>
      set (K := k)
  end.
  set (fr0 := Torchvision.Frame Torchvision.blank None []).
  assert (Hcheck :
            forall its,
              forallb (fun v => negb (bad_split_member v)) its = true ->
              bind (Torchvision.check_arguments dataset_name (PyList its)) K
                fr0
              = if existsb (String.eqb dataset_name) Torchvision.DATASETS
                then K its fr0
                else (inl (ValueError msg_dataset_name), fr0)).
  { intros its Hits. unfold bind at 1.
    rewrite check_arguments_outcome, Hits.
    destruct (existsb _ Torchvision.DATASETS); reflexivity. }
  rewrite (Hcheck items Hgood), (Hcheck items' Hgood').
  destruct (existsb _ Torchvision.DATASETS); [ | reflexivity].
  assert (HK : K items fr0 = K items' fr0); [ | rewrite HK; reflexivity].
  subst K. cbv beta. rewrite Hlen, Hlen'.
  unfold Torchvision.multiple_splits.
  rewrite <- (Hsame "train"), <- (Hsame "validation"), <- (Hsame "test");
    [reflexivity | | | ]; unfold split_names; simpl; auto.
Qed.

Lemma split_order_is_irrelevant_witness :
  Torchvision.new Examples.cifar_class Examples.loaders_ok "data" "CIFAR10"
    (PyList [PyStr "test"; PyStr "train"]) true 0 false
  = Torchvision.new Examples.cifar_class Examples.loaders_ok "data" "CIFAR10"
      (PyList [PyStr "train"; PyStr "test"; PyStr "train"]) true 0 false.
Proof.
  apply (split_order_is_irrelevant Examples.cifar_class Examples.loaders_ok
           "data" "CIFAR10" [PyStr "test"; PyStr "train"]
           [PyStr "train"; PyStr "test"; PyStr "train"] true 0 false).
  - intros v [<- | [<- | []]]; unfold split_names; simpl; auto.
  - intros v [<- | [<- | [<- | []]]]; unfold split_names; simpl; auto.
  - simpl. lia.
  - simpl. lia.
  - intros name [[= <-] | [[= <-] | [[= <-] | []]]]; reflexivity.
Defined.
